(** * Multiagent-RL: the Pac-Man adapter, its message catalog and its features

    A shallow embedding of three files of the repository:

    - [messages.py]: the catalog of message classes ([Module Messages]);
    - [experiments/pacman/features.py]: the feature extractors
      ([Module Features]);
    - [pacman/adapter.py]: the experiment driver [BerkeleyAdapter] and the
      Pac-Man side adapter agent [BerkeleyAdapterAgent] ([Module Adapter]).

    Python objects are records, mutable state is threaded explicitly through
    a state-and-exception monad, and what the files import but do not define
    (the Berkeley simulator, the transport, the ghost adapters, the file
    system) enters as a record of functions, [Adapter.Externals]. *)

From Stdlib Require Import ZArith List String Lia Floats.
From stdpp Require Import base gmap strings list pretty.

Local Open Scope string_scope.
Local Open Scope list_scope.
Local Open Scope Z_scope.

(** ** Python values, exceptions and the effect monad *)

(** The dynamically typed values that travel as message fields. *)
Inductive PyVal : Type :=
| PyNone
| PyBool (b : bool)
| PyInt (n : Z)
| PyStr (s : string)
| PyTuple (a b : PyVal).

#[global] Instance PyVal_inhabited : Inhabited PyVal := populate PyNone.

(** Python truthiness, as [if x:] tests it. *)
Definition truthy (v : PyVal) : bool :=
  match v with
  | PyNone => false
  | PyBool b => b
  | PyInt n => negb (Z.eqb n 0)
  | PyStr s => negb (String.eqb s EmptyString)
  | PyTuple _ _ => true
  end.

(** The exceptions the modelled code can raise. *)
Inductive PyExn : Type :=
| ValueError (msg : string)
| AssertionError
| TypeError (msg : string)
| AttributeError (name : string)
| NameError (name : string)
| KeyError
| IndexError
| ZeroDivisionError
| OverflowError
| UnicodeEncodeError.

(** A computation over a mutable state [S]: it ends in a value or in a raised
    exception, and in both cases leaves the state it reached (an exception
    does not roll back what was already assigned). *)
Definition Py (S A : Type) : Type := S -> (PyExn + A) * S.

#[global] Instance Py_ret {S} : MRet (Py S) := fun A x s => (inr x, s).

#[global] Instance Py_bind {S} : MBind (Py S) := fun A B f m s =>
  match m s with
  | (inr x, s') => f x s'
  | (inl e, s') => (inl e, s')
  end.

Definition raise {S A} (e : PyExn) : Py S A := fun s => (inl e, s).

(** The outcome of a pure operation that may raise. *)
Definition outcome {S A} (r : PyExn + A) : Py S A := fun s => (r, s).
Definition get {S} : Py S S := fun s => (inr s, s).
Definition modify {S} (f : S -> S) : Py S unit := fun s => (inr tt, f s).

(** Running a computation on a part of the state (a method of an object held
    in a field of [self]). *)
Definition zoom {S T A} (proj : S -> T) (inj : T -> S -> S) (m : Py T A)
  : Py S A :=
  fun s => let '(r, t) := m (proj s) in (r, inj t s).

Definition assoc {V} (name : string) (l : list (string * V)) : option V :=
  snd <$> List.find (fun p => String.eqb p.1 name) l.

(** ** messages.py: the message catalog *)

Module Messages.

Definition STATE : string := "State".
Definition ACTION : string := "Action".
Definition INIT : string := "Init".
Definition SAVE : string := "Save".
Definition LOAD : string := "Load".
Definition ACK : string := "Ack".
Definition REQUEST_BEHAVIOR_COUNT : string := "RequestBehaviorCount".
Definition BEHAVIOR_COUNT : string := "BehaviorCount".

(** One constructor per class of the file, holding the attributes its
    [__init__] assigns, in the order it assigns them. *)
Inductive Message : Type :=
| AckMessage (msg_type : PyVal)
| StateMessage (msg_type index pacman_position ghost_positions
                food_positions wall_positions legal_actions reward
                executed_action explore : PyVal)
| ActionMessage (msg_type index action : PyVal)
| InitMessage (msg_type : PyVal)
| SaveMessage (msg_type index filename : PyVal)
| LoadMessage (msg_type index filename : PyVal)
| RequestBehaviorCountMessage (msg_type index : PyVal)
| BehaviorCountMessage (msg_type count : PyVal).

(** The eight classes, named by the kind each one stands for. *)
Inductive Kind : Type :=
| State | Action | Init | Save | Load | Ack
| RequestBehaviorCount | BehaviorCount.

Definition all_kinds : list Kind :=
  [State; Action; Init; Save; Load; Ack; RequestBehaviorCount; BehaviorCount].

Definition tag (k : Kind) : string :=
  match k with
  | State => STATE
  | Action => ACTION
  | Init => INIT
  | Save => SAVE
  | Load => LOAD
  | Ack => ACK
  | RequestBehaviorCount => REQUEST_BEHAVIOR_COUNT
  | BehaviorCount => BEHAVIOR_COUNT
  end.

Definition class_name (k : Kind) : string :=
  match k with
  | State => "StateMessage"
  | Action => "ActionMessage"
  | Init => "InitMessage"
  | Save => "SaveMessage"
  | Load => "LoadMessage"
  | Ack => "AckMessage"
  | RequestBehaviorCount => "RequestBehaviorCountMessage"
  | BehaviorCount => "BehaviorCountMessage"
  end.

(** The parameters of each [__init__] after [self], with their defaults. *)
Definition init_params (k : Kind) : list (string * PyVal) :=
  match k with
  | Ack => [("msg_type", PyStr ACK)]
  | State =>
      [("msg_type", PyStr STATE); ("index", PyNone);
       ("pacman_position", PyNone); ("ghost_positions", PyNone);
       ("food_positions", PyNone); ("wall_positions", PyNone);
       ("legal_actions", PyNone); ("reward", PyNone);
       ("executed_action", PyNone); ("explore", PyNone)]
  | Action => [("msg_type", PyStr ACTION); ("index", PyNone); ("action", PyNone)]
  | Init => [("msg_type", PyStr INIT)]
  | Save => [("msg_type", PyStr SAVE); ("index", PyNone); ("filename", PyNone)]
  | Load => [("msg_type", PyStr LOAD); ("index", PyNone); ("filename", PyNone)]
  | RequestBehaviorCount =>
      [("msg_type", PyStr REQUEST_BEHAVIOR_COUNT); ("index", PyNone)]
  | BehaviorCount => [("msg_type", PyStr BEHAVIOR_COUNT); ("count", PyNone)]
  end.

(** Python's binding of a call's arguments to parameters that all have
    defaults: positional arguments fill the parameters from the left, a
    keyword argument fills the parameter of its name, what is left takes its
    default. *)
Fixpoint bind_params (params : list (string * PyVal)) (args : list PyVal)
    (kwargs : gmap string PyVal) : list (string * PyVal) :=
  match params with
  | [] => []
  | (name, dflt) :: params' =>
      match args with
      | a :: args' => (name, a) :: bind_params params' args' kwargs
      | [] => (name, default dflt (kwargs !! name)) :: bind_params params' [] kwargs
      end
  end.

Definition bind_arguments (params : list (string * PyVal)) (args : list PyVal)
    (kwargs : gmap string PyVal) : PyExn + list (string * PyVal) :=
  if bool_decide (length params < length args)%nat then
    inl (TypeError "__init__() takes fewer arguments")
  else if negb (bool_decide (dom kwargs ⊆ list_to_set params.*1)) then
    inl (TypeError "__init__() got an unexpected keyword argument")
  else if negb (forallb (fun name => bool_decide (kwargs !! name = None))
                  (take (length args) params.*1)) then
    inl (TypeError "__init__() got multiple values for keyword argument")
  else inr (bind_params params args kwargs).

Definition arg (env : list (string * PyVal)) (name : string) : PyVal :=
  default PyNone (assoc name env).

(** The bodies of the eight [__init__]: each stores its parameters. *)
Definition init_body (k : Kind) (env : list (string * PyVal)) : Message :=
  match k with
  | Ack => AckMessage (arg env "msg_type")
  | State =>
      StateMessage (arg env "msg_type") (arg env "index")
        (arg env "pacman_position") (arg env "ghost_positions")
        (arg env "food_positions") (arg env "wall_positions")
        (arg env "legal_actions") (arg env "reward")
        (arg env "executed_action") (arg env "explore")
  | Action => ActionMessage (arg env "msg_type") (arg env "index") (arg env "action")
  | Init => InitMessage (arg env "msg_type")
  | Save => SaveMessage (arg env "msg_type") (arg env "index") (arg env "filename")
  | Load => LoadMessage (arg env "msg_type") (arg env "index") (arg env "filename")
  | RequestBehaviorCount =>
      RequestBehaviorCountMessage (arg env "msg_type") (arg env "index")
  | BehaviorCount => BehaviorCountMessage (arg env "msg_type") (arg env "count")
  end.

(** [construct k args kwargs] is a call of the class of kind [k] with the
    positional arguments [args] and the keyword arguments [kwargs]. *)
Definition construct (k : Kind) (args : list PyVal) (kwargs : gmap string PyVal)
  : PyExn + Message :=
  match bind_arguments (init_params k) args kwargs with
  | inl e => inl e
  | inr env => inr (init_body k env)
  end.

Definition kind_of (m : Message) : Kind :=
  match m with
  | AckMessage _ => Ack
  | StateMessage _ _ _ _ _ _ _ _ _ _ => State
  | ActionMessage _ _ _ => Action
  | InitMessage _ => Init
  | SaveMessage _ _ _ => Save
  | LoadMessage _ _ _ => Load
  | RequestBehaviorCountMessage _ _ => RequestBehaviorCount
  | BehaviorCountMessage _ _ => BehaviorCount
  end.

(** The attributes of an instance. *)
Definition attributes (m : Message) : list (string * PyVal) :=
  match m with
  | AckMessage t => [("msg_type", t)]
  | StateMessage t i pp gp fp wp la r ea ex =>
      [("msg_type", t); ("index", i); ("pacman_position", pp);
       ("ghost_positions", gp); ("food_positions", fp);
       ("wall_positions", wp); ("legal_actions", la); ("reward", r);
       ("executed_action", ea); ("explore", ex)]
  | ActionMessage t i a => [("msg_type", t); ("index", i); ("action", a)]
  | InitMessage t => [("msg_type", t)]
  | SaveMessage t i f => [("msg_type", t); ("index", i); ("filename", f)]
  | LoadMessage t i f => [("msg_type", t); ("index", i); ("filename", f)]
  | RequestBehaviorCountMessage t i => [("msg_type", t); ("index", i)]
  | BehaviorCountMessage t c => [("msg_type", t); ("count", c)]
  end.

Definition getattr (m : Message) (name : string) : option PyVal :=
  assoc name (attributes m).

End Messages.

(** ** experiments/pacman/features.py *)

Module Features.

Local Open Scope float_scope.

(** The state object a feature is called on, by the methods the features
    call; positions are (row, column) pairs. *)
Record State : Type := {
  get_position : Z * Z;
  get_agent_position : Z -> Z * Z;
  calculate_distance : Z * Z -> Z * Z -> float;
  get_food_distance : float;
  get_fragile_agent : Z -> float
}.

(** [a / b] on Python floats: division by a zero of either sign raises,
    anything else is the IEEE 754 quotient. *)
Definition truediv (a b : float) : PyExn + float :=
  if b =? 0 then inl ZeroDivisionError else inr (a / b).

Definition XPositionFeature (state : State) : Z :=
  let agent_position := get_position state in
  agent_position.2.

Definition YPositionFeature (state : State) : Z :=
  let agent_position := get_position state in
  agent_position.1.

Definition EnemyDistanceFeature (enemy_id : Z) (state : State) : PyExn + float :=
  let agent_position := get_position state in
  let enemy_position := get_agent_position state enemy_id in
  let distance := calculate_distance state agent_position enemy_position in
  let distance := if distance =? 0 then 1 else distance in
  truediv 1 distance.

Definition FoodDistanceFeature (state : State) : PyExn + float :=
  let distance := get_food_distance state in
  let distance := if distance =? 0 then 1 else distance in
  truediv 1 distance.

Definition FragileAgentFeature (agent_id : Z) (state : State) : float :=
  get_fragile_agent state agent_id.

End Features.

(** ** pacman/adapter.py *)

Module Adapter.

(** Default settings (CLI parsing). *)
Definition DEFAULT_GHOST_AGENT : string := "ai".
Definition DEFAULT_LAYOUT : string := "classic".
Definition DEFAULT_NUMBER_OF_GHOSTS : Z := 3.
Definition DEFAULT_NUMBER_OF_LEARNING_RUNS : Z := 100.
Definition DEFAULT_NUMBER_OF_TEST_RUNS : Z := 15.
Definition DEFAULT_PACMAN_AGENT : string := "random".
Definition DEFAULT_NOISE : Z := 0.

(** *** What the file imports from the Berkeley simulator *)

Inductive Directions : Type := NORTH | SOUTH | EAST | WEST | STOP.

Record Layout : Type := { width : Z; height : Z }.

(** A simulator game state, by the accessors the adapter calls on it.
    Positions are (x, y) pairs and, like the score, integers; grids are
    lists of columns; [scaredTimers] lists
    [data.agentStates[i].scaredTimer]. *)
Record GameState : Type := {
  getPacmanPosition : Z * Z;
  getGhostPositions : list (Z * Z);
  getFood : list (list bool);
  getWalls : list (list bool);
  scaredTimers : list Z;
  getLegalActions : Z -> list Directions;
  getScore : Z
}.

(** Modelled from the spec: one run of [runGames] as the simulator sees its
    Pac-Man agent. It asks the agent for an action, state after state,
    until the game is over, and hands back the game's last state. *)
Inductive Game : Type :=
| Turn (state : GameState) (next : Directions -> Game)
| Over (state : GameState).

(** *** What the file imports from agents *)

Inductive PacmanClass : Type :=
| RandomPacmanAgent
| RandomPacmanAgentTwo
| BehaviorLearningPacmanAgent
| EaterPacmanAgent.

Inductive GhostClass : Type :=
| RandomGhost
| BehaviorLearningGhostAgent.

#[global] Instance GhostClass_eq_dec : EqDecision GhostClass.
Proof. solve_decision. Defined.

(** *** The messages the file builds

    The classes are those the file names after [messages.]; each message is
    the class and the arguments of the call that builds it. *)
Module messages.

Record StateFields : Type := {
  agent_id : Z;
  agent_positions : gmap Z (Z * Z);
  food_positions : list (Z * Z);
  fragile_agents : gmap Z float;
  wall_positions : list (Z * Z);
  legal_actions : list Directions;
  reward : Z;
  executed_action : Directions;
  test_mode : bool
}.

Inductive Message : Type :=
| PolicyMessage (policy : PyVal)
| RequestRegisterMessage (agent_id : Z) (agent_team : string)
    (agent_class : PacmanClass)
| RequestInitializationMessage (agent_id : Z)
| RequestGameStartMessage (agent_id map_width map_height : Z)
| RequestBehaviorCountMessage (agent_id : Z)
| StateMessage (fields : StateFields).

Definition class_name (m : Message) : string :=
  match m with
  | PolicyMessage _ => "PolicyMessage"
  | RequestRegisterMessage _ _ _ => "RequestRegisterMessage"
  | RequestInitializationMessage _ => "RequestInitializationMessage"
  | RequestGameStartMessage _ _ _ => "RequestGameStartMessage"
  | RequestBehaviorCountMessage _ => "RequestBehaviorCountMessage"
  | StateMessage _ => "StateMessage"
  end.

(** What [communicate] hands back: an object that may carry an [action] and
    may carry a [count]. *)
Inductive Reply : Type :=
| ActionReply (action : Directions)
| AckReply
| BehaviorCountReply (count : gmap string Z).

End messages.
Import messages.



(** *** The world outside the two classes

    [noise] and [pacman_index] are the class attributes of
    [BerkeleyAdapterAgent]; [sent] lists the messages the Pac-Man agent
    handed to [communicate], oldest first (the ghost adapters have
    channels of their own, which are not modelled); [random_source] is the
    generator behind [random.randrange] and [random_draws] counts its
    draws; [games_run] counts the calls of the simulator. *)
Record World {R : Type} : Type := {
  noise : Z;
  pacman_index : Z;
  sent : list Message;
  responder : R;
  random_source : nat -> Z;
  random_draws : nat;
  games_run : nat
}.
Arguments World : clear implicits.

(** What the file calls but does not define. *)
Record Externals {R : Type} : Type := {
  (* the other end of the Pac-Man agent's channel *)
  respond : R -> Message -> Reply * R;
  (* berkeley.layout.getLayout *)
  get_berkeley_layout : string -> option Layout;
  (* berkeley.pacman.runGames, by the layout and the number of earlier games *)
  run_berkeley_games : Layout -> nat -> Game;
  (* GhostAdapterAgent.get_behavior_count, by ghost and number of games *)
  ghost_behavior_count : Z -> nat -> gmap string Z;
  (* os.path.isfile and pickle.loads on a policy file *)
  read_policies : string -> option (gmap Z PyVal);
  (* sys.maxint, the largest value of a C long, which has 32 bits at least *)
  sys_maxint : Z;
  sys_maxint_32 : 2147483647 <= sys_maxint
}.
Arguments Externals : clear implicits.

Section WithWorld.
Context {R : Type}.

(** The module as loaded: the class body sets both class attributes. *)
Definition loaded (r : R) (source : nat -> Z) : World R :=
  {| noise := 0; pacman_index := 0; sent := []; responder := r;
     random_source := source; random_draws := 0; games_run := 0 |}.

(** [random.randrange(start, stop)]. *)
Definition randrange (start stop : Z) : Py (World R) Z := fun w =>
  if bool_decide (stop <= start) then
    (inl (ValueError "empty range for randrange()"), w)
  else
    (inr (start + random_source w (random_draws w) `mod` (stop - start)),
     {| noise := noise w; pacman_index := pacman_index w; sent := sent w;
        responder := responder w; random_source := random_source w;
        random_draws := S (random_draws w); games_run := games_run w |}).

Definition count_game : Py (World R) nat := fun w =>
  (inr (games_run w),
   {| noise := noise w; pacman_index := pacman_index w; sent := sent w;
      responder := responder w; random_source := random_source w;
      random_draws := random_draws w; games_run := S (games_run w) |}).

(** Modelled from the spec: the channel's [send_and_wait], which is what
    [communicate] of the base class does ([core.py] is not among the
    sources): the message goes to the responder, whose reply comes back;
    [sent] keeps the message. *)
Definition exchange (ext : Externals R) (message : Message)
  : Py (World R) Reply := fun w =>
  let '(reply, r) := respond ext (responder w) message in
  (inr reply,
   {| noise := noise w; pacman_index := pacman_index w;
      sent := sent w ++ [message]; responder := r;
      random_source := random_source w; random_draws := random_draws w;
      games_run := games_run w |}).

(** A computation on the world, run beside an object. *)
Definition on_world {S A} (m : Py (World R) A) : Py (S * World R) A :=
  zoom snd (fun w s => (s.1, w)) m.

Definition self {S} : Py (S * World R) S := fun s => (inr s.1, s).
Definition assign {S} (f : S -> S) : Py (S * World R) unit :=
  modify (fun s => (f s.1, s.2)).

(** [for x in l: body]. *)
Fixpoint for_ {S A} (l : list A) (body : A -> Py S unit) : Py S unit :=
  match l with
  | [] => mret tt
  | x :: l' => body x;; for_ l' body
  end.

(** The values [xrange(n)] runs through. *)
Definition xrange_items (n : Z) : list Z := Z.of_nat <$> seq 0 (Z.to_nat n).

(** [n] fits a C long. *)
Definition fits_long (ext : Externals R) (n : Z) : Prop :=
  - sys_maxint ext - 1 <= n <= sys_maxint ext.

(** [xrange(n)]: the argument is converted to a C long, which raises when
    it does not fit. *)
Definition xrange {S} (ext : Externals R) (n : Z) : Py S (list Z) :=
  if bool_decide (- sys_maxint ext - 1 <= n <= sys_maxint ext)
  then mret (xrange_items n)
  else raise OverflowError.

End WithWorld.

(** *** class BerkeleyAdapterAgent *)

Module BerkeleyAdapterAgent.

(** An instance, by its attributes. [previous_score] and [previous_action]
    are assigned by [_reset_game_data] only, so they are absent until the
    first [start_game]; [results_scores] and [results_behavior_count] are
    the two entries of the dict [results]. *)
Record Agent : Type := {
  index : Z;
  agent_type : string;
  agent_class : option PacmanClass;
  policy : PyVal;
  game_state : option GameState;
  is_test_mode : bool;
  layout : option Layout;
  results_scores : list Z;
  results_behavior_count : gmap Z (gmap string (list Z));
  previous_score : option Z;
  previous_action : option Directions
}.

Definition set_agent_class (v : option PacmanClass) (a : Agent) : Agent :=
  {| index := index a; agent_type := agent_type a; agent_class := v;
     policy := policy a; game_state := game_state a;
     is_test_mode := is_test_mode a; layout := layout a;
     results_scores := results_scores a;
     results_behavior_count := results_behavior_count a;
     previous_score := previous_score a;
     previous_action := previous_action a |}.

Definition set_policy (v : PyVal) (a : Agent) : Agent :=
  {| index := index a; agent_type := agent_type a;
     agent_class := agent_class a; policy := v; game_state := game_state a;
     is_test_mode := is_test_mode a; layout := layout a;
     results_scores := results_scores a;
     results_behavior_count := results_behavior_count a;
     previous_score := previous_score a;
     previous_action := previous_action a |}.

Definition set_game_state (v : option GameState) (a : Agent) : Agent :=
  {| index := index a; agent_type := agent_type a;
     agent_class := agent_class a; policy := policy a; game_state := v;
     is_test_mode := is_test_mode a; layout := layout a;
     results_scores := results_scores a;
     results_behavior_count := results_behavior_count a;
     previous_score := previous_score a;
     previous_action := previous_action a |}.

Definition set_is_test_mode (v : bool) (a : Agent) : Agent :=
  {| index := index a; agent_type := agent_type a;
     agent_class := agent_class a; policy := policy a;
     game_state := game_state a; is_test_mode := v; layout := layout a;
     results_scores := results_scores a;
     results_behavior_count := results_behavior_count a;
     previous_score := previous_score a;
     previous_action := previous_action a |}.

Definition set_layout (v : option Layout) (a : Agent) : Agent :=
  {| index := index a; agent_type := agent_type a;
     agent_class := agent_class a; policy := policy a;
     game_state := game_state a; is_test_mode := is_test_mode a; layout := v;
     results_scores := results_scores a;
     results_behavior_count := results_behavior_count a;
     previous_score := previous_score a;
     previous_action := previous_action a |}.

Definition set_results_scores (v : list Z) (a : Agent) : Agent :=
  {| index := index a; agent_type := agent_type a;
     agent_class := agent_class a; policy := policy a;
     game_state := game_state a; is_test_mode := is_test_mode a;
     layout := layout a; results_scores := v;
     results_behavior_count := results_behavior_count a;
     previous_score := previous_score a;
     previous_action := previous_action a |}.

Definition set_previous_score (v : option Z) (a : Agent) : Agent :=
  {| index := index a; agent_type := agent_type a;
     agent_class := agent_class a; policy := policy a;
     game_state := game_state a; is_test_mode := is_test_mode a;
     layout := layout a; results_scores := results_scores a;
     results_behavior_count := results_behavior_count a;
     previous_score := v; previous_action := previous_action a |}.

Definition set_previous_action (v : option Directions) (a : Agent) : Agent :=
  {| index := index a; agent_type := agent_type a;
     agent_class := agent_class a; policy := policy a;
     game_state := game_state a; is_test_mode := is_test_mode a;
     layout := layout a; results_scores := results_scores a;
     results_behavior_count := results_behavior_count a;
     previous_score := previous_score a; previous_action := v |}.

(** [__init__]: the agent type is stored as given; the simulator's [Agent]
    base class is initialised with index 0. *)
Definition __init__ (agent_type : string) : Agent :=
  {| index := 0; agent_type := agent_type; agent_class := None;
     policy := PyNone; game_state := None; is_test_mode := false;
     layout := None; results_scores := []; results_behavior_count := ∅;
     previous_score := None; previous_action := None |}.

Definition agent_id (a : Agent) : Z := index a.

(** Reading an attribute that may not have been assigned yet, or reading the
    attribute [name] of what may be [None]. *)
Definition attribute {S A} (name : string) (v : option A) : Py S A :=
  match v with
  | Some x => mret x
  | None => raise (AttributeError name)
  end.

(** [pos[::-1]] on a pair. *)
Definition reversed (pos : Z * Z) : Z * Z := (pos.2, pos.1).

(** The cells of a grid that hold [True], as the two nested [enumerate]
    loops of [send_state] list them. *)
Definition true_cells (grid : list (list bool)) : list (Z * Z) :=
  mjoin (imap (fun x row =>
    omap id (imap (fun y (is_set : bool) =>
      if is_set then Some (Z.of_nat y, Z.of_nat x) else None) row)) grid).

Definition fragile_of (timers : list Z) : gmap Z float :=
  fold_left (fun (fragile_agents : gmap Z float) '(id_, scaredTimer) =>
               <[id_ := if 0 <? scaredTimer then 1%float else 0%float]>
                 fragile_agents)
    (imap (fun i t => (Z.of_nat i, t)) timers) ∅.

Section Methods.
Context {R : Type} (ext : Externals R).

#[local] Abbreviation M := (Py (Agent * World R)).

(** [communicate], of the base class: one request, one reply. *)
Definition communicate (message : Message) : M Reply :=
  on_world (exchange ext message).

Definition _noise_error : M Z :=
  w ← on_world get;
  on_world (randrange (- noise w) (noise w + 1)).

Definition _calculate_reward (current_score : Z) : M Z :=
  a ← self;
  previous_score ← attribute "previous_score" (previous_score a);
  mret (current_score - previous_score).

(** The loop of [send_state] over the ghosts, from identifier [id_] on. *)
Fixpoint ghost_positions_loop (id_ : Z) (ghosts : list (Z * Z))
    (agent_positions : gmap Z (Z * Z)) : M (gmap Z (Z * Z)) :=
  match ghosts with
  | [] => mret agent_positions
  | pos :: ghosts' =>
      e_y ← _noise_error;
      let pos_y := (reversed pos).1 + e_y in
      e_x ← _noise_error;
      let pos_x := (reversed pos).2 + e_x in
      ghost_positions_loop (id_ + 1) ghosts'
        (<[id_ + 1 := (pos_y, pos_x)]> agent_positions)
  end.

Definition send_state : M Reply :=
  a ← self;
  w ← on_world get;
  game_state ← attribute "getPacmanPosition" (game_state a);
  let agent_positions : gmap Z (Z * Z) :=
    <[pacman_index w := reversed (getPacmanPosition game_state)]> ∅ in
  agent_positions ←
    ghost_positions_loop 0 (getGhostPositions game_state) agent_positions;
  let food_positions := true_cells (getFood game_state) in
  let fragile_agents := fragile_of (scaredTimers game_state) in
  let wall_positions := true_cells (getWalls game_state) in
  reward ← _calculate_reward (getScore game_state);
  assign (set_previous_score (Some (getScore game_state)));;
  previous_action ← attribute "previous_action" (previous_action a);
  let message := StateMessage
    {| messages.agent_id := agent_id a;
       agent_positions := agent_positions;
       food_positions := food_positions;
       fragile_agents := fragile_agents;
       wall_positions := wall_positions;
       legal_actions := getLegalActions game_state (agent_id a);
       reward := reward;
       executed_action := previous_action;
       test_mode := is_test_mode a |} in
  communicate message.

Definition receive_action : M Directions :=
  action_message ← send_state;
  match action_message with
  | ActionReply action => mret action
  | _ => raise (AttributeError "action")
  end.

(** [getAction], the simulator's callback. *)
Definition getAction (game_state : GameState) : M Directions :=
  assign (set_game_state (Some game_state));;
  action ← receive_action;
  assign (set_previous_action (Some action));;
  mret action.

(** [_load_policy]: the argument of [PolicyMessage] is the name [policy],
    which nothing binds. *)
Definition _load_policy : M unit :=
  a ← self;
  if truthy (policy a) then
    policy ← raise (NameError "policy");
    communicate (PolicyMessage policy);;
    mret tt
  else mret tt.

Definition _register : M unit :=
  a ← self;
  (if String.eqb (agent_type a) "random" then
     assign (set_agent_class (Some RandomPacmanAgent))
   else if String.eqb (agent_type a) "random2" then
     assign (set_agent_class (Some RandomPacmanAgentTwo))
   else if String.eqb (agent_type a) "ai" then
     assign (set_agent_class (Some BehaviorLearningPacmanAgent))
   else if String.eqb (agent_type a) "eater" then
     assign (set_agent_class (Some EaterPacmanAgent))
   else
     raise (ValueError "Pac-Man agent must be ai, random, random2 or eater."));;
  a ← self;
  agent_class ← attribute "agent_class" (agent_class a);
  communicate (RequestRegisterMessage (agent_id a) "pacman" agent_class);;
  mret tt.

Definition _initialize : M unit :=
  a ← self;
  communicate (RequestInitializationMessage (agent_id a));;
  mret tt.

Definition start_experiment : M unit :=
  _load_policy;;
  _register;;
  _initialize.

Definition finish_experiment : M unit := mret tt.

Definition _reset_game_data : M unit :=
  assign (set_previous_score (Some 0));;
  assign (set_previous_action (Some NORTH)).

Definition _request_game_start : M unit :=
  a ← self;
  layout ← attribute "width" (layout a);
  communicate (RequestGameStartMessage (agent_id a) (width layout)
                 (height layout));;
  mret tt.

Definition start_game : M unit :=
  _reset_game_data;;
  _request_game_start.

(** The agent's own [_log_behavior_count]. Its first statement calls the
    method again with [self.pacman] as an argument: the instance has no
    such attribute (and the method takes no argument), so the call raises
    and nothing below it runs; the loop names [agent], which nothing
    binds. *)
Definition _log_behavior_count : M unit :=
  a ← self;
  (raise (AttributeError "pacman") : M unit);;
  reply_message ← communicate (RequestBehaviorCountMessage (agent_id a));
  behavior_count ←
    match reply_message with
    | BehaviorCountReply count => mret count
    | _ => raise (AttributeError "count")
    end;
  for_ (map_to_list behavior_count)
    (fun _ => raise (NameError "agent")).

Definition finish_game : M unit :=
  a ← self;
  (if bool_decide (results_scores a = []) then raise IndexError
   else mret tt);;
  if String.eqb (agent_type a) "ai" then _log_behavior_count
  else mret tt.

Definition send_reward : M unit := mret tt.

Definition enable_test_mode : M unit :=
  assign (set_is_test_mode true).

(** The simulator running one game against the agent. *)
Fixpoint play (game : Game) : M GameState :=
  match game with
  | Turn state next => action ← getAction state; play (next action)
  | Over state => mret state
  end.

End Methods.
End BerkeleyAdapterAgent.

(** *** class BerkeleyAdapter *)

Module BerkeleyAdapter.

Import BerkeleyAdapterAgent.

(** A file name as the constructor receives it: a byte string, or a
    unicode string (the command line decodes [--policy-file] to one), given
    by its code points. *)
Inductive Text : Type :=
| Bytes (s : string)
| Unicode (codes : list N).

(** [if name:] on a string: it is not empty. *)
Definition text_truthy (name : Text) : bool :=
  match name with
  | Bytes s => truthy (PyStr s)
  | Unicode codes => negb (bool_decide (codes = []))
  end.

(** [str(name)]: a byte string is returned as it is; a unicode string is
    encoded with the ASCII codec, which raises on a code point above
    127. *)
Definition str (name : Text) : PyExn + string :=
  match name with
  | Bytes s => inr s
  | Unicode codes =>
      if forallb (fun c => (c <? 128)%N) codes
      then inr (string_of_list_ascii (Ascii.ascii_of_N <$> codes))
      else inl UnicodeEncodeError
  end.

(** [str(name) if name else None]. *)
Definition str_if_given (name : option Text) : PyExn + option string :=
  match name with
  | Some name =>
      if text_truthy name then
        match str name with
        | inr s => inr (Some s)
        | inl e => inl e
        end
      else inr None
  | None => inr None
  end.

(** The arguments of the constructor (those that select a transport for the
    ghost adapters apart). *)
Record Config : Type := {
  cfg_pacman_agent : string;
  cfg_ghost_agent : string;
  cfg_num_ghosts : Z;
  cfg_noise : Z;
  cfg_policy_file : option Text;
  cfg_layout_map : string;
  cfg_learn_runs : Z;
  cfg_test_runs : Z;
  cfg_output_file : option Text;
  cfg_graphics : bool
}.

Definition default_config : Config :=
  {| cfg_pacman_agent := DEFAULT_PACMAN_AGENT;
     cfg_ghost_agent := DEFAULT_GHOST_AGENT;
     cfg_num_ghosts := DEFAULT_NUMBER_OF_GHOSTS;
     cfg_noise := DEFAULT_NOISE;
     cfg_policy_file := None;
     cfg_layout_map := DEFAULT_LAYOUT;
     cfg_learn_runs := DEFAULT_NUMBER_OF_LEARNING_RUNS;
     cfg_test_runs := DEFAULT_NUMBER_OF_TEST_RUNS;
     cfg_output_file := None;
     cfg_graphics := false |}.

Record Results : Type := {
  learn_scores : list Z;
  test_scores : list Z;
  behavior_count : gmap Z (gmap string (list Z))
}.

(** An instance, by its attributes. A ghost adapter is held by its
    [agent_id]; [results] and [policies] are absent until [start]. *)
Record Experiment : Type := {
  layout : Layout;
  pacman : Agent;
  num_ghosts : Z;
  ghost_class : GhostClass;
  ghosts : list Z;
  policy_file : option string;
  learn_runs : Z;
  test_runs : Z;
  output_file : string;
  graphics : bool;
  results : option Results;
  policies : option (gmap Z PyVal)
}.

Definition set_pacman (v : Agent) (o : Experiment) : Experiment :=
  {| layout := layout o; pacman := v; num_ghosts := num_ghosts o;
     ghost_class := ghost_class o; ghosts := ghosts o;
     policy_file := policy_file o; learn_runs := learn_runs o;
     test_runs := test_runs o; output_file := output_file o;
     graphics := graphics o; results := results o;
     policies := policies o |}.

Definition set_results (v : option Results) (o : Experiment) : Experiment :=
  {| layout := layout o; pacman := pacman o; num_ghosts := num_ghosts o;
     ghost_class := ghost_class o; ghosts := ghosts o;
     policy_file := policy_file o; learn_runs := learn_runs o;
     test_runs := test_runs o; output_file := output_file o;
     graphics := graphics o; results := v; policies := policies o |}.

Definition set_policies (v : option (gmap Z PyVal)) (o : Experiment)
  : Experiment :=
  {| layout := layout o; pacman := pacman o; num_ghosts := num_ghosts o;
     ghost_class := ghost_class o; ghosts := ghosts o;
     policy_file := policy_file o; learn_runs := learn_runs o;
     test_runs := test_runs o; output_file := output_file o;
     graphics := graphics o; results := results o; policies := v |}.

Definition set_learn_scores (v : list Z) (r : Results) : Results :=
  {| learn_scores := v; test_scores := test_scores r;
     behavior_count := behavior_count r |}.

Definition set_test_scores (v : list Z) (r : Results) : Results :=
  {| learn_scores := learn_scores r; test_scores := v;
     behavior_count := behavior_count r |}.

Definition set_behavior_count (v : gmap Z (gmap string (list Z)))
    (r : Results) : Results :=
  {| learn_scores := learn_scores r; test_scores := test_scores r;
     behavior_count := v |}.

(** Modelled from the spec: a call of a method of a ghost adapter
    ([GhostAdapterAgent], of [agents.py], not among the sources). Adapters
    share no state and each has its own channel, so the call touches
    nothing of the state modelled here. *)
Definition ghost_call {S} (method : string) (ghost : Z) : Py S unit :=
  mret tt.

Definition layout_file (layout_map : string) (num_ghosts : Z) : string :=
  let LAYOUT_PATH := "pacman/layouts" in
  let file_name := pretty num_ghosts +:+ "Ghosts" in
  LAYOUT_PATH +:+ "/" +:+ (layout_map +:+ file_name).

(** One pass of the loop body of [_log_behavior_count]. *)
Definition log_count (agent_id_ : Z) (behavior : string) (count : Z)
    (r : Results) : PyExn + Results :=
  match behavior_count r !! agent_id_ with
  | None => inl KeyError
  | Some of_agent =>
      let of_agent :=
        if bool_decide (behavior ∉ dom of_agent)
        then <[behavior := []]> of_agent else of_agent in
      match of_agent !! behavior with
      | None => inl KeyError
      | Some counts =>
          inr (set_behavior_count
                 (<[agent_id_ := <[behavior := counts ++ [count]]> of_agent]>
                    (behavior_count r)) r)
      end
  end.

Section Methods.
Context {R : Type} (ext : Externals R).

#[local] Abbreviation M := (Py (Experiment * World R)).

(** A method of [self.pacman]. *)
Definition on_pacman {A} (m : Py (Agent * World R) A) : M A :=
  zoom (fun s => (pacman s.1, s.2))
       (fun t s => (set_pacman t.1 s.1, t.2)) m.

Definition the_results : M Results :=
  o ← self;
  attribute "results" (results o).

Definition __init__ (cfg : Config) : Py (World R) Experiment :=
  (* Layout *)
  let layout_file := layout_file (cfg_layout_map cfg) (cfg_num_ghosts cfg) in
  match get_berkeley_layout ext layout_file with
  | None => raise (ValueError ("Layout " +:+ layout_file +:+ " missing."))
  | Some layout =>
      (* Pac-Man *)
      let pacman := BerkeleyAdapterAgent.__init__ (cfg_pacman_agent cfg) in
      (* Ghosts *)
      let num_ghosts := cfg_num_ghosts cfg in
      if negb (bool_decide (1 <= num_ghosts <= 4)) then
        raise (ValueError "Must 1-4 ghost(s).")
      else
        ghost_class ←
          (if String.eqb (cfg_ghost_agent cfg) "random" then mret RandomGhost
           else if String.eqb (cfg_ghost_agent cfg) "ai" then
             mret BehaviorLearningGhostAgent
           else raise (ValueError "Ghost agent must be ai or random."));
        items ← xrange ext (cfg_num_ghosts cfg);
        let ghosts := (fun i => i + 1) <$> items in
        for_ ghosts (ghost_call "register");;
        (* Policies *)
        policy_file ← outcome (str_if_given (cfg_policy_file cfg));
        (* Runs *)
        let learn_runs := cfg_learn_runs cfg in
        (if bool_decide (learn_runs > 0) then mret tt
         else raise AssertionError);;
        let test_runs := cfg_test_runs cfg in
        (if bool_decide (test_runs > 0) then mret tt
         else raise AssertionError);;
        (* Output *)
        output_file ← outcome (str_if_given (cfg_output_file cfg));
        let output_file :=
          default (cfg_pacman_agent cfg +:+ "_" +:+ cfg_layout_map cfg +:+ "_"
                   +:+ pretty (cfg_num_ghosts cfg) +:+ "_"
                   +:+ cfg_ghost_agent cfg +:+ ".res") output_file in
        mret {| layout := layout; pacman := pacman; num_ghosts := num_ghosts;
                ghost_class := ghost_class; ghosts := ghosts;
                policy_file := policy_file; learn_runs := learn_runs;
                test_runs := test_runs; output_file := output_file;
                graphics := cfg_graphics cfg; results := None;
                policies := None |}
  end.

Definition _load_policies_from_file (filename : option string) : M unit :=
  assign (set_policies (Some ∅));;
  match filename with
  | Some f =>
      match read_policies ext f with
      | Some stored => assign (set_policies (Some stored))
      | None => mret tt
      end
  | None => mret tt
  end.

Definition _log_behavior_count (agent : Z) : M unit :=
  w ← on_world get;
  let behavior_count := ghost_behavior_count ext agent (games_run w) in
  for_ (map_to_list behavior_count) (fun '(behavior, count) =>
    r ← the_results;
    match log_count agent behavior count r with
    | inl e => raise e
    | inr r' => assign (set_results (Some r'))
    end).

Definition _run_game : M Z :=
  o ← self;
  (* Start new game *)
  for_ (ghosts o) (ghost_call "start_game");;
  (* Load policies to agents *)
  (if bool_decide (is_Some (policy_file o)) then
     policies ← attribute "policies" (policies o);
     for_ (ghosts o) (fun agent =>
       if bool_decide (agent ∈ dom policies)
       then ghost_call "load_policy" agent else mret tt)
   else mret tt);;
  game_number ← on_world count_game;
  let simulated_game := run_berkeley_games ext (layout o) game_number in
  state ← on_pacman (play ext simulated_game);
  (* Do this so as agents can receive the last reward *)
  on_pacman (getAction ext state);;
  for_ (ghosts o) (ghost_call "update");;
  (* Log behavior count *)
  (if bool_decide (ghost_class o = BehaviorLearningGhostAgent) then
     for_ (ghosts o) _log_behavior_count
   else mret tt);;
  (* Log score *)
  mret (getScore state).

Definition start : M unit :=
  assign (set_results
            (Some {| learn_scores := []; test_scores := [];
                     behavior_count := ∅ |}));;
  o ← self;
  (if bool_decide (ghost_class o = BehaviorLearningGhostAgent) then
     for_ (ghosts o) (fun ghost =>
       r ← the_results;
       assign (set_results
                 (Some (set_behavior_count
                          (<[ghost := ∅]> (behavior_count r)) r))))
   else mret tt);;
  (* Load policies from file *)
  _load_policies_from_file (policy_file o);;
  (* Initialize agents *)
  for_ (ghosts o) (ghost_call "initialize");;
  o ← self;
  policies ← attribute "policies" (policies o);
  on_pacman (assign (set_policy
                       (default PyNone (policies !! agent_id (pacman o)))));;
  on_pacman (assign (set_layout (Some (layout o))));;
  on_pacman (start_experiment ext).

(** The body of the first loop of [execute]. *)
Definition learn_game : M unit :=
  on_pacman (start_game ext);;
  score ← _run_game;
  r ← the_results;
  assign (set_results (Some (set_learn_scores (learn_scores r ++ [score]) r)));;
  on_pacman (a ← self;
             assign (set_results_scores (results_scores a ++ [score])));;
  on_pacman (finish_game ext).

(** The body of the second loop of [execute]. *)
Definition test_game : M unit :=
  on_pacman (start_game ext);;
  score ← _run_game;
  r ← the_results;
  assign (set_results (Some (set_test_scores (test_scores r ++ [score]) r)));;
  on_pacman (a ← self;
             assign (set_results_scores (results_scores a ++ [score])));;
  on_pacman (finish_game ext).

Definition execute : M unit :=
  o ← self;
  items ← xrange ext (learn_runs o);
  for_ items (fun _ => learn_game);;
  on_pacman enable_test_mode;;
  o ← self;
  for_ (ghosts o) (ghost_call "enable_test_mode");;
  items ← xrange ext (test_runs o);
  for_ items (fun _ => test_game).

End Methods.

(** *** What [stop] saves *)

#[global] Instance PacmanClass_eq_dec : EqDecision PacmanClass.
Proof. solve_decision. Defined.

(** The content of a file [_write_to_file] wrote: the pickled dict of
    policies or the pickled dict of results. *)
Inductive Pickled : Type :=
| PickledPolicies (policies : gmap Z PyVal)
| PickledResults (results : Results).

(** The files written, by name; writing a file replaces it. Opening a file
    and writing it are taken to succeed. *)
Definition Disk : Type := gmap string Pickled.

Section Saving.
Context {R : Type}.
(* GhostAdapterAgent.get_policy, by ghost *)
Context (get_policy : Z -> PyVal).

#[local] Abbreviation D := (Py ((Experiment * World R) * Disk)).

(** A computation on the experiment, run beside the disk. *)
Definition on_experiment {A} (m : Py (Experiment * World R) A) : D A :=
  zoom fst (fun t s => (t, s.2)) m.

Definition _write_to_file (filename : option string) (content : Pickled)
  : D unit :=
  match filename with
  | Some f => modify (fun s => (s.1, <[f := content]> s.2))
  | None => raise (TypeError "coercing to Unicode: need string or buffer")
  end.

(** [_save_policies]. Its first statement reads [self.pacman_class], an
    attribute nothing in the file assigns (the constructor assigns
    [ghost_class] only). *)
Definition _save_policies : D unit :=
  pacman_class ← attribute "pacman_class" (None : option PacmanClass);
  (if bool_decide (pacman_class = BehaviorLearningPacmanAgent) then
     o ← on_experiment self;
     policies ← attribute "policies" (policies o);
     on_experiment
       (assign (set_policies
                  (Some (<[agent_id (pacman o) := policy (pacman o)]>
                           policies))))
   else mret tt);;
  o ← on_experiment self;
  (if bool_decide (ghost_class o = BehaviorLearningGhostAgent) then
     for_ (ghosts o) (fun ghost =>
       o ← on_experiment self;
       policies ← attribute "policies" (policies o);
       on_experiment
         (assign (set_policies
                    (Some (<[ghost := get_policy ghost]> policies)))))
   else mret tt);;
  o ← on_experiment self;
  policies ← attribute "policies" (policies o);
  _write_to_file (policy_file o) (PickledPolicies policies).

Definition stop : D unit :=
  on_experiment (on_pacman finish_experiment);;
  o ← on_experiment self;
  (if match policy_file o with
      | Some f => truthy (PyStr f)
      | None => false
      end
   then _save_policies else mret tt);;
  r ← on_experiment the_results;
  o ← on_experiment self;
  _write_to_file (Some (output_file o)) (PickledResults r).

End Saving.

End BerkeleyAdapter.

End Adapter.

(** * Properties *)

(** ** The message catalog *)

Module MessagesFacts.
Import Messages.

Lemma bind_arguments_keywords params kwargs :
  dom kwargs ⊆ list_to_set params.*1 ->
  bind_arguments params [] kwargs = inr (bind_params params [] kwargs).
Proof.
  intros Hsub. unfold bind_arguments.
  rewrite bool_decide_eq_false_2 by (simpl; lia).
  rewrite (bool_decide_eq_true_2 _ Hsub).
  reflexivity.
Qed.

(** C4, as the code has it: no constructor of the catalog has a required
    field. A call that names only parameters of the class always builds
    the message, of the kind of its class, and every parameter the call
    leaves out is stored with its default: the kind's tag for [msg_type],
    [None] for every field. *)
Theorem construct_defaults_missing_fields (k : Kind)
    (kwargs : gmap string PyVal) :
  dom kwargs ⊆ list_to_set (init_params k).*1 ->
  exists m,
    construct k [] kwargs = inr m /\
    kind_of m = k /\
    forall name dflt, (name, dflt) ∈ init_params k ->
      getattr m name = Some (default dflt (kwargs !! name)).
Proof.
  intros Hsub. unfold construct.
  rewrite (bind_arguments_keywords _ _ Hsub).
  eexists. split; [reflexivity|].
  destruct k; (split; [reflexivity|]); intros name dflt Hin; cbn in Hin;
    repeat (apply elem_of_cons in Hin as [Hin|Hin];
            [injection Hin as -> ->; reflexivity|]);
    apply elem_of_nil in Hin; contradiction.
Qed.

Lemma construct_defaults_missing_fields_witness :
  exists m,
    construct Save [] {["index" := PyInt 1]} = inr m /\
    kind_of m = Save /\
    forall name dflt, (name, dflt) ∈ init_params Save ->
      getattr m name
      = Some (default dflt (({["index" := PyInt 1]} : gmap string PyVal) !! name)).
Proof.
  apply (construct_defaults_missing_fields Save {["index" := PyInt 1]}).
  apply (bool_decide_unpack _). vm_compute. exact I.
Defined.

(** C4 fails as stated: a Save message built with no destination is not
    rejected; it is a [SaveMessage] whose [filename] is [None]. *)
Lemma save_without_filename_is_built :
  exists m,
    construct Save [] {["index" := PyInt 1]} = inr m /\
    kind_of m = Save /\
    getattr m "filename" = Some PyNone.
Proof.
  exists (SaveMessage (PyStr SAVE) (PyInt 1) PyNone).
  repeat split; reflexivity.
Qed.

(** Called with no argument at all, every class of the catalog builds a
    message that carries its own tag. *)
Lemma construct_without_arguments (k : Kind) :
  exists m, construct k [] ∅ = inr m /\
            getattr m "msg_type" = Some (PyStr (tag k)).
Proof. destruct k; eexists; split; reflexivity. Qed.

End MessagesFacts.

(** ** The distance features *)

Module FeaturesFacts.
Import Features.
Local Open Scope float_scope.

Lemma positive_is_not_zero (d : float) : (0 <? d) = true -> (d =? 0) = false.
Proof.
  intros H. rewrite FloatAxioms.ltb_spec in H. rewrite FloatAxioms.eqb_spec.
  change (Prim2SF 0) with (S754_zero false) in H |- *.
  destruct (Prim2SF d) as [s|s| |s m e]; try destruct s; cbn in H |- *;
    solve [reflexivity | inversion H].
Qed.

Lemma reciprocal_guarded (d : float) :
  truediv 1 (if d =? 0 then 1 else d) = inr (if d =? 0 then 1 else 1 / d).
Proof.
  unfold truediv. destruct (d =? 0) eqn:E.
  - reflexivity.
  - rewrite E. reflexivity.
Qed.

(** C10: both distance features are defined on every state and never
    divide by zero. A distance equal to 0.0 is replaced by 1.0, so the
    feature is 1.0; every other distance [d] gives [1.0 / d], in
    particular every positive one. *)
Theorem distance_features_never_divide_by_zero (enemy_id : Z) (state : State) :
  let d := calculate_distance state (get_position state)
             (get_agent_position state enemy_id) in
  let f := get_food_distance state in
  EnemyDistanceFeature enemy_id state = inr (if d =? 0 then 1 else 1 / d) /\
  FoodDistanceFeature state = inr (if f =? 0 then 1 else 1 / f) /\
  ((0 <? d) = true -> EnemyDistanceFeature enemy_id state = inr (1 / d)) /\
  ((0 <? f) = true -> FoodDistanceFeature state = inr (1 / f)).
Proof.
  intros d f.
  assert (He : EnemyDistanceFeature enemy_id state
               = inr (if d =? 0 then 1 else 1 / d))
    by apply reciprocal_guarded.
  assert (Hf : FoodDistanceFeature state = inr (if f =? 0 then 1 else 1 / f))
    by apply reciprocal_guarded.
  repeat split; try assumption.
  - intros Hpos. rewrite He, (positive_is_not_zero _ Hpos). reflexivity.
  - intros Hpos. rewrite Hf, (positive_is_not_zero _ Hpos). reflexivity.
Qed.

(** A state whose distances are all [dist]. *)
Definition state_at (dist : float) : State :=
  {| get_position := (1, 1)%Z;
     get_agent_position := fun _ => (1, 3)%Z;
     calculate_distance := fun _ _ => dist;
     get_food_distance := dist;
     get_fragile_agent := fun _ => 0 |}.

Lemma distance_features_never_divide_by_zero_witness :
  (EnemyDistanceFeature 1 (state_at 0) = inr 1 /\
   FoodDistanceFeature (state_at 0) = inr 1) /\
  (EnemyDistanceFeature 1 (state_at 2) = inr 0.5 /\
   FoodDistanceFeature (state_at 2) = inr 0.5).
Proof.
  split.
  - destruct (distance_features_never_divide_by_zero 1 (state_at 0))
      as (He & Hf & _). split; [exact He | exact Hf].
  - destruct (distance_features_never_divide_by_zero 1 (state_at 2))
      as (_ & _ & He & Hf).
    split; [exact (He eq_refl) | exact (Hf eq_refl)].
Defined.

End FeaturesFacts.

(** ** Reasoning about computations *)

Lemma bind_unfold {S A B} (m : Py S A) (f : A -> Py S B) (s : S) :
  (m ≫= f) s
  = match m s with
    | (inr x, s') => f x s'
    | (inl e, s') => (inl e, s')
    end.
Proof. reflexivity. Qed.

(** ** The adapter agent *)

Module AgentFacts.
Import Adapter Adapter.messages Adapter.BerkeleyAdapterAgent.

Section Facts.
Context {R : Type} (ext : Externals R).

(** The world after [n] more draws from the random source. *)
Definition drawn (n : nat) (w : World R) : World R :=
  {| noise := noise w; pacman_index := pacman_index w; sent := sent w;
     responder := responder w; random_source := random_source w;
     random_draws := (n + random_draws w)%nat; games_run := games_run w |}.

(** The value of the [k]-th call of [_noise_error]. *)
Definition offset (w : World R) (k : nat) : Z :=
  - noise w + random_source w k `mod` (noise w + 1 - - noise w).

Lemma offset_bounds (w : World R) (k : nat) :
  0 <= noise w -> - noise w <= offset w k <= noise w.
Proof.
  intros H. unfold offset.
  pose proof (Z.mod_pos_bound (random_source w k) (noise w + 1 - - noise w)).
  lia.
Qed.

Lemma noise_error_returns (a : Agent) (w : World R) :
  0 <= noise w ->
  _noise_error (a, w) = (inr (offset w (random_draws w)), (a, drawn 1 w)).
Proof.
  intros H. unfold _noise_error. rewrite bind_unfold.
  unfold on_world, zoom, get, randrange. cbn [fst snd].
  rewrite bool_decide_eq_false_2 by lia. reflexivity.
Qed.

Lemma noise_error_zero (a : Agent) (w : World R) :
  noise w = 0 -> _noise_error (a, w) = (inr 0, (a, drawn 1 w)).
Proof.
  intros H. rewrite noise_error_returns by lia.
  unfold offset. rewrite H. simpl. rewrite Z.mod_1_r. reflexivity.
Qed.

(** The positions the loop over the ghosts leaves, with the first draw
    numbered [k]. *)
Fixpoint jittered (w : World R) (k : nat) (id_ : Z) (ghosts : list (Z * Z))
    (agent_positions : gmap Z (Z * Z)) : gmap Z (Z * Z) :=
  match ghosts with
  | [] => agent_positions
  | pos :: ghosts' =>
      jittered w (2 + k) (id_ + 1) ghosts'
        (<[id_ + 1 := (pos.2 + offset w k, pos.1 + offset w (S k))]>
           agent_positions)
  end.

Lemma jittered_drawn n w k id_ ghosts positions :
  jittered (drawn n w) k id_ ghosts positions = jittered w k id_ ghosts positions.
Proof.
  revert k id_ positions. induction ghosts as [|pos g IH]; intros; simpl.
  - reflexivity.
  - rewrite IH. reflexivity.
Qed.

Lemma ghost_loop_returns (a : Agent) (w : World R) id_ ghosts positions :
  0 <= noise w ->
  ghost_positions_loop id_ ghosts positions (a, w)
  = (inr (jittered w (random_draws w) id_ ghosts positions),
     (a, drawn (2 * length ghosts) w)).
Proof.
  intros Hn. revert w id_ positions Hn.
  induction ghosts as [|pos g IH]; intros w id_ positions Hn.
  - simpl. destruct w; reflexivity.
  - cbn [ghost_positions_loop].
    rewrite bind_unfold, noise_error_returns by exact Hn.
    rewrite bind_unfold, noise_error_returns by exact Hn.
    rewrite IH by exact Hn.
    rewrite !jittered_drawn. cbn [jittered reversed fst snd drawn random_draws noise].
    f_equal. f_equal. unfold drawn; simpl. f_equal. lia.
Qed.

Lemma jittered_lookup_below w k id_ ghosts positions key :
  key <= id_ ->
  jittered w k id_ ghosts positions !! key = positions !! key.
Proof.
  revert k id_ positions. induction ghosts as [|pos g IH]; intros k id_ positions H.
  - reflexivity.
  - simpl. rewrite IH by lia. apply lookup_insert_ne. lia.
Qed.

Lemma jittered_lookup_ghost w k id_ ghosts positions (i : nat) pos :
  ghosts !! i = Some pos ->
  jittered w k id_ ghosts positions !! (id_ + 1 + Z.of_nat i)
  = Some (pos.2 + offset w (k + 2 * i), pos.1 + offset w (k + 2 * i + 1)).
Proof.
  revert k id_ positions i pos.
  induction ghosts as [|p g IH]; intros k id_ positions i pos H.
  - discriminate.
  - destruct i as [|i]; simpl in H.
    + injection H as ->. cbn [jittered].
      rewrite jittered_lookup_below by lia.
      replace (id_ + 1 + Z.of_nat 0) with (id_ + 1) by lia.
      rewrite lookup_insert_eq.
      replace (k + 2 * 0)%nat with k by lia. replace (k + 1)%nat with (S k) by lia.
      reflexivity.
    + cbn [jittered].
      replace (id_ + 1 + Z.of_nat (S i)) with (id_ + 1 + 1 + Z.of_nat i) by lia.
      rewrite (IH _ _ _ _ _ H).
      replace (2 + k + 2 * i)%nat with (k + 2 * S i)%nat by lia.
      reflexivity.
Qed.

(** The fields of the message [send_state] builds from an agent in the
    middle of a game. *)
Definition state_fields (a : Agent) (w : World R) (gs : GameState) (p : Z)
    (pa : Directions) : StateFields :=
  {| messages.agent_id := agent_id a;
     agent_positions :=
       jittered w (random_draws w) 0 (getGhostPositions gs)
         (<[pacman_index w := reversed (getPacmanPosition gs)]> ∅);
     food_positions := true_cells (getFood gs);
     fragile_agents := fragile_of (scaredTimers gs);
     wall_positions := true_cells (getWalls gs);
     legal_actions := getLegalActions gs (agent_id a);
     reward := getScore gs - p;
     executed_action := pa;
     test_mode := is_test_mode a |}.

(** The world after [n] draws and the exchange of [m]. *)
Definition delivered (m : Message) (n : nat) (w : World R) : World R :=
  {| noise := noise w; pacman_index := pacman_index w;
     sent := sent w ++ [m]; responder := (respond ext (responder w) m).2;
     random_source := random_source w;
     random_draws := (n + random_draws w)%nat; games_run := games_run w |}.

Lemma communicate_returns (a : Agent) (w : World R) (m : Message) :
  communicate ext m (a, w)
  = (inr (respond ext (responder w) m).1, (a, delivered m 0 w)).
Proof.
  unfold communicate, on_world, zoom, exchange, delivered. cbn [fst snd].
  destruct (respond ext (responder w) m) as [reply r]. reflexivity.
Qed.

(** What [send_state] does in a world whose noise is not negative. *)
Lemma send_state_unfold (a : Agent) (w : World R) :
  0 <= noise w ->
  send_state ext (a, w)
  = match game_state a with
    | None => (inl (AttributeError "getPacmanPosition"), (a, w))
    | Some gs =>
        let n := (2 * length (getGhostPositions gs))%nat in
        match previous_score a with
        | None => (inl (AttributeError "previous_score"), (a, drawn n w))
        | Some p =>
            let a' := set_previous_score (Some (getScore gs)) a in
            match previous_action a with
            | None => (inl (AttributeError "previous_action"), (a', drawn n w))
            | Some pa =>
                let m := StateMessage (state_fields a w gs p pa) in
                (inr (respond ext (responder w) m).1, (a', delivered m n w))
            end
        end
    end.
Proof.
  intros Hn. unfold send_state.
  rewrite bind_unfold. cbn [self fst snd].
  rewrite bind_unfold. unfold on_world at 1, zoom at 1, get at 1. cbn [fst snd].
  rewrite bind_unfold. destruct (game_state a) as [gs|]; [|reflexivity].
  cbn [attribute mret Py_ret].
  rewrite bind_unfold, ghost_loop_returns by exact Hn.
  rewrite bind_unfold. unfold _calculate_reward.
  rewrite bind_unfold. cbn [self fst snd].
  rewrite bind_unfold. destruct (previous_score a) as [p|]; [|reflexivity].
  cbn [attribute mret Py_ret].
  rewrite bind_unfold. cbn [assign modify fst snd].
  rewrite bind_unfold. destruct (previous_action a) as [pa|]; [|reflexivity].
  cbn [attribute mret Py_ret].
  rewrite communicate_returns. reflexivity.
Qed.

Lemma getAction_unfold (a : Agent) (w : World R) (gs : GameState) :
  0 <= noise w ->
  getAction ext gs (a, w)
  = let a0 := set_game_state (Some gs) a in
    let n := (2 * length (getGhostPositions gs))%nat in
    match previous_score a with
    | None => (inl (AttributeError "previous_score"), (a0, drawn n w))
    | Some p =>
        let a' := set_previous_score (Some (getScore gs)) a0 in
        match previous_action a with
        | None => (inl (AttributeError "previous_action"), (a', drawn n w))
        | Some pa =>
            let m := StateMessage (state_fields a0 w gs p pa) in
            match (respond ext (responder w) m).1 with
            | ActionReply action =>
                (inr action,
                 (set_previous_action (Some action) a', delivered m n w))
            | _ => (inl (AttributeError "action"), (a', delivered m n w))
            end
        end
    end.
Proof.
  intros Hn. unfold getAction.
  rewrite bind_unfold. cbn [assign modify fst snd].
  rewrite bind_unfold. unfold receive_action.
  rewrite bind_unfold, send_state_unfold by exact Hn.
  cbn [game_state set_game_state previous_score previous_action].
  destruct (previous_score a) as [p|]; [|reflexivity].
  destruct (previous_action a) as [pa|]; [|reflexivity].
  cbv zeta.
  destruct (respond ext (responder w) _).1; reflexivity.
Qed.

Lemma start_game_returns (a : Agent) (w : World R) (l : Layout) :
  layout a = Some l ->
  start_game ext (a, w)
  = (inr tt,
     (set_previous_action (Some NORTH) (set_previous_score (Some 0) a),
      delivered (RequestGameStartMessage (agent_id a) (width l) (height l))
        0 w)).
Proof.
  intros Hl. unfold start_game, _reset_game_data, _request_game_start.
  repeat (rewrite bind_unfold; cbn [assign modify self fst snd mret Py_ret]).
  change (layout (set_previous_action (Some NORTH)
                    (set_previous_score (Some 0) a))) with (layout a).
  rewrite Hl. cbn [attribute mret Py_ret].
  repeat (rewrite bind_unfold; cbn [assign modify self fst snd mret Py_ret]).
  rewrite communicate_returns. reflexivity.
Qed.

Lemma log_behavior_count_raises (a : Agent) (w : World R) :
  BerkeleyAdapterAgent._log_behavior_count ext (a, w)
  = (inl (AttributeError "pacman"), (a, w)).
Proof. reflexivity. Qed.

Lemma finish_game_unfold (a : Agent) (w : World R) :
  finish_game ext (a, w)
  = if bool_decide (results_scores a = []) then (inl IndexError, (a, w))
    else if String.eqb (agent_type a) "ai"
         then (inl (AttributeError "pacman"), (a, w))
         else (inr tt, (a, w)).
Proof.
  unfold finish_game. rewrite !bind_unfold. cbn [self fst snd].
  destruct (bool_decide (results_scores a = [])); [reflexivity|].
  cbn [mret Py_ret]. destruct (String.eqb (agent_type a) "ai"); reflexivity.
Qed.

End Facts.
End AgentFacts.

(** ** What every operation leaves untouched *)

Module FrameFacts.
Import Adapter Adapter.messages Adapter.BerkeleyAdapterAgent.
Import AgentFacts.

(** The classes of the messages the agent sends: of the six classes
    [adapter.py] names after [messages.], those whose call is reached and
    returns. *)
Definition sent_classes : list string :=
  ["RequestRegisterMessage"; "RequestInitializationMessage";
   "RequestGameStartMessage"; "StateMessage"].

Section Frames.
Context {R : Type} (ext : Externals R).

(** [evolves w w']: from [w] to [w'] the class attributes and the random
    source are untouched, games were only added, and the channel only grew,
    by messages of the classes [sent_classes]. *)
Definition evolves (w w' : World R) : Prop :=
  noise w' = noise w /\
  pacman_index w' = pacman_index w /\
  random_source w' = random_source w /\
  (games_run w <= games_run w')%nat /\
  exists l, sent w' = sent w ++ l /\
            Forall (fun m => class_name m ∈ sent_classes) l.

Lemma evolves_refl (w : World R) : evolves w w.
Proof.
  repeat split; try reflexivity. exists []. split; [|constructor].
  symmetry. apply app_nil_r.
Qed.

Lemma evolves_trans (w1 w2 w3 : World R) :
  evolves w1 w2 -> evolves w2 w3 -> evolves w1 w3.
Proof.
  intros (Hn1 & Hp1 & Hs1 & Hg1 & l1 & Hl1 & Hf1)
         (Hn2 & Hp2 & Hs2 & Hg2 & l2 & Hl2 & Hf2).
  repeat split; try congruence; try lia.
  exists (l1 ++ l2). split.
  - rewrite Hl2, Hl1. symmetry. apply app_assoc.
  - apply Forall_app. split; assumption.
Qed.

Lemma evolves_drawn (n : nat) (w : World R) : evolves w (drawn n w).
Proof.
  repeat split; try reflexivity. exists []. split; [|constructor].
  symmetry. apply app_nil_r.
Qed.

Lemma evolves_delivered (m : Message) (n : nat) (w : World R) :
  class_name m ∈ sent_classes ->
  evolves w (delivered ext m n w).
Proof.
  intros Hm. repeat split; try reflexivity. exists [m].
  split; [reflexivity|]. constructor; [exact Hm | constructor].
Qed.

(** [framed m]: whatever its outcome, [m] lets the world evolve. *)
Definition framed {X A} (m : Py (X * World R) A) : Prop :=
  forall s, evolves s.2 (m s).2.2.

Lemma framed_ret {X A} (x : A) : framed (mret x : Py (X * World R) A).
Proof. intros s. apply evolves_refl. Qed.

Lemma framed_raise {X A} (e : PyExn) : framed (raise e : Py (X * World R) A).
Proof. intros s. apply evolves_refl. Qed.

Lemma framed_bind {X A B} (m : Py (X * World R) A)
    (f : A -> Py (X * World R) B) :
  framed m -> (forall x, framed (f x)) -> framed (m ≫= f).
Proof.
  intros Hm Hf s. rewrite bind_unfold. specialize (Hm s).
  destruct (m s) as [[e|x] s1]; [exact Hm|].
  eapply evolves_trans; [exact Hm | apply Hf].
Qed.

Lemma framed_self {X} : framed (self : Py (X * World R) X).
Proof. intros s. apply evolves_refl. Qed.

Lemma framed_assign {X} (f : X -> X) : framed (assign f : Py (X * World R) unit).
Proof. intros s. apply evolves_refl. Qed.

Lemma framed_attribute {X A} (name : string) (v : option A) :
  framed (attribute name v : Py (X * World R) A).
Proof. intros s. destruct v; apply evolves_refl. Qed.

Lemma framed_get {X} : framed (on_world get : Py (X * World R) (World R)).
Proof. intros s. apply evolves_refl. Qed.

Lemma framed_randrange {X} (start stop : Z) :
  framed (on_world (randrange start stop) : Py (X * World R) Z).
Proof.
  intros [x w]. unfold on_world, zoom, randrange. cbn [fst snd].
  destruct (bool_decide (stop <= start)); [apply evolves_refl|].
  apply (evolves_drawn 1).
Qed.

Lemma framed_count_game {X} :
  framed (on_world count_game : Py (X * World R) nat).
Proof.
  intros [x w]. unfold on_world, zoom, count_game. cbn [fst snd].
  repeat split; try reflexivity; simpl; [lia|].
  exists []. split; [|constructor]. symmetry. apply app_nil_r.
Qed.

Lemma framed_for_ {X A} (l : list A) (body : A -> Py (X * World R) unit) :
  (forall x, framed (body x)) -> framed (for_ l body).
Proof.
  intros Hb. induction l as [|x l IH]; simpl.
  - apply framed_ret.
  - apply framed_bind; [apply Hb | intros _; exact IH].
Qed.

Lemma framed_communicate (m : Message) :
  class_name m ∈ sent_classes -> framed (communicate ext m).
Proof.
  intros Hm [a w]. rewrite communicate_returns.
  apply evolves_delivered. exact Hm.
Qed.

(** What follows a statement that raises is not run. *)
Lemma framed_raise_bind {X A B} (e : PyExn) (f : A -> Py (X * World R) B) :
  framed (raise e ≫= f).
Proof. intros s. apply evolves_refl. Qed.

Lemma framed_outcome {X A} (r : PyExn + A) :
  framed (outcome r : Py (X * World R) A).
Proof. intros s. apply evolves_refl. Qed.

Lemma framed_xrange {X} (n : Z) :
  framed (xrange ext n : Py (X * World R) (list Z)).
Proof.
  intros s. unfold xrange. destruct (bool_decide _); apply evolves_refl.
Qed.

Lemma sent_class (m : Message) :
  match m with
  | PolicyMessage _ | RequestBehaviorCountMessage _ => False
  | _ => True
  end ->
  class_name m ∈ sent_classes.
Proof. destruct m; intros H; apply list_elem_of_In; cbn; tauto. Qed.

End Frames.

Create HintDb framed.

#[global] Hint Resolve framed_ret framed_raise framed_self framed_assign
  framed_attribute framed_get framed_randrange framed_count_game
  framed_outcome framed_xrange : framed.

Ltac framed_step :=
  first
    [ apply framed_raise_bind
    | apply framed_communicate; apply sent_class; exact I
    | apply framed_bind; [|intros ?]
    | apply framed_for_; intros ?
    | solve [auto with framed]
    | match goal with
      | |- framed (if ?b then _ else _) => destruct b
      | |- framed (match ?x with _ => _ end) => destruct x
      | |- framed (let '(_, _) := ?p in _) => destruct p
      | |- framed (fun _ => _) => progress cbv beta
      end ].

Section AgentFrames.
Context {R : Type} (ext : Externals R).

Lemma framed_noise_error : framed (@_noise_error R).
Proof. unfold _noise_error. repeat framed_step. Qed.

Lemma framed_ghost_positions_loop id_ ghosts positions :
  framed (@ghost_positions_loop R id_ ghosts positions).
Proof.
  revert id_ positions. induction ghosts as [|pos g IH]; intros; simpl.
  - apply framed_ret.
  - apply framed_bind; [apply framed_noise_error|intros ?].
    apply framed_bind; [apply framed_noise_error|intros ?]. apply IH.
Qed.

Lemma framed_send_state : framed (send_state ext).
Proof.
  unfold send_state, _calculate_reward.
  repeat first [apply framed_ghost_positions_loop | framed_step].
Qed.

Lemma framed_getAction gs : framed (getAction ext gs).
Proof.
  unfold getAction, receive_action.
  repeat first [apply framed_send_state | framed_step].
Qed.

Lemma framed_play game : framed (play ext game).
Proof.
  induction game as [state next IH|state]; simpl.
  - apply framed_bind; [apply framed_getAction|exact IH].
  - apply framed_ret.
Qed.

Lemma framed_start_experiment : framed (start_experiment ext).
Proof.
  unfold start_experiment, _load_policy, _register, _initialize.
  repeat framed_step.
Qed.

Lemma framed_start_game : framed (start_game ext).
Proof.
  unfold start_game, _reset_game_data, _request_game_start.
  repeat framed_step.
Qed.

Lemma framed_finish_game : framed (finish_game ext).
Proof.
  unfold finish_game, BerkeleyAdapterAgent._log_behavior_count.
  repeat framed_step.
Qed.

Lemma framed_enable_test_mode : framed (@enable_test_mode R).
Proof. unfold enable_test_mode. repeat framed_step. Qed.

End AgentFrames.

Section ExperimentFrames.
Import BerkeleyAdapter.
Context {R : Type} (ext : Externals R).

Lemma framed_on_pacman {A} (m : Py (Agent * World R) A) :
  framed m -> framed (on_pacman m).
Proof.
  intros Hm [o w]. unfold on_pacman, zoom. cbn [fst snd].
  specialize (Hm (pacman o, w)).
  destruct (m (pacman o, w)) as [r [a w']]. exact Hm.
Qed.

Lemma framed_ghost_call {X} method ghost :
  framed (ghost_call method ghost : Py (X * World R) unit).
Proof. apply framed_ret. Qed.

Lemma framed_the_results : framed (@the_results R).
Proof. unfold the_results. repeat framed_step. Qed.

Lemma framed_log_behavior_count agent :
  framed (BerkeleyAdapter._log_behavior_count ext agent).
Proof.
  unfold BerkeleyAdapter._log_behavior_count.
  repeat first [apply framed_the_results | framed_step].
Qed.

Lemma framed_run_game : framed (_run_game ext).
Proof.
  unfold _run_game.
  repeat first
    [ apply framed_log_behavior_count
    | apply framed_ghost_call
    | apply framed_on_pacman; first [apply framed_play | apply framed_getAction]
    | framed_step ].
Qed.

Lemma framed_start : framed (start ext).
Proof.
  unfold start, _load_policies_from_file.
  repeat first
    [ apply framed_the_results
    | apply framed_ghost_call
    | apply framed_on_pacman;
      first [apply framed_start_experiment | apply framed_assign]
    | framed_step ].
Qed.

Lemma framed_learn_game : framed (learn_game ext).
Proof.
  unfold learn_game.
  repeat first
    [ apply framed_the_results
    | apply framed_run_game
    | apply framed_on_pacman;
      first [apply framed_start_game | apply framed_finish_game]
    | apply framed_on_pacman
    | framed_step ].
Qed.

Lemma framed_test_game : framed (test_game ext).
Proof.
  unfold test_game.
  repeat first
    [ apply framed_the_results
    | apply framed_run_game
    | apply framed_on_pacman;
      first [apply framed_start_game | apply framed_finish_game]
    | apply framed_on_pacman
    | framed_step ].
Qed.

Lemma framed_execute : framed (execute ext).
Proof.
  unfold execute.
  repeat first
    [ apply framed_learn_game
    | apply framed_test_game
    | apply framed_ghost_call
    | apply framed_on_pacman; apply framed_enable_test_mode
    | framed_step ].
Qed.

Lemma register_ghosts (l : list Z) (w : World R) :
  for_ l (ghost_call "register") w = (inr tt, w).
Proof.
  induction l as [|g l IH]; [reflexivity|].
  simpl. rewrite bind_unfold. exact IH.
Qed.

(** The ghost class a ghost agent name selects. *)
Definition ghost_class_of (name : string) : option GhostClass :=
  if String.eqb name "random" then Some RandomGhost
  else if String.eqb name "ai" then Some BehaviorLearningGhostAgent
  else None.

(** The instance the constructor builds once every check has passed and
    the file names were converted. *)
Definition constructed (cfg : Config) (l : Layout) (c : GhostClass)
  : Experiment :=
  {| layout := l;
     pacman := BerkeleyAdapterAgent.__init__ (cfg_pacman_agent cfg);
     num_ghosts := cfg_num_ghosts cfg;
     ghost_class := c;
     ghosts := (fun i => i + 1) <$> xrange_items (cfg_num_ghosts cfg);
     policy_file :=
       match str_if_given (cfg_policy_file cfg) with
       | inr name => name
       | inl _ => None
       end;
     learn_runs := cfg_learn_runs cfg;
     test_runs := cfg_test_runs cfg;
     output_file :=
       default (cfg_pacman_agent cfg +:+ "_" +:+ cfg_layout_map cfg +:+ "_"
                +:+ pretty (cfg_num_ghosts cfg) +:+ "_"
                +:+ cfg_ghost_agent cfg +:+ ".res")
         match str_if_given (cfg_output_file cfg) with
         | inr name => name
         | inl _ => None
         end;
     graphics := cfg_graphics cfg;
     results := None;
     policies := None |}.

Lemma xrange_fits {S} (n : Z) (s : S) :
  fits_long ext n -> xrange ext n s = (inr (xrange_items n), s).
Proof.
  intros H. unfold xrange. rewrite bool_decide_eq_true_2 by exact H.
  reflexivity.
Qed.

Lemma xrange_overflows {S} (n : Z) (s : S) :
  ~ fits_long ext n -> xrange ext n s = (inl OverflowError, s).
Proof.
  intros H. unfold xrange. rewrite bool_decide_eq_false_2 by exact H.
  reflexivity.
Qed.

(** The constructor leaves the world as it found it, and its outcome is
    decided by its checks and conversions, in their order. *)
Lemma init_unfold (cfg : Config) (w : World R) :
  BerkeleyAdapter.__init__ ext cfg w
  = (match get_berkeley_layout ext
             (layout_file (cfg_layout_map cfg) (cfg_num_ghosts cfg)) with
     | None =>
         inl (ValueError
                ("Layout " +:+ layout_file (cfg_layout_map cfg)
                                 (cfg_num_ghosts cfg) +:+ " missing."))
     | Some l =>
         if bool_decide (1 <= cfg_num_ghosts cfg <= 4) then
           match ghost_class_of (cfg_ghost_agent cfg) with
           | None => inl (ValueError "Ghost agent must be ai or random.")
           | Some c =>
               match str_if_given (cfg_policy_file cfg) with
               | inl e => inl e
               | inr _ =>
                   if bool_decide (cfg_learn_runs cfg > 0) then
                     if bool_decide (cfg_test_runs cfg > 0) then
                       match str_if_given (cfg_output_file cfg) with
                       | inl e => inl e
                       | inr _ => inr (constructed cfg l c)
                       end
                     else inl AssertionError
                   else inl AssertionError
               end
           end
         else inl (ValueError "Must 1-4 ghost(s).")
     end, w).
Proof.
  unfold BerkeleyAdapter.__init__, ghost_class_of.
  destruct (get_berkeley_layout ext _); [|reflexivity].
  destruct (bool_decide_reflect (1 <= cfg_num_ghosts cfg <= 4)) as [Hn|];
    [|reflexivity].
  cbn [negb]. rewrite bind_unfold.
  destruct (String.eqb (cfg_ghost_agent cfg) "random");
    [|destruct (String.eqb (cfg_ghost_agent cfg) "ai"); [|reflexivity]].
  all: cbn [mret Py_ret]; rewrite bind_unfold.
  all: rewrite xrange_fits
         by (pose proof (sys_maxint_32 ext); unfold fits_long; lia).
  all: rewrite bind_unfold, register_ghosts.
  all: rewrite bind_unfold; unfold outcome at 1; unfold constructed.
  all: destruct (str_if_given (cfg_policy_file cfg)) as [e|name];
         [reflexivity|].
  all: rewrite bind_unfold.
  all: destruct (bool_decide (cfg_learn_runs cfg > 0)); [|reflexivity].
  all: cbn [mret Py_ret]; rewrite bind_unfold.
  all: destruct (bool_decide (cfg_test_runs cfg > 0)); [|reflexivity].
  all: cbn [mret Py_ret]; rewrite bind_unfold; unfold outcome at 1.
  all: destruct (str_if_given (cfg_output_file cfg)) as [e|out];
         reflexivity.
Qed.

(** What a constructor that returned had checked. *)
Lemma init_returns (cfg : Config) (w w1 : World R) (o : Experiment) :
  BerkeleyAdapter.__init__ ext cfg w = (inr o, w1) ->
  w1 = w /\
  (1 <= cfg_num_ghosts cfg <= 4) /\
  cfg_learn_runs cfg > 0 /\
  cfg_test_runs cfg > 0 /\
  exists l c, o = constructed cfg l c.
Proof.
  intros Hinit. rewrite init_unfold in Hinit.
  destruct (get_berkeley_layout ext _) as [l|]; [|discriminate].
  destruct (bool_decide_reflect (1 <= cfg_num_ghosts cfg <= 4)) as [Hn|];
    [|discriminate].
  destruct (ghost_class_of _) as [c|]; [|discriminate].
  destruct (str_if_given (cfg_policy_file cfg)); [discriminate|].
  destruct (bool_decide_reflect (cfg_learn_runs cfg > 0)) as [Hlearn|];
    [|discriminate].
  destruct (bool_decide_reflect (cfg_test_runs cfg > 0)) as [Htest|];
    [|discriminate].
  destruct (str_if_given (cfg_output_file cfg)); [discriminate|].
  injection Hinit as <- <-. eauto 10.
Qed.

End ExperimentFrames.
End FrameFacts.

(** ** A sample experiment, and the agent in a game *)

Module Samples.
Import Adapter Adapter.messages Adapter.BerkeleyAdapterAgent Adapter.BerkeleyAdapter.

Definition board (score : Z) : GameState :=
  {| getPacmanPosition := (1, 2);
     getGhostPositions := [(3, 4); (5, 6)];
     getFood := [[true; false]; [false; true]];
     getWalls := [[true; true]; [false; false]];
     scaredTimers := [0; 3; 0];
     getLegalActions := fun _ => [NORTH; STOP];
     getScore := score |}.

Lemma long_of_64_bits : 2147483647 <= 9223372036854775807.
Proof. discriminate. Qed.

(** A responder that answers every state with [STOP], a simulator whose
    every game lasts two turns, one layout on file, a C long of 64
    bits. *)
Definition ext : Externals unit :=
  {| respond := fun r m =>
       (match m with
        | StateMessage _ => ActionReply STOP
        | RequestBehaviorCountMessage _ => BehaviorCountReply {["flee" := 2]}
        | _ => AckReply
        end, r);
     get_berkeley_layout := fun name =>
       if String.eqb name "pacman/layouts/classic3Ghosts"
       then Some {| width := 20; height := 11 |} else None;
     run_berkeley_games := fun _ n =>
       Turn (board (-1))
         (fun _ => Turn (board 9) (fun _ => Over (board (Z.of_nat n + 100))));
     ghost_behavior_count := fun g n => {["pursue" := g + Z.of_nat n]};
     read_policies := fun _ => None;
     sys_maxint := 9223372036854775807;
     sys_maxint_32 := long_of_64_bits |}.

Definition world : World unit := loaded tt (fun n => Z.of_nat n).

(** The same world with the class attribute [noise] at [n]. *)
Definition noisy (n : Z) : World unit :=
  {| noise := n; pacman_index := 0; sent := []; responder := tt;
     random_source := fun k => 7 * Z.of_nat k + 3; random_draws := 0;
     games_run := 0 |}.

Definition config (pacman_agent ghost_agent : string) : Config :=
  {| cfg_pacman_agent := pacman_agent; cfg_ghost_agent := ghost_agent;
     cfg_num_ghosts := 3; cfg_noise := 2; cfg_policy_file := None;
     cfg_layout_map := "classic"; cfg_learn_runs := 3; cfg_test_runs := 2;
     cfg_output_file := None; cfg_graphics := false |}.

(** An agent of type [agent_type] in the middle of a game, looking at
    [board score]. *)
Definition playing (agent_type : string) (score : Z) : Agent :=
  set_game_state (Some (board score))
    (set_previous_action (Some NORTH)
       (set_previous_score (Some 0)
          (set_layout (Some {| width := 20; height := 11 |})
             (BerkeleyAdapterAgent.__init__ agent_type)))).

End Samples.

Module AdapterClaims.
Import Adapter Adapter.messages Adapter.BerkeleyAdapterAgent.
Import AgentFacts FrameFacts.

Section Agent.
Context {R : Type} (ext : Externals R).

Lemma last_delivered (m : Message) (n : nat) (w : World R) :
  last (sent (delivered ext m n w)) = Some m.
Proof. apply last_snoc. Qed.

(** A request for an action in the middle of a game sends one state
    message, whatever the reply turns out to be. *)
Lemma getAction_sends (a : Agent) (w : World R) (gs : GameState) p pa :
  0 <= noise w ->
  previous_score a = Some p ->
  previous_action a = Some pa ->
  let s' := (getAction ext gs (a, w)).2 in
  last (sent s'.2)
  = Some (StateMessage (state_fields (set_game_state (Some gs) a) w gs p pa)) /\
  previous_score s'.1 = Some (getScore gs).
Proof.
  intros Hn Hp Hpa. rewrite getAction_unfold by exact Hn.
  rewrite Hp, Hpa. cbv zeta.
  destruct ((respond ext (responder w) _).1); cbn [fst snd];
    (split; [apply last_delivered | reflexivity]).
Qed.

(** C2: of two consecutive requests for an action within one game, made at
    scores [s1] and [s2], the second sends a state message whose reward is
    [s2 - s1], and each leaves [previous_score] at the score it saw. *)
Theorem reward_is_score_difference (a a1 : Agent) (w w1 : World R)
    (gs1 gs2 : GameState) (action : Directions) :
  0 <= noise w ->
  getAction ext gs1 (a, w) = (inr action, (a1, w1)) ->
  previous_score a1 = Some (getScore gs1) /\
  exists f,
    last (sent (getAction ext gs2 (a1, w1)).2.2) = Some (StateMessage f) /\
    reward f = getScore gs2 - getScore gs1 /\
    previous_score (getAction ext gs2 (a1, w1)).2.1 = Some (getScore gs2).
Proof.
  intros Hn H1. rewrite getAction_unfold in H1 by exact Hn.
  destruct (previous_score a) as [p|]; [|discriminate].
  destruct (previous_action a) as [pa|]; [|discriminate].
  cbv zeta in H1.
  destruct (respond ext (responder w) _).1 as [act| |] eqn:Hreply;
    try discriminate.
  injection H1 as <- <- <-.
  split; [reflexivity|].
  eexists. 
  pose proof (getAction_sends
                (set_previous_action (Some act)
                   (set_previous_score (Some (getScore gs1))
                      (set_game_state (Some gs1) a)))
                (delivered ext
                   (StateMessage
                      (state_fields (set_game_state (Some gs1) a) w gs1 p pa))
                   (2 * length (getGhostPositions gs1)) w)
                gs2 (getScore gs1) act Hn eq_refl eq_refl) as [Hlast Hprev].
  split; [exact Hlast|]. split; [reflexivity | exact Hprev].
Qed.

Lemma send_state_sends (a : Agent) (w : World R) gs p pa :
  0 <= noise w ->
  game_state a = Some gs ->
  previous_score a = Some p ->
  previous_action a = Some pa ->
  last (sent (send_state ext (a, w)).2.2)
  = Some (StateMessage (state_fields a w gs p pa)).
Proof.
  intros Hn Hgs Hp Hpa. rewrite send_state_unfold by exact Hn.
  rewrite Hgs, Hp, Hpa. apply last_delivered.
Qed.

Lemma own_position_reported (a : Agent) (w : World R) gs p pa :
  pacman_index w = 0 ->
  agent_positions (state_fields a w gs p pa) !! 0
  = Some (reversed (getPacmanPosition gs)).
Proof.
  intros Hidx. cbn [state_fields agent_positions].
  rewrite jittered_lookup_below by lia.
  rewrite Hidx. apply lookup_insert_eq.
Qed.

Lemma ghost_position_reported (a : Agent) (w : World R) gs p pa
    (i : nat) (x y : Z) :
  getGhostPositions gs !! i = Some (x, y) ->
  agent_positions (state_fields a w gs p pa) !! (Z.of_nat i + 1)
  = Some (y + offset w (random_draws w + 2 * i),
          x + offset w (random_draws w + 2 * i + 1)).
Proof.
  intros Hi. cbn [state_fields agent_positions].
  replace (Z.of_nat i + 1) with (0 + 1 + Z.of_nat i) by lia.
  rewrite (jittered_lookup_ghost _ _ _ _ _ _ _ Hi). reflexivity.
Qed.

(** A world whose generator yields the offsets [d 0], [d 1], ... at noise
    [N]. *)
Definition world_drawing (r : R) (N : Z) (d : nat -> Z) : World R :=
  {| noise := N; pacman_index := 0; sent := []; responder := r;
     random_source := fun k => d k + N; random_draws := 0; games_run := 0 |}.

Lemma offset_world_drawing (r : R) (N : Z) (d : nat -> Z) (k : nat) :
  - N <= d k <= N -> offset (world_drawing r N d) k = d k.
Proof.
  intros H. unfold offset. cbn [world_drawing noise random_source].
  rewrite Z.mod_small by lia. lia.
Qed.

(** C3: at noise [N >= 0], the state message reports Pac-Man's own position
    as it is, and each ghost at its position with each coordinate moved by
    an offset between [-N] and [N]. The two offsets of a ghost are two
    separate draws: every choice of offsets within the bound, coordinate by
    coordinate, is what some generator produces. *)
Theorem reported_positions_within_noise (a : Agent) (gs : GameState) (p : Z)
    (pa : Directions) (N : Z) :
  0 <= N ->
  game_state a = Some gs ->
  previous_score a = Some p ->
  previous_action a = Some pa ->
  (forall w : World R, noise w = N -> pacman_index w = 0 ->
     exists f,
       last (sent (send_state ext (a, w)).2.2) = Some (StateMessage f) /\
       agent_positions f !! 0 = Some (reversed (getPacmanPosition gs)) /\
       forall (i : nat) (x y : Z),
         getGhostPositions gs !! i = Some (x, y) ->
         exists y' x',
           agent_positions f !! (Z.of_nat i + 1) = Some (y', x') /\
           y - N <= y' <= y + N /\ x - N <= x' <= x + N) /\
  (forall (r : R) (dy dx : nat -> Z),
     (forall i, - N <= dy i <= N /\ - N <= dx i <= N) ->
     exists w f,
       noise w = N /\
       last (sent (send_state ext (a, w)).2.2) = Some (StateMessage f) /\
       forall (i : nat) (x y : Z),
         getGhostPositions gs !! i = Some (x, y) ->
         agent_positions f !! (Z.of_nat i + 1) = Some (y + dy i, x + dx i)).
Proof.
  intros HN Hgs Hp Hpa. split.
  - intros w Hw Hidx. exists (state_fields a w gs p pa).
    split; [apply send_state_sends; (lia || assumption)|].
    split; [apply own_position_reported; exact Hidx|].
    intros i x y Hi. eexists _, _.
    split; [apply ghost_position_reported; exact Hi|].
    pose proof (offset_bounds w (random_draws w + 2 * i)) as Hy.
    pose proof (offset_bounds w (random_draws w + 2 * i + 1)) as Hx.
    lia.
  - intros r dy dx Hd.
    set (d := fun k : nat => if Nat.even k then dy (Nat.div2 k)
                               else dx (Nat.div2 k)).
    assert (Hbound : forall k, - N <= d k <= N).
    { intros k. unfold d. destruct (Nat.even k); apply Hd. }
    exists (world_drawing r N d), (state_fields a (world_drawing r N d) gs p pa).
    split; [reflexivity|].
    split; [apply send_state_sends; (exact HN || assumption)|].
    intros i x y Hi. rewrite (ghost_position_reported _ _ _ _ _ _ _ _ Hi).
    rewrite !offset_world_drawing by apply Hbound.
    cbn [world_drawing random_draws]. unfold d.
    replace (0 + 2 * i + 1)%nat with (S (2 * i)) by lia.
    replace (0 + 2 * i)%nat with (2 * i)%nat by lia.
    rewrite Nat.even_succ, Nat.odd_mul, Nat.even_mul. cbn [Nat.even Nat.odd negb andb orb].
    rewrite Nat.div2_succ_double, Nat.div2_double. reflexivity.
Qed.

(** The agent class an agent type name selects. *)
Definition class_of_type (name : string) : option PacmanClass :=
  if String.eqb name "random" then Some RandomPacmanAgent
  else if String.eqb name "random2" then Some RandomPacmanAgentTwo
  else if String.eqb name "ai" then Some BehaviorLearningPacmanAgent
  else if String.eqb name "eater" then Some EaterPacmanAgent
  else None.

Lemma start_experiment_unfold (a : Agent) (w : World R) :
  start_experiment ext (a, w)
  = if truthy (policy a) then (inl (NameError "policy"), (a, w))
    else
      match class_of_type (agent_type a) with
      | None =>
          (inl (ValueError
                  "Pac-Man agent must be ai, random, random2 or eater."),
           (a, w))
      | Some c =>
          (inr tt,
           (set_agent_class (Some c) a,
            delivered ext (RequestInitializationMessage (agent_id a)) 0
              (delivered ext
                 (RequestRegisterMessage (agent_id a) "pacman" c) 0 w)))
      end.
Proof.
  unfold start_experiment, _load_policy, _register, _initialize, class_of_type.
  rewrite bind_unfold. rewrite bind_unfold. cbn [self fst snd].
  destruct (truthy (policy a)); [reflexivity|].
  cbn [mret Py_ret].
  rewrite bind_unfold. rewrite bind_unfold. cbn [self fst snd].
  rewrite bind_unfold.
  destruct (String.eqb (agent_type a) "random");
    [|destruct (String.eqb (agent_type a) "random2");
      [|destruct (String.eqb (agent_type a) "ai");
        [|destruct (String.eqb (agent_type a) "eater"); [|reflexivity]]]].
  all: cbn [assign modify raise fst snd]; try reflexivity.
  all: repeat (rewrite bind_unfold;
               cbn [self fst snd agent_class set_agent_class attribute
                    mret Py_ret]).
  all: rewrite communicate_returns; cbn [fst snd mret Py_ret].
  all: repeat (rewrite bind_unfold; cbn [self fst snd mret Py_ret]).
  all: rewrite communicate_returns; reflexivity.
Qed.

End Agent.

Lemma reward_is_score_difference_witness :
  0 <= noise Samples.world /\
  exists f,
    last (sent (getAction Samples.ext (Samples.board 25)
                  (getAction Samples.ext (Samples.board 10)
                     (Samples.playing "random" 0, Samples.world)).2).2.2)
    = Some (StateMessage f) /\
    reward f = 15.
Proof.
  split; [vm_compute; discriminate|].
  destruct (reward_is_score_difference Samples.ext
              (Samples.playing "random" 0)
              (set_previous_action (Some STOP)
                 (set_previous_score (Some 10)
                    (Samples.playing "random" 10)))
              Samples.world
              (getAction Samples.ext (Samples.board 10)
                 (Samples.playing "random" 0, Samples.world)).2.2
              (Samples.board 10) (Samples.board 25) STOP)
    as (_ & f & Hlast & Hreward & _).
  - vm_compute; discriminate.
  - reflexivity.
  - exists f. split; [exact Hlast | exact Hreward].
Defined.

Lemma reported_positions_within_noise_witness :
  0 <= 2 /\
  exists f,
    last (sent (send_state Samples.ext
                  (Samples.playing "random" 40, Samples.noisy 2)).2.2)
    = Some (StateMessage f) /\
    agent_positions f !! 0 = Some (2, 1) /\
    exists y' x',
      agent_positions f !! 1 = Some (y', x') /\
      4 - 2 <= y' <= 4 + 2 /\ 3 - 2 <= x' <= 3 + 2.
Proof.
  split; [lia|].
  destruct (reported_positions_within_noise Samples.ext
              (Samples.playing "random" 40) (Samples.board 40) 0 NORTH 2)
    as [Hbounds _]; [lia | reflexivity | reflexivity | reflexivity |].
  destruct (Hbounds (Samples.noisy 2) eq_refl eq_refl)
    as (f & Hlast & Hown & Hghosts).
  exists f. split; [exact Hlast|]. split; [exact Hown|].
  exact (Hghosts 0%nat 3 4 eq_refl).
Defined.

End AdapterClaims.

(** ** The experiment *)

Module ExperimentFacts.
Import Adapter Adapter.messages Adapter.BerkeleyAdapterAgent.
Import Adapter.BerkeleyAdapter.
Import AgentFacts FrameFacts AdapterClaims.

Section Start.
Context {R : Type} (ext : Externals R).

Lemma on_pacman_unfold {A} (m : Py (Agent * World R) A) (o : Experiment)
    (w : World R) :
  on_pacman m (o, w)
  = ((m (pacman o, w)).1,
     (set_pacman (m (pacman o, w)).2.1 o, (m (pacman o, w)).2.2)).
Proof.
  unfold on_pacman, zoom. cbn [fst snd].
  destruct (m (pacman o, w)) as [r [a w']]. reflexivity.
Qed.

Lemma on_pacman_assign (f : Agent -> Agent) (o : Experiment) (w : World R) :
  on_pacman (assign f) (o, w) = (inr tt, (set_pacman (f (pacman o)) o, w)).
Proof. reflexivity. Qed.

Lemma ghost_calls (method : string) (l : list Z) (s : Experiment * World R) :
  for_ l (ghost_call method) s = (inr tt, s).
Proof.
  induction l as [|g l IH]; [reflexivity|].
  simpl. rewrite bind_unfold. exact IH.
Qed.

(** The policies [_load_policies_from_file] leaves. *)
Definition loaded_policies (filename : option string) : gmap Z PyVal :=
  match filename with
  | Some f => default ∅ (read_policies ext f)
  | None => ∅
  end.

Definition cleared (ghosts : list Z) (counts : gmap Z (gmap string (list Z)))
  : gmap Z (gmap string (list Z)) :=
  fold_left (fun counts ghost => <[ghost := ∅]> counts) ghosts counts.

(** The experiment as [start] has it when it calls [start_experiment]. *)
Definition prepared (o : Experiment) : Experiment :=
  let r := {| learn_scores := []; test_scores := [];
              behavior_count :=
                if bool_decide (ghost_class o = BehaviorLearningGhostAgent)
                then cleared (ghosts o) ∅ else ∅ |} in
  let o := set_policies (Some (loaded_policies (policy_file o)))
             (set_results (Some r) o) in
  set_pacman
    (set_layout (Some (layout o))
       (set_policy
          (default PyNone
             (loaded_policies (policy_file o) !! agent_id (pacman o)))
          (pacman o))) o.

Lemma clear_counts (l : list Z) (o : Experiment) (w : World R) (r : Results) :
  results o = Some r ->
  for_ l (fun ghost =>
            r ← the_results;
            assign (set_results
                      (Some (set_behavior_count
                               (<[ghost := ∅]> (behavior_count r)) r))))
    (o, w)
  = (inr tt,
     (set_results
        (Some (set_behavior_count (cleared l (behavior_count r)) r)) o, w)).
Proof.
  revert o r. induction l as [|g l IH]; intros o r Hr.
  - simpl. destruct o, r; simpl in *. subst. reflexivity.
  - cbn [for_]. rewrite bind_unfold. unfold the_results at 1.
    repeat (rewrite bind_unfold; cbn [self fst snd]).
    rewrite Hr. cbn [attribute mret Py_ret assign modify fst snd].
    erewrite IH by reflexivity. reflexivity.
Qed.

Lemma load_policies_returns (o : Experiment) (w : World R) filename :
  _load_policies_from_file ext filename (o, w)
  = (inr tt, (set_policies (Some (loaded_policies filename)) o, w)).
Proof.
  unfold _load_policies_from_file, loaded_policies.
  rewrite bind_unfold. cbn [assign modify fst snd].
  destruct filename as [f|]; [|reflexivity].
  destruct (read_policies ext f); reflexivity.
Qed.

Lemma start_unfold (o : Experiment) (w : World R) :
  start ext (o, w) = on_pacman (start_experiment ext) (prepared o, w).
Proof.
  unfold start.
  rewrite bind_unfold. cbn [assign modify fst snd].
  rewrite bind_unfold. cbn [self fst snd].
  rewrite bind_unfold. cbn [ghost_class set_results ghosts policy_file].
  unfold prepared.
  destruct (bool_decide (ghost_class o = BehaviorLearningGhostAgent)).
  - erewrite clear_counts by reflexivity.
    rewrite bind_unfold, load_policies_returns.
    rewrite bind_unfold, ghost_calls.
    repeat (rewrite bind_unfold; cbn [self fst snd attribute mret Py_ret
                                       policies set_policies]).
    rewrite on_pacman_assign, bind_unfold, on_pacman_assign.
    reflexivity.
  - cbn [mret Py_ret].
    rewrite bind_unfold, load_policies_returns.
    rewrite bind_unfold, ghost_calls.
    repeat (rewrite bind_unfold; cbn [self fst snd attribute mret Py_ret
                                       policies set_policies]).
    rewrite on_pacman_assign, bind_unfold, on_pacman_assign.
    reflexivity.
Qed.

End Start.
End ExperimentFacts.

Module ExperimentClaims.
Import Adapter Adapter.messages Adapter.BerkeleyAdapterAgent.
Import Adapter.BerkeleyAdapter.
Import AgentFacts FrameFacts AdapterClaims ExperimentFacts.

(** The role names each side accepts. *)
Definition ghost_agents : list string := ["random"; "ai"].

Lemma ghost_class_of_supported (name : string) :
  is_Some (ghost_class_of name) <-> name ∈ ghost_agents.
Proof.
  unfold ghost_class_of, ghost_agents. rewrite list_elem_of_In. cbn [In].
  destruct (String.eqb_spec name "random") as [->|H1]; [split; eauto|].
  destruct (String.eqb_spec name "ai") as [->|H2]; [split; eauto|].
  split; [intros [? ?]; discriminate|].
  intros [H|[H|[]]]; congruence.
Qed.




Section Claims.
Context {R : Type} (ext : Externals R).

(** A file name that [str] converts: a byte string, or a unicode string of
    ASCII characters only. *)
Definition plain (name : option Text) : Prop :=
  forall codes, name = Some (Unicode codes) ->
    Forall (fun c => (c < 128)%N) codes.

Lemma plain_converts (name : option Text) :
  plain name -> exists converted, str_if_given name = inr converted.
Proof.
  intros Hplain. destruct name as [[s|codes]|]; cbn [str_if_given str].
  - destruct (text_truthy (Bytes s)); eauto.
  - destruct (text_truthy (Unicode codes)); [|eauto].
    replace (forallb (fun c => (c <? 128)%N) codes) with true; [eauto|].
    symmetry. apply forallb_forall. intros c Hc.
    specialize (Hplain codes eq_refl).
    rewrite Forall_forall in Hplain. apply N.ltb_lt, Hplain.
    apply list_elem_of_In. exact Hc.
  - eauto.
Qed.

(** The configuration passes every check of the constructor, and its file
    names are plain. *)
Definition valid (cfg : Config) : Prop :=
  is_Some (get_berkeley_layout ext
             (layout_file (cfg_layout_map cfg) (cfg_num_ghosts cfg))) /\
  1 <= cfg_num_ghosts cfg <= 4 /\
  cfg_ghost_agent cfg ∈ ghost_agents /\
  cfg_learn_runs cfg > 0 /\
  cfg_test_runs cfg > 0 /\
  plain (cfg_policy_file cfg) /\
  plain (cfg_output_file cfg).

(** C6, as the code has it: the constructor raises, before any episode has
    run (the count of simulator games, like the rest of the world, is as it
    was), as soon as the layout does not resolve, the ghost count is
    outside 1..4, the ghost agent is neither [ai] nor [random], or an
    episode count is not positive; when all of these checks pass and the
    file names given are plain, it returns the experiment, again with no
    episode run. *)
Theorem construction_validates_configuration (cfg : Config) (w : World R) :
  (valid cfg ->
   exists o, BerkeleyAdapter.__init__ ext cfg w = (inr o, w) /\
             results o = None /\ results_scores (pacman o) = []) /\
  (get_berkeley_layout ext
     (layout_file (cfg_layout_map cfg) (cfg_num_ghosts cfg)) = None \/
   cfg_num_ghosts cfg < 1 \/ 4 < cfg_num_ghosts cfg \/
   cfg_ghost_agent cfg ∉ ghost_agents \/
   cfg_learn_runs cfg <= 0 \/ cfg_test_runs cfg <= 0 ->
   exists e, BerkeleyAdapter.__init__ ext cfg w = (inl e, w)).
Proof.
  rewrite init_unfold. split.
  - intros ([l Hl] & Hn & Hg & Hlearn & Htest & Hpolicy & Houtput).
    apply ghost_class_of_supported in Hg as [c Hc].
    destruct (plain_converts _ Hpolicy) as [policy_name Hp].
    destruct (plain_converts _ Houtput) as [output_name Ho].
    rewrite Hl, Hc, Hp, Ho.
    rewrite !bool_decide_eq_true_2 by assumption.
    eexists. split; [reflexivity|]. split; reflexivity.
  - intros Hbad.
    destruct (get_berkeley_layout ext _) as [l|]; [|eauto].
    destruct (bool_decide_reflect (1 <= cfg_num_ghosts cfg <= 4)); [|eauto].
    destruct (ghost_class_of (cfg_ghost_agent cfg)) as [c|] eqn:Hc; [|eauto].
    destruct (str_if_given (cfg_policy_file cfg)); [eauto|].
    destruct (bool_decide_reflect (cfg_learn_runs cfg > 0)); [|eauto].
    destruct (bool_decide_reflect (cfg_test_runs cfg > 0)); [|eauto].
    exfalso. destruct Hbad as [H|[H|[H|[H|[H|H]]]]]; try discriminate; try lia.
    apply H, ghost_class_of_supported. eauto.
Qed.



(** C9: whatever noise the configuration asks for, the class attribute
    [noise] is 0 after the constructor and after [start] and [execute];
    and at noise 0 every [_noise_error] is 0 and every ghost is reported at
    its true position. *)
Theorem configured_noise_is_ignored (cfg : Config) (r : R) (source : nat -> Z) :
  let built := BerkeleyAdapter.__init__ ext cfg (loaded r source) in
  noise built.2 = 0 /\
  (forall o : Experiment,
     noise ((start ext ≫= fun _ => execute ext) (o, built.2)).2.2 = 0) /\
  (forall (a : Agent) (w : World R),
     noise w = 0 -> (_noise_error (a, w)).1 = inr 0) /\
  (forall (a : Agent) (w : World R) gs p pa,
     noise w = 0 ->
     game_state a = Some gs ->
     previous_score a = Some p ->
     previous_action a = Some pa ->
     exists f,
       last (sent (send_state ext (a, w)).2.2) = Some (StateMessage f) /\
       forall (i : nat) (x y : Z),
         getGhostPositions gs !! i = Some (x, y) ->
         agent_positions f !! (Z.of_nat i + 1) = Some (y, x)).
Proof.
  cbv zeta. rewrite init_unfold. cbn [snd].
  split; [reflexivity|]. split; [|split].
  - intros o.
    pose proof (framed_bind (start ext) (fun _ => execute ext)
                  (framed_start ext) (fun _ => framed_execute ext)
                  (o, loaded r source)) as (Hn & _).
    exact Hn.
  - intros a w Hw. rewrite noise_error_zero by exact Hw. reflexivity.
  - intros a w gs p pa Hw Hgs Hp Hpa.
    exists (state_fields a w gs p pa).
    split; [apply send_state_sends; (lia || assumption)|].
    intros i x y Hi. rewrite (ghost_position_reported _ _ _ _ _ _ _ _ Hi).
    pose proof (offset_bounds w (random_draws w + 2 * i)) as Hy.
    pose proof (offset_bounds w (random_draws w + 2 * i + 1)) as Hx.
    f_equal. f_equal; lia.
Qed.


End Claims.

(** An experiment from its construction to the end of [execute]: the
    outcome, the experiment as it was left (if it was constructed) and the
    world. *)
Definition run_experiment {R : Type} (ext : Externals R) (cfg : Config)
    (w : World R) : (PyExn + unit) * (option Experiment * World R) :=
  match BerkeleyAdapter.__init__ ext cfg w with
  | (inl e, w') => (inl e, (None, w'))
  | (inr o, w') =>
      let out := (start ext ≫= fun _ => execute ext) (o, w') in
      (out.1, (Some out.2.1, out.2.2))
  end.


(** C6 fails as stated: a resolvable layout, three ghosts and positive
    episode counts do not yet make the constructor succeed. *)
Lemma checked_counts_and_layout_do_not_suffice :
  is_Some (get_berkeley_layout Samples.ext
             (layout_file "classic" 3)) /\
  1 <= cfg_num_ghosts (Samples.config "random" "eater") <= 4 /\
  cfg_learn_runs (Samples.config "random" "eater") > 0 /\
  cfg_test_runs (Samples.config "random" "eater") > 0 /\
  BerkeleyAdapter.__init__ Samples.ext (Samples.config "random" "eater")
    Samples.world
  = (inl (ValueError "Ghost agent must be ai or random."), Samples.world).
Proof.
  split; [vm_compute; eauto|].
  split; [vm_compute; split; discriminate|].
  split; [reflexivity|]. split; [reflexivity|].
  vm_compute. reflexivity.
Qed.

Lemma construction_validates_configuration_witness :
  valid Samples.ext (Samples.config "random" "ai") /\
  exists o,
    BerkeleyAdapter.__init__ Samples.ext (Samples.config "random" "ai")
      Samples.world = (inr o, Samples.world) /\
    results o = None /\ results_scores (pacman o) = [].
Proof.
  assert (Hvalid : valid Samples.ext (Samples.config "random" "ai")).
  { split; [vm_compute; eauto|].
    split; [vm_compute; split; discriminate|].
    split; [apply (bool_decide_unpack _); vm_compute; exact I|].
    split; [reflexivity|]. split; [reflexivity|].
    split; intros codes H; discriminate H. }
  split; [exact Hvalid|].
  apply (construction_validates_configuration Samples.ext
           (Samples.config "random" "ai") Samples.world), Hvalid.
Defined.




Lemma configured_noise_is_ignored_witness :
  cfg_noise (Samples.config "random" "ai") = 2 /\
  noise (BerkeleyAdapter.__init__ Samples.ext (Samples.config "random" "ai")
           Samples.world).2 = 0 /\
  (_noise_error (Samples.playing "random" 0, Samples.world)).1 = inr 0 /\
  exists f,
    last (sent (send_state Samples.ext
                  (Samples.playing "random" 0, Samples.world)).2.2)
    = Some (StateMessage f) /\
    agent_positions f !! 1 = Some (4, 3).
Proof.
  destruct (configured_noise_is_ignored Samples.ext
              (Samples.config "random" "ai") tt (fun n => Z.of_nat n))
    as (Hbuilt & _ & Hnoise & Hstate).
  split; [reflexivity|]. split; [exact Hbuilt|].
  split; [apply Hnoise; reflexivity|].
  destruct (Hstate (Samples.playing "random" 0) Samples.world
              (Samples.board 0) 0 NORTH eq_refl eq_refl eq_refl eq_refl)
    as (f & Hlast & Hghosts).
  exists f. split; [exact Hlast|]. exact (Hghosts 0%nat 3 4 eq_refl).
Defined.

(** C8, on the Pac-Man side: with agent type [ai], [finish_game] raises in
    [_log_behavior_count] before any [RequestBehaviorCountMessage] is
    built; no message is sent and no count is recorded. *)
Theorem pacman_behavior_count_is_never_requested :
  let s := (set_results_scores [100] (Samples.playing "ai" 100),
            Samples.world) in
  finish_game Samples.ext s = (inl (AttributeError "pacman"), s).
Proof. cbv zeta. rewrite finish_game_unfold. reflexivity. Qed.

(** C1, with a Pac-Man agent of type [ai]: an experiment of three learning
    and two test games stops in the [finish_game] of its first learning
    game, with one learn score, no test score, and test mode never
    enabled. *)
Theorem ai_pacman_experiment_stops_after_one_game :
  let out := run_experiment Samples.ext (Samples.config "ai" "ai")
               Samples.world in
  out.1 = inl (AttributeError "pacman") /\
  learn_scores <$> (out.2.1 ≫= results) = Some [100] /\
  test_scores <$> (out.2.1 ≫= results) = Some [] /\
  is_test_mode <$> (pacman <$> out.2.1) = Some false /\
  games_run out.2.2 = 1%nat.
Proof. vm_compute. repeat split; reflexivity. Qed.

End ExperimentClaims.

(** ** Behavior counts and the two phases *)

Module GhostCounts.
Import Adapter Adapter.messages Adapter.BerkeleyAdapterAgent.
Import Adapter.BerkeleyAdapter.
Import AgentFacts FrameFacts AdapterClaims ExperimentFacts.

(** One more count for the label [behavior]. *)
Definition appended (behavior : string) (count : Z)
    (of_agent : gmap string (list Z)) : gmap string (list Z) :=
  <[behavior := default [] (of_agent !! behavior) ++ [count]]> of_agent.

Definition appended_all (counts : list (string * Z))
    (of_agent : gmap string (list Z)) : gmap string (list Z) :=
  fold_left (fun m '(behavior, count) => appended behavior count m)
    counts of_agent.

Lemma log_count_unfold (agent : Z) (behavior : string) (count : Z)
    (r : Results) (of_agent : gmap string (list Z)) :
  behavior_count r !! agent = Some of_agent ->
  log_count agent behavior count r
  = inr (set_behavior_count
           (<[agent := appended behavior count of_agent]> (behavior_count r))
           r).
Proof.
  intros Hagent. unfold log_count, appended. rewrite Hagent.
  destruct (bool_decide_reflect (behavior ∉ dom of_agent)) as [Hnew|Hold].
  - rewrite lookup_insert_eq.
    apply not_elem_of_dom in Hnew. rewrite Hnew.
    rewrite insert_insert_eq. reflexivity.
  - assert (Hin : behavior ∈ dom of_agent).
    { destruct (decide (behavior ∈ dom of_agent)); [assumption|contradiction]. }
    apply elem_of_dom in Hin as [counts Hcounts].
    rewrite Hcounts. reflexivity.
Qed.

Lemma appended_all_lookup (counts : list (string * Z))
    (of_agent : gmap string (list Z)) (behavior : string) :
  NoDup counts.*1 ->
  appended_all counts of_agent !! behavior
  = match (list_to_map counts : gmap string Z) !! behavior with
    | Some count => Some (default [] (of_agent !! behavior) ++ [count])
    | None => of_agent !! behavior
    end.
Proof.
  revert of_agent. induction counts as [|[b c] counts IH]; intros of_agent Hnd.
  - reflexivity.
  - rewrite fmap_cons in Hnd. cbn [fst] in Hnd.
    apply NoDup_cons in Hnd as [Hb Hnd].
    cbn [appended_all fold_left].
    fold (appended_all counts (appended b c of_agent)).
    rewrite (IH _ Hnd). cbn [list_to_map foldr fst snd uncurry].
    unfold appended.
    destruct (decide (b = behavior)) as [->|Hne].
    + rewrite (not_elem_of_list_to_map_1 (M := gmap string) _ _ Hb).
      rewrite !lookup_insert_eq. reflexivity.
    + rewrite !(lookup_insert_ne _ b behavior) by exact Hne. reflexivity.
Qed.

Section Logging.
Context {R : Type} (ext : Externals R).

Lemma log_loop (agent : Z) (counts : list (string * Z)) (o : Experiment)
    (w : World R) (r : Results) (of_agent : gmap string (list Z)) :
  results o = Some r ->
  behavior_count r !! agent = Some of_agent ->
  for_ counts (fun '(behavior, count) =>
                 r ← the_results;
                 match log_count agent behavior count r with
                 | inl e => raise e
                 | inr r' => assign (set_results (Some r'))
                 end) (o, w)
  = (inr tt,
     (set_results
        (Some (set_behavior_count
                 (<[agent := appended_all counts of_agent]> (behavior_count r))
                 r)) o, w)).
Proof.
  revert o r of_agent.
  induction counts as [|[b c] counts IH]; intros o r of_agent Hr Hagent.
  - cbn [for_ appended_all fold_left mret Py_ret].
    rewrite (insert_id _ _ _ Hagent).
    destruct o, r; simpl in *; subst; reflexivity.
  - cbn [for_]. rewrite bind_unfold. unfold the_results at 1.
    repeat (rewrite bind_unfold; cbn [self fst snd]).
    rewrite Hr. cbn [attribute mret Py_ret].
    rewrite (log_count_unfold _ _ _ _ _ Hagent). cbn [assign modify fst snd].
    erewrite IH; [|reflexivity|apply lookup_insert_eq].
    cbn [set_behavior_count behavior_count set_results].
    rewrite insert_insert_eq. reflexivity.
Qed.

(** On the ghost side, logging the counts of a ghost appends, for
    every label of the reply, the reported count to the label's sequence,
    which is new and empty when the label was not yet there; labels the
    reply does not name, other ghosts and the scores are left alone. *)
Lemma ghost_counts_are_appended (agent : Z) (o : Experiment) (w : World R)
    (r : Results) (of_agent : gmap string (list Z)) :
  results o = Some r ->
  behavior_count r !! agent = Some of_agent ->
  exists r' of_agent',
    BerkeleyAdapter._log_behavior_count ext agent (o, w)
    = (inr tt, (set_results (Some r') o, w)) /\
    learn_scores r' = learn_scores r /\
    test_scores r' = test_scores r /\
    behavior_count r' = <[agent := of_agent']> (behavior_count r) /\
    forall behavior,
      of_agent' !! behavior
      = match ghost_behavior_count ext agent (games_run w) !! behavior with
        | Some count => Some (default [] (of_agent !! behavior) ++ [count])
        | None => of_agent !! behavior
        end.
Proof.
  intros Hr Hagent.
  eexists _, (appended_all
                (map_to_list (ghost_behavior_count ext agent (games_run w)))
                of_agent).
  split.
  { unfold BerkeleyAdapter._log_behavior_count.
    rewrite bind_unfold. unfold on_world at 1, zoom at 1, get at 1.
    cbn [fst snd]. apply (log_loop _ _ _ _ _ _ Hr Hagent). }
  repeat split.
  intros behavior.
  rewrite appended_all_lookup by apply NoDup_fst_map_to_list.
  rewrite list_to_map_to_list. reflexivity.
Qed.

End Logging.
End GhostCounts.

Module Phases.
Import Adapter Adapter.messages Adapter.BerkeleyAdapterAgent.
Import Adapter.BerkeleyAdapter.
Import AgentFacts FrameFacts AdapterClaims ExperimentFacts GhostCounts.

Section Phases.
Context {R : Type} (ext : Externals R).

(** The responder answers every state message with an action. *)
Definition answers_states : Prop :=
  forall (r : R) (f : StateFields),
    exists action, (respond ext r (StateMessage f)).1 = ActionReply action.

(** A state message sent in the given mode. *)
Definition state_in (mode : bool) (m : Message) : Prop :=
  exists f, m = StateMessage f /\ test_mode f = mode.

(** What a game leaves of an agent as it was. *)
Definition same_agent (a a' : Agent) : Prop :=
  agent_type a' = agent_type a /\
  is_test_mode a' = is_test_mode a /\
  BerkeleyAdapterAgent.layout a' = BerkeleyAdapterAgent.layout a /\
  results_scores a' = results_scores a.

(** [turns mode s s' l]: from [s] to [s'] the agent answered the simulator,
    sending the state messages [l], all in mode [mode]. *)
Definition turns (mode : bool) (s s' : Agent * World R) (l : list Message)
  : Prop :=
  same_agent s.1 s'.1 /\
  is_Some (previous_score s'.1) /\
  is_Some (previous_action s'.1) /\
  noise s'.2 = noise s.2 /\
  games_run s'.2 = games_run s.2 /\
  sent s'.2 = sent s.2 ++ l /\
  Forall (state_in mode) l.

(** The world after one more game was started. *)
Definition counted (w : World R) : World R :=
  {| noise := noise w; pacman_index := pacman_index w; sent := sent w;
     responder := responder w; random_source := random_source w;
     random_draws := random_draws w; games_run := S (games_run w) |}.

(** An experiment that was started: its results and policies are there,
    with a sequence of counts for every ghost that learns, and its Pac-Man
    agent knows the layout. *)
Definition started (s : Experiment * World R) : Prop :=
  0 <= noise s.2 /\
  is_Some (BerkeleyAdapterAgent.layout (pacman s.1)) /\
  (is_Some (policy_file s.1) -> is_Some (policies s.1)) /\
  exists r,
    results s.1 = Some r /\
    (ghost_class s.1 = BehaviorLearningGhostAgent ->
     Forall (fun g => g ∈ dom (behavior_count r)) (ghosts s.1)).

(** An experiment ready for its games: started, with a Pac-Man agent that
    does not log behavior counts. *)
Definition ready (s : Experiment * World R) : Prop :=
  started s /\ agent_type (pacman s.1) <> "ai".

(** [carried o o']: [o'] is [o] with other results and another state of
    the same Pac-Man agent. *)
Definition carried (o o' : Experiment) : Prop :=
  exists a' r',
    o' = set_results (Some r') (set_pacman a' o) /\
    agent_type a' = agent_type (pacman o) /\
    is_test_mode a' = is_test_mode (pacman o) /\
    BerkeleyAdapterAgent.layout a' = BerkeleyAdapterAgent.layout (pacman o).

(** The messages of one game: the request to start it, then state
    messages, all in the mode of the game. *)
Definition episode_messages (mode : bool) (log : list Message) : Prop :=
  exists id_ w h states,
    log = RequestGameStartMessage id_ w h :: states /\
    states <> [] /\
    Forall (state_in mode) states.

Definition game_in (testing : bool) : Py (Experiment * World R) unit :=
  if testing then test_game ext else learn_game ext.

Lemma load_policy_calls (l : list Z) (policies : gmap Z PyVal)
    (s : Experiment * World R) :
  for_ l (fun agent =>
            if bool_decide (agent ∈ dom policies)
            then ghost_call "load_policy" agent else mret tt) s
  = (inr tt, s).
Proof.
  induction l as [|g l IH]; [reflexivity|].
  cbn [for_]. rewrite bind_unfold.
  destruct (bool_decide (g ∈ dom policies)); exact IH.
Qed.

Lemma set_results_id (o : Experiment) (r : Results) :
  results o = Some r -> set_results (Some r) o = o.
Proof. intros H. destruct o; simpl in *; subst; reflexivity. Qed.

Lemma log_all_ghosts (l : list Z) (o : Experiment) (w : World R)
    (r : Results) :
  results o = Some r ->
  Forall (fun g => g ∈ dom (behavior_count r)) l ->
  exists r',
    for_ l (BerkeleyAdapter._log_behavior_count ext) (o, w)
    = (inr tt, (set_results (Some r') o, w)) /\
    learn_scores r' = learn_scores r /\
    test_scores r' = test_scores r /\
    dom (behavior_count r') = dom (behavior_count r).
Proof.
  revert o r. induction l as [|g l IH]; intros o r Hr Hl.
  - exists r. rewrite (set_results_id _ _ Hr). repeat split; reflexivity.
  - apply Forall_cons in Hl as [Hg Hl].
    pose proof Hg as Hg'. apply elem_of_dom in Hg' as [of_agent Hagent].
    destruct (ghost_counts_are_appended ext g o w r of_agent Hr Hagent)
      as (r1 & of_agent' & Hlog & Hlearn & Htest & Hcount & _).
    assert (Hdom : dom (behavior_count r1) = dom (behavior_count r)).
    { rewrite Hcount, dom_insert_L.
      apply subseteq_union_1_L, singleton_subseteq_l. exact Hg. }
    destruct (IH (set_results (Some r1) o) r1 eq_refl) as (r' & Hfor & H1 & H2 & H3).
    { rewrite Hdom. exact Hl. }
    exists r'. cbn [for_]. rewrite bind_unfold, Hlog, Hfor.
    repeat split; congruence.
Qed.

Lemma carried_trans (o1 o2 o3 : Experiment) :
  carried o1 o2 -> carried o2 o3 -> carried o1 o3.
Proof.
  intros (a2 & r2 & -> & Ht2 & Hm2 & Hl2) (a3 & r3 & -> & Ht3 & Hm3 & Hl3).
  cbn [pacman set_results set_pacman] in *.
  exists a3, r3. repeat split; congruence.
Qed.

Lemma cleared_dom (l : list Z) (counts : gmap Z (gmap string (list Z))) :
  (forall g, g ∈ dom counts -> g ∈ dom (cleared l counts)) /\
  Forall (fun g => g ∈ dom (cleared l counts)) l.
Proof.
  revert counts. induction l as [|x l IH]; intros counts.
  - split; [auto | constructor].
  - cbn [cleared fold_left]. fold (cleared l (<[x := ∅]> counts)).
    destruct (IH (<[x := ∅]> counts)) as [Hmono Hall].
    split.
    + intros g Hg. apply Hmono. rewrite dom_insert_L.
      apply elem_of_union. right. exact Hg.
    + constructor; [|exact Hall].
      apply Hmono. rewrite dom_insert_L.
      apply elem_of_union. left. apply elem_of_singleton. reflexivity.
Qed.

(** An experiment that was constructed and started is ready for its first
    game: no score yet, test mode off, agent type and episode counts as
    configured. *)
Lemma start_leaves_started (cfg : Config) (w w1 : World R) (o : Experiment)
    (s : Experiment * World R) :
  0 <= noise w ->
  BerkeleyAdapter.__init__ ext cfg w = (inr o, w1) ->
  start ext (o, w1) = (inr tt, s) ->
  started s /\
  agent_type (pacman s.1) = cfg_pacman_agent cfg /\
  is_test_mode (pacman s.1) = false /\
  learn_runs s.1 = cfg_learn_runs cfg /\
  test_runs s.1 = cfg_test_runs cfg /\
  games_run s.2 = games_run w /\
  exists r, results s.1 = Some r /\ learn_scores r = [] /\ test_scores r = [].
Proof.
  intros Hn Hinit Hstart.
  apply init_returns in Hinit as (-> & _ & _ & _ & l & c & ->).
  rewrite start_unfold, on_pacman_unfold, start_experiment_unfold in Hstart.
  destruct (truthy _); [discriminate|].
  destruct (class_of_type _) as [c'|]; [|discriminate].
  cbn [fst snd] in Hstart. injection Hstart as <-.
  cbn [fst snd]. split; [|repeat split].
  - unfold started. cbn [fst snd]. split; [exact Hn|].
    split; [cbn; eauto|]. split; [cbn; eauto|].
    eexists. split; [reflexivity|]. cbn.
    intros Hc. rewrite bool_decide_eq_true_2 by exact Hc.
    apply cleared_dom.
  - eexists. split; [reflexivity|]. split; reflexivity.
Qed.

Hypothesis Hanswers : answers_states.

Lemma getAction_turn (a : Agent) (w : World R) (gs : GameState) :
  0 <= noise w ->
  is_Some (previous_score a) ->
  is_Some (previous_action a) ->
  exists action s' m,
    getAction ext gs (a, w) = (inr action, s') /\
    turns (is_test_mode a) (a, w) s' [m].
Proof.
  intros Hn [p Hp] [pa Hpa]. rewrite getAction_unfold by exact Hn.
  rewrite Hp, Hpa. cbv zeta.
  destruct (Hanswers (responder w)
              (state_fields (set_game_state (Some gs) a) w gs p pa))
    as [action Haction].
  rewrite Haction. eexists _, _, _. split; [reflexivity|].
  unfold turns, same_agent. cbn.
  repeat split; eauto.
  constructor; [|constructor]. eexists. split; reflexivity.
Qed.

Lemma play_turns (game : Game) (a : Agent) (w : World R) :
  0 <= noise w ->
  is_Some (previous_score a) ->
  is_Some (previous_action a) ->
  exists state s' l,
    play ext game (a, w) = (inr state, s') /\
    turns (is_test_mode a) (a, w) s' l.
Proof.
  revert a w. induction game as [gs next IH|gs]; intros a w Hn Hp Hpa.
  - cbn [play]. rewrite bind_unfold.
    destruct (getAction_turn a w gs Hn Hp Hpa)
      as (action & [a1 w1] & m & Hget & Hturn).
    rewrite Hget.
    destruct Hturn as ((Ht & Hm & Hl & Hs) & Hp1 & Hpa1 & Hn1 & Hg1 & Hs1 & Hf1).
    cbn [fst snd] in *.
    destruct (IH action a1 w1) as (state & [a2 w2] & l & Hplay & Hturn2);
      [lia | assumption | assumption |].
    exists state, (a2, w2), (m :: l). split; [exact Hplay|].
    destruct Hturn2
      as ((Ht2 & Hm2 & Hl2 & Hs2) & Hp2 & Hpa2 & Hn2 & Hg2 & Hsent2 & Hf2).
    cbn [fst snd] in *. unfold turns, same_agent. cbn [fst snd].
    split; [repeat split; congruence|].
    split; [assumption|]. split; [assumption|].
    split; [congruence|]. split; [congruence|]. split.
    + rewrite Hsent2, Hs1, <- app_assoc. reflexivity.
    + constructor.
      * apply Forall_inv in Hf1. exact Hf1.
      * rewrite <- Hm. exact Hf2.
  - cbn [play mret Py_ret]. exists gs, (a, w), []. split; [reflexivity|].
    unfold turns, same_agent. cbn [fst snd].
    repeat split; try assumption; try constructor.
    symmetry. apply app_nil_r.
Qed.

Lemma run_game_returns (o : Experiment) (w : World R) (r : Results) :
  0 <= noise w ->
  is_Some (previous_score (pacman o)) ->
  is_Some (previous_action (pacman o)) ->
  (is_Some (policy_file o) -> is_Some (policies o)) ->
  results o = Some r ->
  (ghost_class o = BehaviorLearningGhostAgent ->
   Forall (fun g => g ∈ dom (behavior_count r)) (ghosts o)) ->
  exists score a' w' r' l,
    _run_game ext (o, w)
    = (inr score, (set_results (Some r') (set_pacman a' o), w')) /\
    same_agent (pacman o) a' /\
    noise w' = noise w /\
    games_run w' = S (games_run w) /\
    sent w' = sent w ++ l /\
    Forall (state_in (is_test_mode (pacman o))) l /\
    l <> [] /\
    learn_scores r' = learn_scores r /\
    test_scores r' = test_scores r /\
    dom (behavior_count r') = dom (behavior_count r).
Proof.
  intros Hn Hp Hpa Hpol Hr Hghosts. unfold _run_game.
  rewrite bind_unfold. cbn [self fst snd].
  rewrite bind_unfold, ghost_calls. cbv beta iota.
  rewrite bind_unfold.
  assert (Hload :
    (if bool_decide (is_Some (policy_file o))
     then policies ← attribute "policies" (policies o);
          for_ (ghosts o) (fun agent =>
            if bool_decide (agent ∈ dom policies)
            then ghost_call "load_policy" agent else mret tt)
     else mret tt) (o, w) = (inr tt, (o, w))).
  { destruct (bool_decide_reflect (is_Some (policy_file o))) as [Hf|Hf];
      [|reflexivity].
    destruct (Hpol Hf) as [p' Hp']. rewrite Hp'.
    rewrite bind_unfold. cbn [attribute mret Py_ret].
    apply load_policy_calls. }
  rewrite Hload. clear Hload. cbv beta iota.
  rewrite bind_unfold.
  change (on_world count_game (o, w))
    with (@inr PyExn nat (games_run w), (o, counted w)).
  cbv beta iota.
  rewrite bind_unfold, on_pacman_unfold.
  destruct (play_turns (run_berkeley_games ext (layout o) (games_run w))
              (pacman o) (counted w) Hn Hp Hpa)
    as (state & [a1 w1] & l1 & Hplay & Hturn1).
  rewrite Hplay. cbn [fst snd]. cbv beta iota.
  destruct Hturn1 as ((Ht1 & Hm1 & Hl1 & Hs1) & Hp1 & Hpa1 & Hn1 & Hg1 & Hsent1 & Hf1).
  cbn [fst snd] in *.
  rewrite bind_unfold, on_pacman_unfold.
  change (pacman (set_pacman a1 o)) with a1.
  destruct (getAction_turn a1 w1 state) as (action & [a2 w2] & m & Hget & Hturn2);
    [cbn [counted noise] in Hn1; lia | assumption | assumption |].
  rewrite Hget. cbn [fst snd]. cbv beta iota.
  destruct Hturn2 as ((Ht2 & Hm2 & Hl2 & Hs2) & Hp2 & Hpa2 & Hn2 & Hg2 & Hsent2 & Hf2).
  cbn [fst snd] in *.
  rewrite bind_unfold, ghost_calls. cbv beta iota.
  rewrite bind_unfold.
  change (ghost_class (set_pacman a2 (set_pacman a1 o))) with (ghost_class o).
  change (ghosts (set_pacman a2 (set_pacman a1 o))) with (ghosts o).
  change (ghost_class (set_pacman a1 o)) with (ghost_class o).
  change (ghosts (set_pacman a1 o)) with (ghosts o).
  assert (Hlog : exists r',
    (if bool_decide (ghost_class o = BehaviorLearningGhostAgent)
     then for_ (ghosts o) (BerkeleyAdapter._log_behavior_count ext)
     else mret tt) (set_pacman a2 (set_pacman a1 o), w2)
    = (inr tt, (set_results (Some r') (set_pacman a2 o), w2)) /\
    learn_scores r' = learn_scores r /\
    test_scores r' = test_scores r /\
    dom (behavior_count r') = dom (behavior_count r)).
  { destruct (bool_decide_reflect (ghost_class o = BehaviorLearningGhostAgent))
      as [Hc|Hc].
    - destruct (log_all_ghosts (ghosts o) (set_pacman a2 (set_pacman a1 o)) w2
                  r Hr (Hghosts Hc)) as (r' & Hfor & H1 & H2 & H3).
      exists r'. rewrite Hfor. repeat split; assumption.
    - exists r. split; [|repeat split; reflexivity].
      cbn [mret Py_ret]. f_equal. f_equal. symmetry.
      apply (set_results_id (set_pacman a2 o)). exact Hr. }
  destruct Hlog as (r' & Hlog & Hlearn & Htest & Hdom).
  rewrite Hlog. cbn [mret Py_ret].
  exists (getScore state), a2, w2, r', (l1 ++ [m]).
  split; [reflexivity|].
  split; [unfold same_agent; repeat split; congruence|].
  split; [cbn [counted noise] in Hn1; congruence|].
  split; [cbn [counted games_run] in Hg1; congruence|].
  split; [rewrite Hsent2, Hsent1, <- app_assoc; reflexivity|].
  split.
  { apply Forall_app. split; [exact Hf1|]. rewrite <- Hm1. exact Hf2. }
  split; [intros Hnil; apply app_eq_nil in Hnil as [_ Hnil]; discriminate|].
  repeat split; assumption.
Qed.

(** One game of either phase, up to its outcome: everything is done as
    for any agent, and the last step, [finish_game], raises for an agent of
    type [ai]. *)
Lemma game_outcome (testing : bool) (s : Experiment * World R) :
  started s ->
  exists s' log score r r',
    game_in testing s
    = (if String.eqb (agent_type (pacman s.1)) "ai"
       then inl (AttributeError "pacman") else inr tt, s') /\
    started s' /\
    carried s.1 s'.1 /\
    noise s'.2 = noise s.2 /\
    games_run s'.2 = S (games_run s.2) /\
    sent s'.2 = sent s.2 ++ log /\
    episode_messages (is_test_mode (pacman s.1)) log /\
    results s.1 = Some r /\
    results s'.1 = Some r' /\
    learn_scores r' = learn_scores r ++ (if testing then [] else [score]) /\
    test_scores r' = test_scores r ++ (if testing then [score] else []).
Proof.
  destruct s as [o w].
  intros (Hn & [l Hl] & Hpol & r & Hr & Hghosts). cbn [fst snd] in *.
  set (a1 := set_previous_action (Some NORTH)
               (set_previous_score (Some 0) (pacman o))).
  set (m := RequestGameStartMessage (agent_id (pacman o)) (width l) (height l)).
  destruct (run_game_returns (set_pacman a1 o) (delivered ext m 0 w) r)
    as (score & a2 & w2 & r2 & states & Hrun & (Ht & Hm & Hlay & Hs) & Hn2
        & Hg2 & Hsent2 & Hstates & Hne & Hlearn & Htest & Hdom);
    [exact Hn | cbn; eauto | cbn; eauto | exact Hpol | exact Hr
    | exact Hghosts |].
  cbn [pacman set_pacman a1 agent_type is_test_mode
       BerkeleyAdapterAgent.layout results_scores set_previous_action
       set_previous_score] in Ht, Hm, Hlay, Hs, Hstates.
  cbn [delivered noise games_run sent] in Hn2, Hg2, Hsent2.
  assert (Hfinish :
    finish_game ext (set_results_scores (results_scores a2 ++ [score]) a2, w2)
    = (if String.eqb (agent_type (pacman o)) "ai"
       then inl (AttributeError "pacman") else inr tt,
       (set_results_scores (results_scores a2 ++ [score]) a2, w2))).
  { rewrite finish_game_unfold.
    cbn [results_scores set_results_scores agent_type].
    rewrite bool_decide_eq_false_2
      by (intros Hnil; apply app_eq_nil in Hnil as [_ Hnil]; discriminate).
    rewrite Ht. destruct (String.eqb (agent_type (pacman o)) "ai");
      reflexivity. }
  set (record := fun r2 : Results =>
         if testing then set_test_scores (test_scores r2 ++ [score]) r2
         else set_learn_scores (learn_scores r2 ++ [score]) r2).
  exists (set_results (Some (record r2))
            (set_pacman
               (set_results_scores (results_scores a2 ++ [score]) a2) o), w2),
         (m :: states), score, r, (record r2).
  split.
  { unfold game_in, record.
    destruct testing; [unfold test_game | unfold learn_game].
    all: rewrite bind_unfold, on_pacman_unfold,
           (start_game_returns ext _ _ _ Hl); cbn [fst snd]; cbv beta iota.
    all: fold a1; fold m.
    all: rewrite bind_unfold, Hrun; cbv beta iota.
    all: rewrite bind_unfold; unfold the_results at 1.
    all: repeat (rewrite bind_unfold;
                 cbn [self fst snd results set_results attribute
                      mret Py_ret]).
    all: cbn [assign modify fst snd].
    all: rewrite bind_unfold, on_pacman_unfold.
    all: repeat (rewrite bind_unfold;
                 cbn [self fst snd pacman set_results set_pacman
                      mret Py_ret]).
    all: cbn [assign modify fst snd]; cbv beta iota.
    all: rewrite on_pacman_unfold.
    all: cbn [pacman set_pacman set_results].
    all: rewrite Hfinish; reflexivity. }
  cbn [fst snd].
  split.
  { unfold started. cbn [fst snd pacman set_results set_pacman results
                         BerkeleyAdapterAgent.layout agent_type
                         set_results_scores policy_file policies ghost_class
                         ghosts].
    split; [lia|]. split; [rewrite Hlay; eauto|]. split; [exact Hpol|].
    exists (record r2). split; [reflexivity|].
    intros Hc. specialize (Hghosts Hc).
    replace (behavior_count (record r2)) with (behavior_count r2)
      by (unfold record; destruct testing; reflexivity).
    rewrite Hdom. exact Hghosts. }
  split.
  { exists (set_results_scores (results_scores a2 ++ [score]) a2), (record r2).
    repeat split; assumption. }
  split; [exact Hn2|]. split; [exact Hg2|].
  split; [rewrite Hsent2, <- app_assoc; reflexivity|].
  split; [exists (agent_id (pacman o)), (width l), (height l), states;
          repeat split; assumption|].
  split; [exact Hr|]. split; [reflexivity|].
  unfold record. destruct testing; cbn; rewrite ?app_nil_r;
    split; congruence.
Qed.

Lemma game_returns (testing : bool) (s : Experiment * World R) :
  ready s ->
  exists s' log score r r',
    game_in testing s = (inr tt, s') /\
    ready s' /\
    carried s.1 s'.1 /\
    noise s'.2 = noise s.2 /\
    games_run s'.2 = S (games_run s.2) /\
    sent s'.2 = sent s.2 ++ log /\
    episode_messages (is_test_mode (pacman s.1)) log /\
    results s.1 = Some r /\
    results s'.1 = Some r' /\
    learn_scores r' = learn_scores r ++ (if testing then [] else [score]) /\
    test_scores r' = test_scores r ++ (if testing then [score] else []).
Proof.
  intros [Hstarted Hai].
  destruct (game_outcome testing s Hstarted)
    as (s' & log & score & r & r' & Hgame & Hstarted' & Hcar & Hrest).
  exists s', log, score, r, r'.
  destruct (String.eqb_spec (agent_type (pacman s.1)) "ai") as [Heq|_];
    [contradiction|].
  split; [exact Hgame|]. split; [|split; [exact Hcar | exact Hrest]].
  split; [exact Hstarted'|].
  destruct Hcar as (a' & r0 & -> & Ht & _). cbn [pacman set_results set_pacman].
  congruence.
Qed.

(** With a Pac-Man agent of type [ai] (and the same responder, which
    answers states with actions), [execute] on a started experiment that
    is to learn from at least one game, and from no more games than a C
    long counts, raises at the end of its first game: one score more in
    the learning sequence, none in the test sequence, and the test mode as
    it was. *)
Lemma execute_of_ai_raises (s : Experiment * World R) :
  started s ->
  agent_type (pacman s.1) = "ai" ->
  0 < learn_runs s.1 ->
  learn_runs s.1 <= sys_maxint ext ->
  exists s' score r r',
    execute ext s = (inl (AttributeError "pacman"), s') /\
    results s.1 = Some r /\
    results s'.1 = Some r' /\
    learn_scores r' = learn_scores r ++ [score] /\
    test_scores r' = test_scores r /\
    is_test_mode (pacman s'.1) = is_test_mode (pacman s.1) /\
    games_run s'.2 = S (games_run s.2).
Proof.
  intros Hstarted Hai Hruns Hlong.
  destruct (game_outcome false s Hstarted)
    as (s' & log & score & r & r' & Hgame & _ & Hcar & _ & Hg & _ & _ & Hr
        & Hr' & Hlearn & Htest).
  rewrite Hai in Hgame. cbn in Hgame.
  exists s', score, r, r'. split.
  { unfold execute. destruct s as [o w]. cbn [fst snd] in *.
    rewrite bind_unfold. cbn [self fst snd]. cbv beta iota.
    rewrite bind_unfold, xrange_fits
      by (pose proof (sys_maxint_32 ext); unfold fits_long; lia).
    rewrite bind_unfold. unfold xrange_items.
    destruct (Z.to_nat (learn_runs o)) as [|n] eqn:Hn; [lia|].
    cbn [seq fmap list_fmap for_].
    rewrite bind_unfold, Hgame. reflexivity. }
  split; [exact Hr|]. split; [exact Hr'|]. split; [exact Hlearn|].
  split; [rewrite Htest; apply app_nil_r|].
  split; [|exact Hg].
  destruct Hcar as (a' & r0 & -> & _ & Hm & _). exact Hm.
Qed.

Lemma games_return (testing : bool) (l : list Z) (s : Experiment * World R) :
  ready s ->
  exists s' logs scores r r',
    for_ l (fun _ => game_in testing) s = (inr tt, s') /\
    ready s' /\
    carried s.1 s'.1 /\
    noise s'.2 = noise s.2 /\
    games_run s'.2 = (length l + games_run s.2)%nat /\
    length logs = length l /\
    length scores = length l /\
    sent s'.2 = sent s.2 ++ concat logs /\
    Forall (episode_messages (is_test_mode (pacman s.1))) logs /\
    results s.1 = Some r /\
    results s'.1 = Some r' /\
    learn_scores r' = learn_scores r ++ (if testing then [] else scores) /\
    test_scores r' = test_scores r ++ (if testing then scores else []).
Proof.
  revert s. induction l as [|x l IH]; intros s Hready.
  - destruct Hready as ((Hn & Hl & Hpol & r & Hr & Hghosts) & Hai).
    exists s, [], [], r, r. cbn [for_ mret Py_ret concat length].
    split; [reflexivity|].
    split; [split; [unfold started; eauto 10 | exact Hai]|].
    split.
    { exists (pacman s.1), r. split; [|repeat split; reflexivity].
      destruct s as [o w]. cbn [fst] in *.
      destruct o; simpl in *; subst; reflexivity. }
    destruct testing; rewrite !app_nil_r;
      repeat split; try reflexivity; try assumption; constructor.
  - destruct (game_returns testing s Hready)
      as (s1 & log & score & r & r1 & Hgame & Hready1 & Hcar1 & Hn1 & Hg1
          & Hsent1 & Hlog & Hr & Hr1 & Hlearn1 & Htest1).
    destruct (IH s1 Hready1)
      as (s2 & logs & scores & r1' & r2 & Hfor & Hready2 & Hcar2 & Hn2 & Hg2
          & Hlen & Hlens & Hsent2 & Hlogs & Hr1' & Hr2 & Hlearn2 & Htest2).
    rewrite Hr1 in Hr1'. injection Hr1' as <-.
    exists s2, (log :: logs), (score :: scores), r, r2.
    cbn [for_]. rewrite bind_unfold, Hgame.
    split; [exact Hfor|]. split; [exact Hready2|].
    split; [exact (carried_trans _ _ _ Hcar1 Hcar2)|].
    split; [congruence|].
    split; [cbn [length]; lia|].
    split; [cbn [length]; lia|]. split; [cbn [length]; lia|].
    split; [cbn [concat]; rewrite Hsent2, Hsent1, <- app_assoc; reflexivity|].
    split.
    { constructor; [exact Hlog|].
      destruct Hcar1 as (a' & r' & -> & _ & Hm & _) in Hlogs.
      cbn [pacman set_results set_pacman] in Hlogs.
      rewrite Hm in Hlogs. exact Hlogs. }
    split; [exact Hr|]. split; [exact Hr2|].
    rewrite Hlearn2, Htest2, Hlearn1, Htest1, <- !app_assoc.
    destruct testing; split; reflexivity.
Qed.

(** With a responder that answers states with actions and a Pac-Man agent
    that is not of type [ai], [execute] on a started experiment whose
    numbers of games fit a C long runs [learn_runs] learning games, then
    [test_runs] test games. Each game
    appends its score to the sequence of its phase and sends a request to
    start followed by state messages, in learning mode for the first and
    in test mode for the second phase; test mode is on at the end. *)
Theorem execute_runs_both_phases (s : Experiment * World R) :
  ready s ->
  is_test_mode (pacman s.1) = false ->
  fits_long ext (learn_runs s.1) ->
  fits_long ext (test_runs s.1) ->
  exists s' learn_logs test_logs learned tested r r',
    execute ext s = (inr tt, s') /\
    results s.1 = Some r /\
    results s'.1 = Some r' /\
    learn_scores r' = learn_scores r ++ learned /\
    test_scores r' = test_scores r ++ tested /\
    length learned = Z.to_nat (learn_runs s.1) /\
    length tested = Z.to_nat (test_runs s.1) /\
    length learn_logs = Z.to_nat (learn_runs s.1) /\
    length test_logs = Z.to_nat (test_runs s.1) /\
    sent s'.2 = sent s.2 ++ concat learn_logs ++ concat test_logs /\
    Forall (episode_messages false) learn_logs /\
    Forall (episode_messages true) test_logs /\
    is_test_mode (pacman s'.1) = true /\
    games_run s'.2
    = (Z.to_nat (learn_runs s.1) + Z.to_nat (test_runs s.1) + games_run s.2)%nat.
Proof.
  intros Hready Hmode Hlong_learn Hlong_test.
  destruct (games_return false (xrange_items (learn_runs s.1)) s Hready)
    as ([o1 w1] & learn_logs & learned & r & r1 & Hlearn & Hready1 & Hcar1
        & Hn1 & Hg1 & Hlen1 & Hlens1 & Hsent1 & Hlogs1 & Hr & Hr1 & Hl1 & Ht1).
  cbn [fst snd] in *.
  set (o1' := set_pacman (set_is_test_mode true (pacman o1)) o1).
  assert (Hready1' : ready (o1', w1)).
  { destruct Hready1 as ((Hn & Hl & Hpol & r0 & Hr0 & Hghosts) & Hai).
    unfold ready, started. cbn [fst snd] in *. repeat split; try assumption.
    exists r0. split; assumption. }
  destruct (games_return true (xrange_items (test_runs o1')) (o1', w1)
              Hready1')
    as ([o2 w2] & test_logs & tested & r1' & r2 & Htest & Hready2 & Hcar2
        & Hn2 & Hg2 & Hlen2 & Hlens2 & Hsent2 & Hlogs2 & Hr1' & Hr2 & Hl2 & Ht2).
  cbn [fst snd] in *.
  change (results o1') with (results o1) in Hr1'.
  rewrite Hr1 in Hr1'. injection Hr1' as <-.
  assert (Hruns : learn_runs o1 = learn_runs s.1 /\ test_runs o1 = test_runs s.1).
  { destruct Hcar1 as (a' & r' & -> & _). split; reflexivity. }
  destruct Hruns as [Hruns_l Hruns_t].
  change (test_runs o1') with (test_runs o1) in *.
  rewrite Hruns_t in *.
  unfold xrange_items in Hlen1, Hlens1, Hlen2, Hlens2, Hg1, Hg2.
  rewrite length_fmap, length_seq in Hlen1, Hlens1, Hlen2, Hlens2, Hg1, Hg2.
  exists (o2, w2), learn_logs, test_logs, learned, tested, r, r2.
  split.
  { unfold execute. destruct s as [o w]. cbn [fst snd] in *.
    rewrite bind_unfold. cbn [self fst snd]. cbv beta iota.
    rewrite bind_unfold, xrange_fits by exact Hlong_learn.
    rewrite bind_unfold.
    change (for_ (xrange_items (learn_runs o)) (fun _ => learn_game ext)
              (o, w))
      with (for_ (xrange_items (learn_runs o)) (fun _ => game_in false)
              (o, w)).
    rewrite Hlearn. cbv beta iota.
    rewrite bind_unfold.
    change (on_pacman enable_test_mode (o1, w1)) with (@inr PyExn unit tt, (o1', w1)).
    cbv beta iota.
    rewrite bind_unfold. cbn [self fst snd]. cbv beta iota.
    rewrite bind_unfold, ghost_calls. cbv beta iota.
    change (test_runs o1') with (test_runs o1). rewrite Hruns_t.
    rewrite bind_unfold, xrange_fits by exact Hlong_test.
    exact Htest. }
  cbn [fst snd].
  split; [exact Hr|]. split; [exact Hr2|].
  cbv beta iota in Hl1, Ht1, Hl2, Ht2. rewrite app_nil_r in Ht1, Hl2.
  split; [congruence|]. split; [congruence|].
  split; [exact Hlens1|]. split; [exact Hlens2|].
  split; [exact Hlen1|]. split; [exact Hlen2|].
  split; [rewrite Hsent2, Hsent1, <- app_assoc; reflexivity|].
  split; [rewrite Hmode in Hlogs1; exact Hlogs1|].
  split; [exact Hlogs2|].
  split.
  { destruct Hcar2 as (a' & r' & -> & _ & Hm & _). exact Hm. }
  lia.
Qed.

(** The same from the configuration: an experiment that was constructed
    and started, with a Pac-Man agent that is not of type [ai] and numbers
    of games that a C long can hold, ends [execute] with as many learn
    scores and as many test scores as the configuration asks for, and that
    many games run. *)
Theorem experiment_runs_both_phases (cfg : Config) (w w1 : World R)
    (o : Experiment) (s : Experiment * World R) :
  0 <= noise w ->
  cfg_pacman_agent cfg <> "ai" ->
  cfg_learn_runs cfg <= sys_maxint ext ->
  cfg_test_runs cfg <= sys_maxint ext ->
  BerkeleyAdapter.__init__ ext cfg w = (inr o, w1) ->
  start ext (o, w1) = (inr tt, s) ->
  exists s' learn_logs test_logs r',
    execute ext s = (inr tt, s') /\
    results s'.1 = Some r' /\
    length (learn_scores r') = Z.to_nat (cfg_learn_runs cfg) /\
    length (test_scores r') = Z.to_nat (cfg_test_runs cfg) /\
    length learn_logs = Z.to_nat (cfg_learn_runs cfg) /\
    length test_logs = Z.to_nat (cfg_test_runs cfg) /\
    sent s'.2 = sent s.2 ++ concat learn_logs ++ concat test_logs /\
    Forall (episode_messages false) learn_logs /\
    Forall (episode_messages true) test_logs /\
    is_test_mode (pacman s'.1) = true /\
    games_run s'.2
    = (Z.to_nat (cfg_learn_runs cfg) + Z.to_nat (cfg_test_runs cfg)
       + games_run w)%nat.
Proof.
  intros Hn Hai Hlong_learn Hlong_test Hinit Hstart.
  destruct (start_leaves_started cfg w w1 o s Hn Hinit Hstart)
    as (Hstarted & Htype & Hmode & Hlearn_runs & Htest_runs & Hgames & r0
        & Hr0 & Hl0 & Ht0).
  assert (Hready : ready s) by (split; [exact Hstarted | congruence]).
  pose proof (init_returns ext cfg w w1 o Hinit)
    as (_ & _ & Hlearn_pos & Htest_pos & _).
  pose proof (sys_maxint_32 ext) as Hlong.
  destruct (execute_runs_both_phases s Hready Hmode)
    as (s' & learn_logs & test_logs & learned & tested & r & r' & Hexec & Hr
        & Hr' & Hlearn & Htest & Hl1 & Hl2 & Hlog1 & Hlog2 & Hsent & Hf1 & Hf2
        & Hm & Hg);
    [unfold fits_long; lia | unfold fits_long; lia |].
  rewrite Hr0 in Hr. injection Hr as <-.
  rewrite Hl0 in Hlearn. rewrite Ht0 in Htest. cbn [app] in Hlearn, Htest.
  rewrite Hlearn_runs, Htest_runs in *.
  exists s', learn_logs, test_logs, r'.
  repeat split; try assumption; congruence.
Qed.

End Phases.

Lemma sample_answers_states : answers_states Samples.ext.
Proof. intros r f. exists STOP. reflexivity. Qed.

(** The sample experiment, constructed and started with a Pac-Man agent
    of type [random]. *)
Definition sample_started : Experiment * World unit :=
  (start Samples.ext
     (constructed (Samples.config "random" "ai")
        {| width := 20; height := 11 |} BehaviorLearningGhostAgent,
      Samples.world)).2.

Lemma sample_started_ready :
  ready sample_started /\ is_test_mode (pacman sample_started.1) = false.
Proof.
  destruct (start_leaves_started Samples.ext (Samples.config "random" "ai")
              Samples.world Samples.world
              (constructed (Samples.config "random" "ai")
                 {| width := 20; height := 11 |} BehaviorLearningGhostAgent)
              sample_started) as (Hstarted & Htype & Hmode & _).
  - vm_compute. discriminate.
  - vm_compute. reflexivity.
  - vm_compute. reflexivity.
  - split; [|exact Hmode]. split; [exact Hstarted|].
    rewrite Htype. discriminate.
Qed.

Lemma execute_runs_both_phases_witness :
  exists s' learn_logs test_logs r',
    execute Samples.ext sample_started = (inr tt, s') /\
    results s'.1 = Some r' /\
    length (learn_scores r') = 3%nat /\
    length (test_scores r') = 2%nat /\
    sent s'.2 = sent sample_started.2 ++ concat learn_logs ++ concat test_logs /\
    length learn_logs = 3%nat /\
    length test_logs = 2%nat /\
    Forall (episode_messages false) learn_logs /\
    Forall (episode_messages true) test_logs /\
    is_test_mode (pacman s'.1) = true.
Proof.
  destruct sample_started_ready as [Hready Hmode].
  destruct (execute_runs_both_phases Samples.ext sample_answers_states
              sample_started Hready Hmode)
    as (s' & learn_logs & test_logs & learned & tested & r & r' & Hexec & Hr
        & Hr' & Hlearn & Htest & Hl1 & Hl2 & Hlog1 & Hlog2 & Hsent & Hf1 & Hf2
        & Hm & _);
    [vm_compute; split; discriminate | vm_compute; split; discriminate |].
  exists s', learn_logs, test_logs, r'.
  assert (Hr0 : results sample_started.1
                = Some {| learn_scores := []; test_scores := [];
                          behavior_count :=
                            cleared [1; 2; 3] ∅ |}) by reflexivity.
  rewrite Hr0 in Hr. injection Hr as <-.
  cbn [learn_scores test_scores app] in Hlearn, Htest.
  repeat split; try assumption.
  - rewrite Hlearn. exact Hl1.
  - rewrite Htest. exact Hl2.
Defined.

End Phases.

(** * Further properties *)

(** ** Calls of the message classes *)

Module MessageCalls.
Import Messages.

Lemma bind_params_positional (params : list (string * PyVal)) (args : list PyVal) :
  (length args <= length params)%nat ->
  (bind_params params args ∅).*1 = params.*1 /\
  (bind_params params args ∅).*2 = args ++ drop (length args) params.*2.
Proof.
  revert args. induction params as [|[name dflt] params IH]; intros args Hlen.
  - destruct args; [split; reflexivity | simpl in Hlen; lia].
  - destruct args as [|a args].
    + cbn [bind_params]. rewrite lookup_empty. cbn [default].
      destruct (IH [] ltac:(simpl; lia)) as [IH1 IH2].
      split; cbn; f_equal; [exact IH1 | exact IH2].
    + cbn [bind_params]. simpl in Hlen.
      destruct (IH args ltac:(lia)) as [IH1 IH2].
      split; cbn; f_equal; [exact IH1 | exact IH2].
Qed.

Lemma attributes_init_body (k : Kind) (env : list (string * PyVal)) :
  env.*1 = (init_params k).*1 ->
  attributes (init_body k env) = env.
Proof.
  intros H.
  destruct k; cbn in H;
    repeat (destruct env as [|[? ?] env]; [discriminate H|]);
    (destruct env; [|discriminate H]);
    cbn in H; simplify_eq; reflexivity.
Qed.

(** Positional arguments fill the parameters from the left, and the first
    parameter of every class is [msg_type]: a call with positional
    arguments (and no more of them than the class has parameters) builds a
    message of the class whose attributes are, in their order, the
    arguments followed by the defaults of the parameters left over. So the
    first positional argument replaces the tag, not the first field. *)
Theorem positional_arguments_fill_from_msg_type (k : Kind) (args : list PyVal) :
  (length args <= length (init_params k))%nat ->
  exists m,
    construct k args ∅ = inr m /\
    kind_of m = k /\
    (attributes m).*1 = (init_params k).*1 /\
    (attributes m).*2 = args ++ drop (length args) (init_params k).*2.
Proof.
  intros Hlen. unfold construct, bind_arguments.
  rewrite bool_decide_eq_false_2 by lia.
  rewrite bool_decide_eq_true_2 by (rewrite dom_empty_L; apply empty_subseteq).
  cbn [negb].
  replace (forallb _ _) with true.
  2:{ symmetry. apply forallb_forall. intros name _.
      apply bool_decide_eq_true_2. apply lookup_empty. }
  cbn [negb].
  destruct (bind_params_positional (init_params k) args Hlen) as [H1 H2].
  eexists. split; [reflexivity|].
  split; [destruct k; reflexivity|].
  rewrite (attributes_init_body _ _ H1). split; assumption.
Qed.

Lemma positional_arguments_fill_from_msg_type_witness :
  exists m,
    construct Action [PyInt 3; PyStr "North"] ∅ = inr m /\
    kind_of m = Action /\
    attributes m
    = [("msg_type", PyInt 3); ("index", PyStr "North"); ("action", PyNone)].
Proof.
  destruct (positional_arguments_fill_from_msg_type Action
              [PyInt 3; PyStr "North"])
    as (m & Hm & Hkind & Hnames & Hvalues); [cbn; lia|].
  exists m. split; [exact Hm|]. split; [exact Hkind|].
  cbn in Hm. injection Hm as <-. reflexivity.
Defined.

(** A keyword that is not a parameter of the class is rejected with
    [TypeError], whatever else the call passes. The keywords with which
    [adapter.py] builds its state message ([agent_id], [agent_positions],
    [fragile_agents], [test_mode]) are not parameters of the catalog's
    [StateMessage]: that call cannot be a call of this class. *)
Theorem unknown_keyword_is_rejected (k : Kind) (args : list PyVal)
    (kwargs : gmap string PyVal) (name : string) :
  name ∈ dom kwargs ->
  name ∉ (init_params k).*1 ->
  exists msg, construct k args kwargs = inl (TypeError msg).
Proof.
  intros Hin Hnot. unfold construct, bind_arguments.
  destruct (bool_decide (length (init_params k) < length args)%nat);
    [eauto|].
  rewrite bool_decide_eq_false_2; [cbn [negb]; eauto|].
  intros Hsub. apply Hnot. apply Hsub in Hin.
  apply elem_of_list_to_set in Hin. exact Hin.
Qed.

Lemma unknown_keyword_is_rejected_witness :
  exists msg,
    construct State []
      {["agent_id" := PyInt 0; "reward" := PyInt 10;
        "test_mode" := PyBool false]}
    = inl (TypeError msg).
Proof.
  apply (unknown_keyword_is_rejected State [] _ "agent_id").
  - apply (bool_decide_unpack _). vm_compute. exact I.
  - apply (bool_decide_unpack _). vm_compute. exact I.
Defined.

(** Every message is rebuilt from its attributes: passing them back to its
    class, by keyword or in their order, gives the message again. *)
Theorem message_is_rebuilt_from_its_attributes (m : Message) :
  construct (kind_of m) [] (list_to_map (attributes m)) = inr m /\
  construct (kind_of m) (attributes m).*2 ∅ = inr m.
Proof. destruct m; split; reflexivity. Qed.

(** The tags of the eight classes are pairwise distinct: a message built
    with the default [msg_type] names its class. *)
Theorem default_tags_identify_the_class (k1 k2 : Kind) (m1 m2 : Message) :
  construct k1 [] ∅ = inr m1 ->
  construct k2 [] ∅ = inr m2 ->
  getattr m1 "msg_type" = getattr m2 "msg_type" ->
  k1 = k2 /\ m1 = m2.
Proof.
  intros H1 H2 Htag.
  assert (Htags : forall k m, construct k [] ∅ = inr m ->
            getattr m "msg_type" = Some (PyStr (tag k))).
  { intros k m H.
    destruct (MessagesFacts.construct_without_arguments k) as (m' & Hm' & Ht).
    congruence. }
  rewrite (Htags _ _ H1), (Htags _ _ H2) in Htag.
  assert (k1 = k2) as ->.
  { destruct k1, k2; first [reflexivity | discriminate Htag]. }
  split; [reflexivity | congruence].
Qed.

Lemma default_tags_identify_the_class_witness :
  Save = Save /\
  SaveMessage (PyStr SAVE) PyNone PyNone = SaveMessage (PyStr SAVE) PyNone PyNone.
Proof.
  apply (default_tags_identify_the_class Save Save
           (SaveMessage (PyStr SAVE) PyNone PyNone)
           (SaveMessage (PyStr SAVE) PyNone PyNone)); reflexivity.
Defined.

End MessageCalls.

(** ** What a state message holds *)

Module StateContents.
Import Adapter Adapter.messages Adapter.BerkeleyAdapterAgent.
Import AgentFacts.

Lemma elem_of_true_cells (grid : list (list bool)) (p : Z * Z) :
  p ∈ true_cells grid <->
  exists (x y : nat) (row : list bool),
    grid !! x = Some row /\ row !! y = Some true /\
    p = (Z.of_nat y, Z.of_nat x).
Proof.
  unfold true_cells. rewrite list_elem_of_join. split.
  - intros (l & Hp & Hl).
    apply elem_of_lookup_imap in Hl as (x & row & -> & Hrow).
    apply list_elem_of_omap in Hp as (c & Hc & Hsome).
    apply elem_of_lookup_imap in Hc as (y & b & -> & Hb).
    destruct b; [|discriminate]. cbn in Hsome. injection Hsome as <-.
    eauto 10.
  - intros (x & y & row & Hrow & Hy & ->).
    eexists. split; [|apply elem_of_lookup_imap; eauto].
    apply list_elem_of_omap. eexists. split.
    + apply elem_of_lookup_imap. eauto.
    + reflexivity.
Qed.

(** The value reported for a scared timer. *)
Definition fragility (scaredTimer : Z) : float :=
  if 0 <? scaredTimer then 1%float else 0%float.

Lemma fragile_fold (timers : list Z) (n : nat) (acc : gmap Z float) (k : Z) :
  fold_left (fun (fragile_agents : gmap Z float) '(id_, scaredTimer) =>
               <[id_ := if 0 <? scaredTimer then 1%float else 0%float]>
                 fragile_agents)
    (imap (fun i t => (Z.of_nat (n + i), t)) timers) acc !! k
  = if bool_decide (Z.of_nat n <= k < Z.of_nat (n + length timers))
    then fragility <$> timers !! (Z.to_nat k - n)%nat
    else acc !! k.
Proof.
  revert n acc. induction timers as [|t timers IH]; intros n acc.
  - cbn [imap fold_left length]. rewrite bool_decide_eq_false_2 by lia.
    reflexivity.
  - rewrite imap_cons. cbn [fold_left].
    rewrite (imap_ext _ (fun i t => (Z.of_nat (S n + i), t)))
      by (intros i x _; cbn; do 2 f_equal; lia).
    rewrite IH. cbn [length].
    destruct (decide (k = Z.of_nat n)) as [->|Hk].
    + rewrite bool_decide_eq_false_2 by lia.
      rewrite bool_decide_eq_true_2 by lia.
      replace (n + 0)%nat with n by lia. rewrite lookup_insert_eq.
      replace (Z.to_nat (Z.of_nat n) - n)%nat with 0%nat by lia. reflexivity.
    + destruct (bool_decide_reflect (Z.of_nat (S n) <= k < Z.of_nat (S n + length timers))).
      * rewrite bool_decide_eq_true_2 by lia.
        replace (Z.to_nat k - n)%nat with (S (Z.to_nat k - S n)) by lia.
        reflexivity.
      * rewrite bool_decide_eq_false_2 by lia.
        apply lookup_insert_ne. lia.
Qed.

Lemma fragile_of_lookup (timers : list Z) (k : Z) :
  fragile_of timers !! k
  = if bool_decide (0 <= k) then fragility <$> timers !! Z.to_nat k else None.
Proof.
  unfold fragile_of.
  rewrite (fragile_fold timers 0 ∅ k). cbn [Nat.add].
  destruct (bool_decide_reflect (0 <= k)) as [Hk|Hk].
  - destruct (bool_decide_reflect (Z.of_nat 0 <= k < Z.of_nat (length timers)))
      as [Hin|Hout].
    + rewrite Nat.sub_0_r. reflexivity.
    + rewrite lookup_empty. symmetry.
      rewrite lookup_ge_None_2 by lia. reflexivity.
  - rewrite bool_decide_eq_false_2 by lia. apply lookup_empty.
Qed.

Lemma jittered_keys {R} (w : World R) k id_ ghosts positions (key : Z) :
  is_Some (jittered w k id_ ghosts positions !! key) <->
  is_Some (positions !! key) \/
  id_ + 1 <= key <= id_ + Z.of_nat (length ghosts).
Proof.
  revert k id_ positions. induction ghosts as [|pos g IH]; intros k id_ positions.
  - cbn [jittered length]. split; [auto|]. intros [H|H]; [exact H|lia].
  - cbn [jittered length]. rewrite IH.
    rewrite lookup_insert_is_Some. split.
    + intros [[H|[_ H]]|H]; [right; lia | left; exact H | right; lia].
    + intros [H|H].
      * destruct (decide (id_ + 1 = key)); [left; left; assumption|].
        left. right. split; assumption.
      * destruct (decide (id_ + 1 = key)); [left; left; assumption|].
        right. lia.
Qed.

Section Contents.
Context {R : Type} (ext : Externals R).

Lemma state_message_sent (a : Agent) (w : World R) gs p pa :
  0 <= noise w ->
  game_state a = Some gs ->
  previous_score a = Some p ->
  previous_action a = Some pa ->
  sent (send_state ext (a, w)).2.2
  = sent w ++ [StateMessage (state_fields a w gs p pa)].
Proof.
  intros Hn Hgs Hp Hpa. rewrite send_state_unfold by exact Hn.
  rewrite Hgs, Hp, Hpa. reflexivity.
Qed.

(** The food and wall positions of a state message are the cells of the
    simulator's grids that are set, each cell [grid[x][y]] listed as
    [(y, x)], and nothing else. *)
Theorem food_and_walls_are_the_set_cells (a : Agent) (w : World R)
    (gs : GameState) (p : Z) (pa : Directions) :
  0 <= noise w ->
  game_state a = Some gs ->
  previous_score a = Some p ->
  previous_action a = Some pa ->
  exists f,
    sent (send_state ext (a, w)).2.2 = sent w ++ [StateMessage f] /\
    (forall cell : Z * Z,
       cell ∈ food_positions f <->
       exists (x y : nat) (row : list bool),
         getFood gs !! x = Some row /\ row !! y = Some true /\
         cell = (Z.of_nat y, Z.of_nat x)) /\
    (forall cell : Z * Z,
       cell ∈ wall_positions f <->
       exists (x y : nat) (row : list bool),
         getWalls gs !! x = Some row /\ row !! y = Some true /\
         cell = (Z.of_nat y, Z.of_nat x)).
Proof.
  intros Hn Hgs Hp Hpa. exists (state_fields a w gs p pa).
  split; [apply state_message_sent; assumption|].
  split; intros cell; apply elem_of_true_cells.
Qed.

(** The fragile agents of a state message: agent [i] of the simulator is
    reported with 1.0 when its scared timer is positive and with 0.0
    otherwise, and no other identifier is reported. *)
Theorem fragile_agents_follow_scared_timers (a : Agent) (w : World R)
    (gs : GameState) (p : Z) (pa : Directions) :
  0 <= noise w ->
  game_state a = Some gs ->
  previous_score a = Some p ->
  previous_action a = Some pa ->
  exists f,
    sent (send_state ext (a, w)).2.2 = sent w ++ [StateMessage f] /\
    (forall (i : nat) (timer : Z),
       scaredTimers gs !! i = Some timer ->
       fragile_agents f !! Z.of_nat i
       = Some (if 0 <? timer then 1%float else 0%float)) /\
    (forall k : Z,
       is_Some (fragile_agents f !! k) <->
       0 <= k < Z.of_nat (length (scaredTimers gs))).
Proof.
  intros Hn Hgs Hp Hpa. exists (state_fields a w gs p pa).
  split; [apply state_message_sent; assumption|].
  cbn [state_fields fragile_agents]. split.
  - intros i timer Hi. rewrite fragile_of_lookup.
    rewrite bool_decide_eq_true_2 by lia. rewrite Nat2Z.id, Hi. reflexivity.
  - intros k. rewrite fragile_of_lookup.
    destruct (bool_decide_reflect (0 <= k)) as [Hk|Hk].
    + rewrite fmap_is_Some, lookup_lt_is_Some. lia.
    + split; [intros [? H]; discriminate H | lia].
Qed.

(** The agents of a state message: Pac-Man under the class attribute
    [pacman_index] and the simulator's ghosts under 1, 2, ... in their
    order, and no one else; the message carries the agent's own index, and
    building it takes two draws from the random generator per ghost. *)
Theorem reported_agents_are_pacman_and_the_ghosts (a : Agent) (w : World R)
    (gs : GameState) (p : Z) (pa : Directions) :
  0 <= noise w ->
  game_state a = Some gs ->
  previous_score a = Some p ->
  previous_action a = Some pa ->
  exists f,
    sent (send_state ext (a, w)).2.2 = sent w ++ [StateMessage f] /\
    messages.agent_id f = index a /\
    random_draws (send_state ext (a, w)).2.2
    = (2 * length (getGhostPositions gs) + random_draws w)%nat /\
    forall k : Z,
      is_Some (agent_positions f !! k) <->
      k = pacman_index w \/
      1 <= k <= Z.of_nat (length (getGhostPositions gs)).
Proof.
  intros Hn Hgs Hp Hpa. exists (state_fields a w gs p pa).
  split; [apply state_message_sent; assumption|].
  split; [reflexivity|].
  split; [rewrite send_state_unfold by exact Hn; rewrite Hgs, Hp, Hpa;
          reflexivity|].
  intros k. cbn [state_fields agent_positions].
  rewrite jittered_keys, lookup_insert_is_Some, lookup_empty.
  split.
  - intros [[H|[_ [? H]]]|H]; [left; congruence | discriminate H | right; lia].
  - intros [H|H]; [left; left; congruence | right; lia].
Qed.

End Contents.

Lemma food_and_walls_are_the_set_cells_witness :
  0 <= noise Samples.world /\
  exists f,
    sent (send_state Samples.ext
            (Samples.playing "random" 0, Samples.world)).2.2
    = sent Samples.world ++ [StateMessage f] /\
    ((1, 1) ∈ food_positions f <->
     exists (x y : nat) (row : list bool),
       getFood (Samples.board 0) !! x = Some row /\ row !! y = Some true /\
       (1, 1) = (Z.of_nat y, Z.of_nat x)).
Proof.
  split; [vm_compute; discriminate|].
  destruct (food_and_walls_are_the_set_cells Samples.ext
              (Samples.playing "random" 0) Samples.world (Samples.board 0)
              0 NORTH)
    as (f & Hsent & Hfood & _);
    [vm_compute; discriminate | reflexivity | reflexivity | reflexivity |].
  exists f. split; [exact Hsent | exact (Hfood (1, 1))].
Defined.

Lemma fragile_agents_follow_scared_timers_witness :
  0 <= noise Samples.world /\
  exists f,
    sent (send_state Samples.ext
            (Samples.playing "random" 0, Samples.world)).2.2
    = sent Samples.world ++ [StateMessage f] /\
    fragile_agents f !! 1 = Some 1%float /\
    fragile_agents f !! 2 = Some 0%float.
Proof.
  split; [vm_compute; discriminate|].
  destruct (fragile_agents_follow_scared_timers Samples.ext
              (Samples.playing "random" 0) Samples.world (Samples.board 0)
              0 NORTH)
    as (f & Hsent & Hfragile & _);
    [vm_compute; discriminate | reflexivity | reflexivity | reflexivity |].
  exists f. split; [exact Hsent|].
  split; [exact (Hfragile 1%nat 3 eq_refl) | exact (Hfragile 2%nat 0 eq_refl)].
Defined.

Lemma reported_agents_are_pacman_and_the_ghosts_witness :
  0 <= noise Samples.world /\
  exists f,
    sent (send_state Samples.ext
            (Samples.playing "random" 0, Samples.world)).2.2
    = sent Samples.world ++ [StateMessage f] /\
    (is_Some (agent_positions f !! 3) <->
     3 = pacman_index Samples.world \/
     1 <= 3 <= Z.of_nat (length (getGhostPositions (Samples.board 0)))).
Proof.
  split; [vm_compute; discriminate|].
  destruct (reported_agents_are_pacman_and_the_ghosts Samples.ext
              (Samples.playing "random" 0) Samples.world (Samples.board 0)
              0 NORTH)
    as (f & Hsent & _ & _ & Hkeys);
    [vm_compute; discriminate | reflexivity | reflexivity | reflexivity |].
  exists f. split; [exact Hsent | exact (Hkeys 3)].
Defined.

End StateContents.

(** ** The protocol of a game *)

Module GameProtocol.
Import Adapter Adapter.messages Adapter.BerkeleyAdapterAgent.
Import AgentFacts.

(** The reward a message reports, and the rewards of a log added up. *)
Definition reward_of (m : Message) : Z :=
  match m with
  | StateMessage f => reward f
  | _ => 0
  end.

Definition total_reward (log : list Message) : Z :=
  foldr (fun m total => reward_of m + total) 0 log.

Definition is_state (m : Message) : Prop := exists f, m = StateMessage f.

(** A responder that acknowledges whatever it receives. *)
Definition acknowledging : Externals unit :=
  {| respond := fun r _ => (AckReply, r);
     get_berkeley_layout := get_berkeley_layout Samples.ext;
     run_berkeley_games := run_berkeley_games Samples.ext;
     ghost_behavior_count := ghost_behavior_count Samples.ext;
     read_policies := read_policies Samples.ext;
     sys_maxint := sys_maxint Samples.ext;
     sys_maxint_32 := sys_maxint_32 Samples.ext |}.

Section Protocol.
Context {R : Type} (ext : Externals R).

Lemma total_reward_app (l1 l2 : list Message) :
  total_reward (l1 ++ l2) = total_reward l1 + total_reward l2.
Proof.
  induction l1 as [|m l1 IH]; [reflexivity|].
  cbn [app total_reward foldr]. fold (total_reward (l1 ++ l2)).
  fold (total_reward l1). lia.
Qed.

Lemma start_game_without_layout (a : Agent) (w : World R) :
  layout a = None ->
  start_game ext (a, w)
  = (inl (AttributeError "width"),
     (set_previous_action (Some NORTH) (set_previous_score (Some 0) a), w)).
Proof.
  intros Hl. unfold start_game, _reset_game_data, _request_game_start.
  repeat (rewrite bind_unfold; cbn [assign modify self fst snd mret Py_ret]).
  change (layout (set_previous_action (Some NORTH)
                    (set_previous_score (Some 0) a))) with (layout a).
  rewrite Hl. reflexivity.
Qed.

(** Whatever its outcome, a request for an action in the middle of a game
    sends one state message, whose reward is the score gained since the
    last one. *)
Lemma getAction_reward (a : Agent) (w : World R) (gs : GameState) p pa :
  0 <= noise w ->
  previous_score a = Some p ->
  previous_action a = Some pa ->
  let out := getAction ext gs (a, w) in
  exists f,
    sent out.2.2 = sent w ++ [StateMessage f] /\
    reward f = getScore gs - p /\
    executed_action f = pa /\
    previous_score out.2.1 = Some (getScore gs) /\
    is_Some (previous_action out.2.1) /\
    noise out.2.2 = noise w.
Proof.
  intros Hn Hp Hpa. cbv zeta. rewrite getAction_unfold by exact Hn.
  rewrite Hp, Hpa. cbv zeta.
  exists (state_fields (set_game_state (Some gs) a) w gs p pa).
  destruct ((respond ext (responder w) _).1); cbn [fst snd];
    repeat split; cbn; eauto.
Qed.

Lemma play_reward (game : Game) (a : Agent) (w : World R) p :
  0 <= noise w ->
  previous_score a = Some p ->
  is_Some (previous_action a) ->
  let out := play ext game (a, w) in
  exists states q,
    sent out.2.2 = sent w ++ states /\
    Forall is_state states /\
    total_reward states = q - p /\
    previous_score out.2.1 = Some q /\
    is_Some (previous_action out.2.1) /\
    noise out.2.2 = noise w.
Proof.
  revert a w p. induction game as [gs next IH|gs]; intros a w p Hn Hp [pa Hpa].
  - cbn [play]. cbv zeta. rewrite bind_unfold.
    destruct (getAction_reward a w gs p pa Hn Hp Hpa)
      as (f & Hsent & Hreward & _ & Hprev & Hact & Hnoise).
    destruct (getAction ext gs (a, w)) as [[e|action] [a1 w1]]; cbn [fst snd] in *.
    + exists [StateMessage f], (getScore gs).
      repeat split; try assumption.
      * constructor; [eexists; reflexivity | constructor].
      * cbn. lia.
    + destruct (IH action a1 w1 (getScore gs)) as
        (states & q & Hsent' & Hstates & Htotal & Hprev' & Hact' & Hnoise');
        [lia | assumption | assumption |].
      exists (StateMessage f :: states), q.
      split; [rewrite Hsent', Hsent, <- app_assoc; reflexivity|].
      split; [constructor; [eexists; reflexivity | exact Hstates]|].
      split; [cbn [total_reward foldr reward_of];
              fold (total_reward states); lia|].
      repeat split; try assumption. congruence.
  - cbn [play mret Py_ret fst snd]. exists [], p.
    repeat split; try assumption.
    + symmetry. apply app_nil_r.
    + constructor.
    + cbn. lia.
    + eauto.
Qed.

(** [start_game] resets the data of the game whatever the agent held from
    an earlier one: the previous score is 0 and the previous action NORTH,
    one request to start the game is sent with the size of the layout, and
    the first state message of the game reports the score of its state as
    reward and NORTH as executed action. *)
Theorem first_state_of_a_game_starts_from_zero (a : Agent) (w : World R)
    (l : Layout) (gs : GameState) :
  0 <= noise w ->
  layout a = Some l ->
  let started := (start_game ext (a, w)).2 in
  let out := getAction ext gs started in
  previous_score started.1 = Some 0 /\
  previous_action started.1 = Some NORTH /\
  exists f,
    sent out.2.2
    = sent w ++ [RequestGameStartMessage (agent_id a) (width l) (height l);
                 StateMessage f] /\
    reward f = getScore gs /\
    executed_action f = NORTH.
Proof.
  intros Hn Hl. cbv zeta. rewrite (start_game_returns ext a w l Hl).
  cbn [snd fst]. split; [reflexivity|]. split; [reflexivity|].
  destruct (getAction_reward
              (set_previous_action (Some NORTH) (set_previous_score (Some 0) a))
              (delivered ext
                 (RequestGameStartMessage (agent_id a) (width l) (height l)) 0 w)
              gs 0 NORTH Hn eq_refl eq_refl)
    as (f & Hsent & Hreward & Hexec & _).
  exists f. split; [|split; [lia | exact Hexec]].
  rewrite Hsent. cbn [delivered sent]. rewrite <- app_assoc. reflexivity.
Qed.

(** The action a request returned to the simulator is the executed
    action the next state message reports. *)
Theorem returned_action_is_reported_as_executed (a a1 : Agent) (w w1 : World R)
    (gs1 gs2 : GameState) (action : Directions) :
  0 <= noise w ->
  getAction ext gs1 (a, w) = (inr action, (a1, w1)) ->
  previous_action a1 = Some action /\
  exists f,
    sent (getAction ext gs2 (a1, w1)).2.2 = sent w1 ++ [StateMessage f] /\
    executed_action f = action.
Proof.
  intros Hn H1.
  assert (Hn1 : 0 <= noise w1 /\ previous_action a1 = Some action /\
                is_Some (previous_score a1)).
  { rewrite getAction_unfold in H1 by exact Hn.
    destruct (previous_score a) as [p|]; [|discriminate].
    destruct (previous_action a) as [pa|]; [|discriminate].
    cbv zeta in H1.
    destruct (respond ext (responder w) _).1 as [act| |]; try discriminate.
    injection H1 as <- <- <-. repeat split; cbn; eauto. }
  destruct Hn1 as (Hn1 & Hact & [p1 Hp1]).
  split; [exact Hact|].
  destruct (getAction_reward a1 w1 gs2 p1 action Hn1 Hp1 Hact)
    as (f & Hsent & _ & Hexec & _).
  exists f. split; assumption.
Qed.

(** Over a game (the request to start it, the simulator's requests for
    actions, and the last request the experiment makes on the final state)
    the agent sends the request to start followed by state messages only,
    and the rewards of these add up to the score of the final state. *)
Theorem game_rewards_add_up_to_final_score (game : Game) (a : Agent)
    (w : World R) (l : Layout) (state : GameState) (s1 : Agent * World R) :
  0 <= noise w ->
  layout a = Some l ->
  play ext game (start_game ext (a, w)).2 = (inr state, s1) ->
  exists states,
    sent (getAction ext state s1).2.2
    = sent w ++ RequestGameStartMessage (agent_id a) (width l) (height l)
              :: states /\
    Forall is_state states /\
    total_reward states = getScore state.
Proof.
  intros Hn Hl Hplay. rewrite (start_game_returns ext a w l Hl) in Hplay.
  cbn [snd] in Hplay.
  destruct (play_reward game
              (set_previous_action (Some NORTH) (set_previous_score (Some 0) a))
              (delivered ext
                 (RequestGameStartMessage (agent_id a) (width l) (height l)) 0 w)
              0 Hn eq_refl ltac:(cbn; eauto))
    as (states & q & Hsent & Hstates & Htotal & Hprev & [pa Hpa] & Hnoise).
  rewrite Hplay in Hsent, Hprev, Hpa, Hnoise. cbn [fst snd] in *.
  destruct s1 as [a1 w1]. cbn [fst snd] in *.
  destruct (getAction_reward a1 w1 state q pa) as (f & Hsent' & Hreward & _);
    [cbn [delivered noise] in Hnoise; lia | assumption | assumption |].
  exists (states ++ [StateMessage f]).
  split.
  { rewrite Hsent', Hsent. cbn [delivered sent].
    rewrite <- !app_assoc. reflexivity. }
  split.
  { apply Forall_app. split; [exact Hstates|].
    constructor; [eexists; reflexivity | constructor]. }
  rewrite total_reward_app. cbn [total_reward foldr reward_of]. lia.
Qed.

(** A reply that carries no action: [getAction] raises, but only after the
    state message went out and the score was recorded as the previous
    score; the previous action is as it was. A second request on the same
    state therefore reports reward 0: the score gained was reported
    once. *)
Theorem reply_without_action_consumes_the_reward (a : Agent) (w : World R)
    (gs : GameState) (p : Z) (pa : Directions) :
  0 <= noise w ->
  previous_score a = Some p ->
  previous_action a = Some pa ->
  (forall r f action, (respond ext r (StateMessage f)).1 <> ActionReply action) ->
  let out := getAction ext gs (a, w) in
  let again := getAction ext gs out.2 in
  out.1 = inl (AttributeError "action") /\
  previous_score out.2.1 = Some (getScore gs) /\
  previous_action out.2.1 = Some pa /\
  exists f f',
    sent out.2.2 = sent w ++ [StateMessage f] /\
    reward f = getScore gs - p /\
    again.1 = inl (AttributeError "action") /\
    sent again.2.2 = sent w ++ [StateMessage f; StateMessage f'] /\
    reward f' = 0.
Proof.
  intros Hn Hp Hpa Hreply. cbv zeta.
  assert (Hone : forall a w p, 0 <= noise w -> previous_score a = Some p ->
            previous_action a = Some pa ->
            getAction ext gs (a, w)
            = (inl (AttributeError "action"),
               (set_previous_score (Some (getScore gs))
                  (set_game_state (Some gs) a),
                delivered ext
                  (StateMessage
                     (state_fields (set_game_state (Some gs) a) w gs p pa))
                  (2 * length (getGhostPositions gs)) w))).
  { intros a0 w0 p0 Hn0 Hp0 Hpa0. rewrite getAction_unfold by exact Hn0.
    rewrite Hp0, Hpa0. cbv zeta.
    destruct (respond ext (responder w0) _).1 as [action| |] eqn:Hr;
      [|reflexivity|reflexivity].
    exfalso. exact (Hreply _ _ _ Hr). }
  rewrite (Hone a w p Hn Hp Hpa). cbn [fst snd].
  rewrite (Hone _ _ (getScore gs)) by (cbn; first [exact Hn | reflexivity | exact Hpa]).
  cbn [fst snd].
  split; [reflexivity|]. split; [reflexivity|]. split; [exact Hpa|].
  eexists _, _. split; [reflexivity|]. split; [reflexivity|].
  split; [reflexivity|]. split.
  - cbn [delivered sent]. rewrite <- app_assoc. reflexivity.
  - cbn [state_fields reward]. lia.
Qed.

(** Outside a game: for an agent that has not started a game, a request
    for an action raises before anything is sent, and [start_experiment]
    does not change that; no state message goes out before
    [start_game]. *)
Theorem no_state_is_sent_before_a_game (a : Agent) (w : World R)
    (gs : GameState) :
  0 <= noise w ->
  previous_score a = None ->
  let alone := getAction ext gs (a, w) in
  let out := (start_experiment ext ≫= fun _ => getAction ext gs) (a, w) in
  alone.1 = inl (AttributeError "previous_score") /\
  sent alone.2.2 = sent w /\
  (exists e, out.1 = inl e) /\
  previous_score out.2.1 = None /\
  exists l, sent out.2.2 = sent w ++ l /\ Forall (fun m => ~ is_state m) l.
Proof.
  intros Hn Hp. cbv zeta.
  assert (Halone : forall a w, 0 <= noise w -> previous_score a = None ->
            getAction ext gs (a, w)
            = (inl (AttributeError "previous_score"),
               (set_game_state (Some gs) a,
                drawn (2 * length (getGhostPositions gs)) w))).
  { intros a0 w0 Hn0 Hp0. rewrite getAction_unfold by exact Hn0.
    rewrite Hp0. reflexivity. }
  rewrite (Halone a w Hn Hp). cbn [fst snd].
  split; [reflexivity|]. split; [reflexivity|].
  rewrite bind_unfold, AdapterClaims.start_experiment_unfold.
  destruct (truthy (policy a)).
  { cbn [fst snd]. split; [eauto|]. split; [exact Hp|].
    exists []. split; [symmetry; apply app_nil_r | constructor]. }
  destruct (AdapterClaims.class_of_type (agent_type a)) as [c|].
  2:{ cbn [fst snd]. split; [eauto|]. split; [exact Hp|].
      exists []. split; [symmetry; apply app_nil_r | constructor]. }
  rewrite Halone by (cbn; assumption). cbn [fst snd].
  split; [eauto|]. split; [exact Hp|].
  eexists. split.
  - cbn [drawn delivered sent]. rewrite <- app_assoc. reflexivity.
  - constructor; [intros [f Hf]; discriminate Hf|].
    constructor; [intros [f Hf]; discriminate Hf|]. constructor.
Qed.

(** With the class attribute [noise] negative, [randrange] has an empty
    range: with at least one ghost on the board a request for an action
    raises [ValueError] at the first ghost, before the score is recorded
    and before anything is sent. *)
Theorem negative_noise_stops_state_reports (a : Agent) (w : World R)
    (gs : GameState) :
  noise w < 0 ->
  getGhostPositions gs <> [] ->
  getAction ext gs (a, w)
  = (inl (ValueError "empty range for randrange()"),
     (set_game_state (Some gs) a, w)).
Proof.
  intros Hn Hghosts. unfold getAction.
  rewrite bind_unfold. cbn [assign modify fst snd].
  rewrite bind_unfold. unfold receive_action.
  rewrite bind_unfold. unfold send_state.
  rewrite bind_unfold. cbn [self fst snd].
  rewrite bind_unfold. unfold on_world at 1, zoom at 1, get at 1. cbn [fst snd].
  rewrite bind_unfold. cbn [game_state set_game_state attribute mret Py_ret].
  rewrite bind_unfold.
  destruct (getGhostPositions gs) as [|pos ghosts]; [contradiction|].
  cbn [ghost_positions_loop]. rewrite bind_unfold.
  unfold _noise_error. rewrite bind_unfold.
  unfold on_world, zoom, get, randrange. cbn [fst snd].
  rewrite bool_decide_eq_true_2 by lia. destruct w; reflexivity.
Qed.

End Protocol.

Lemma first_state_of_a_game_starts_from_zero_witness :
  0 <= noise Samples.world /\
  exists f,
    sent (getAction Samples.ext (Samples.board 7)
            (start_game Samples.ext
               (set_previous_score (Some 50) (Samples.playing "random" 50),
                Samples.world)).2).2.2
    = sent Samples.world ++ [RequestGameStartMessage 0 20 11; StateMessage f] /\
    reward f = 7 /\
    executed_action f = NORTH.
Proof.
  split; [vm_compute; discriminate|].
  destruct (first_state_of_a_game_starts_from_zero Samples.ext
              (set_previous_score (Some 50) (Samples.playing "random" 50))
              Samples.world {| width := 20; height := 11 |} (Samples.board 7))
    as (_ & _ & f & Hsent & Hreward & Hexec);
    [vm_compute; discriminate | reflexivity |].
  exists f. split; [exact Hsent|]. split; [exact Hreward | exact Hexec].
Defined.

Lemma returned_action_is_reported_as_executed_witness :
  let s1 := (getAction Samples.ext (Samples.board 10)
               (Samples.playing "random" 0, Samples.world)).2 in
  previous_action s1.1 = Some STOP /\
  exists f,
    sent (getAction Samples.ext (Samples.board 25) (s1.1, s1.2)).2.2
    = sent s1.2 ++ [StateMessage f] /\
    executed_action f = STOP.
Proof.
  intros s1.
  apply (returned_action_is_reported_as_executed Samples.ext
           (Samples.playing "random" 0) s1.1 Samples.world s1.2
           (Samples.board 10) (Samples.board 25) STOP).
  - vm_compute; discriminate.
  - vm_compute; reflexivity.
Defined.

Lemma game_rewards_add_up_to_final_score_witness :
  exists states,
    sent (getAction Samples.ext (Samples.board 100)
            (play Samples.ext
               (run_berkeley_games Samples.ext {| width := 20; height := 11 |} 0)
               (start_game Samples.ext
                  (Samples.playing "random" 0, Samples.world)).2).2).2.2
    = sent Samples.world ++ RequestGameStartMessage 0 20 11 :: states /\
    Forall is_state states /\
    total_reward states = 100.
Proof.
  apply (game_rewards_add_up_to_final_score Samples.ext
           (run_berkeley_games Samples.ext {| width := 20; height := 11 |} 0)
           (Samples.playing "random" 0) Samples.world
           {| width := 20; height := 11 |} (Samples.board 100)).
  - vm_compute; discriminate.
  - reflexivity.
  - vm_compute; reflexivity.
Defined.

Lemma reply_without_action_consumes_the_reward_witness :
  (getAction acknowledging (Samples.board 10)
     (Samples.playing "random" 0, Samples.world)).1
  = inl (AttributeError "action") /\
  exists f f',
    sent (getAction acknowledging (Samples.board 10)
            (getAction acknowledging (Samples.board 10)
               (Samples.playing "random" 0, Samples.world)).2).2.2
    = sent Samples.world ++ [StateMessage f; StateMessage f'] /\
    reward f = 10 /\ reward f' = 0.
Proof.
  destruct (reply_without_action_consumes_the_reward acknowledging
              (Samples.playing "random" 0) Samples.world (Samples.board 10)
              0 NORTH)
    as (Hout & _ & _ & f & f' & _ & Hreward & _ & Hsent & Hagain).
  - vm_compute; discriminate.
  - reflexivity.
  - reflexivity.
  - intros r f action H. discriminate H.
  - split; [exact Hout|]. exists f, f'.
    split; [exact Hsent|]. split; [exact Hreward | exact Hagain].
Defined.

Lemma no_state_is_sent_before_a_game_witness :
  (getAction Samples.ext (Samples.board 10)
     (BerkeleyAdapterAgent.__init__ "random", Samples.world)).1
  = inl (AttributeError "previous_score") /\
  exists e,
    ((start_experiment Samples.ext ≫= fun _ =>
        getAction Samples.ext (Samples.board 10))
       (BerkeleyAdapterAgent.__init__ "random", Samples.world)).1 = inl e.
Proof.
  destruct (no_state_is_sent_before_a_game Samples.ext
              (BerkeleyAdapterAgent.__init__ "random") Samples.world
              (Samples.board 10))
    as (Halone & _ & Hout & _).
  - vm_compute; discriminate.
  - reflexivity.
  - split; [exact Halone | exact Hout].
Defined.

Lemma negative_noise_stops_state_reports_witness :
  getAction Samples.ext (Samples.board 10)
    (Samples.playing "random" 0, Samples.noisy (-1))
  = (inl (ValueError "empty range for randrange()"),
     (Samples.playing "random" 10, Samples.noisy (-1))).
Proof.
  apply (negative_noise_stops_state_reports Samples.ext
           (Samples.playing "random" 0) (Samples.noisy (-1))
           (Samples.board 10)).
  - reflexivity.
  - discriminate.
Defined.
End GameProtocol.

(** ** What the methods never change *)

Module Invariants.
Import Adapter Adapter.messages Adapter.BerkeleyAdapterAgent.
Import Adapter.BerkeleyAdapter.
Import AgentFacts ExperimentFacts.

(** [kept rel m]: whatever its outcome, [m] leaves an object related by
    [rel] to the one it found. *)
Section Kept.
Context {R X : Type} (rel : X -> X -> Prop) `{!PreOrder rel}.

Definition kept {A} (m : Py (X * World R) A) : Prop :=
  forall s, rel s.1 (m s).2.1.

Lemma kept_ret {A} (x : A) : kept (mret x).
Proof. intros s. reflexivity. Qed.

Lemma kept_raise {A} (e : PyExn) : kept (raise e : Py (X * World R) A).
Proof. intros s. reflexivity. Qed.

Lemma kept_self : kept self.
Proof. intros s. reflexivity. Qed.

Lemma kept_attribute {A} (name : string) (v : option A) :
  kept (attribute name v).
Proof. intros s. destruct v; reflexivity. Qed.

Lemma kept_on_world {A} (m : Py (World R) A) : kept (on_world m).
Proof.
  intros [x w]. unfold on_world, zoom. cbn [fst snd].
  destruct (m w) as [r w']. reflexivity.
Qed.

Lemma kept_assign (f : X -> X) : (forall x, rel x (f x)) -> kept (assign f).
Proof. intros Hf s. apply Hf. Qed.

Lemma kept_bind {A B} (m : Py (X * World R) A) (f : A -> Py (X * World R) B) :
  kept m -> (forall x, kept (f x)) -> kept (m ≫= f).
Proof.
  intros Hm Hf s. rewrite bind_unfold. specialize (Hm s).
  destruct (m s) as [[e|x] s1]; [exact Hm|].
  etransitivity; [exact Hm | apply Hf].
Qed.

Lemma kept_for_ {A} (l : list A) (body : A -> Py (X * World R) unit) :
  (forall x, kept (body x)) -> kept (for_ l body).
Proof.
  intros Hb. induction l as [|x l IH]; simpl.
  - apply kept_ret.
  - apply kept_bind; [apply Hb | intros _; exact IH].
Qed.

End Kept.

Ltac kept_by lem := apply lem; [exact _ | ..].

Ltac kept_step :=
  first
    [ kept_by @kept_bind; [|intros ?]
    | kept_by @kept_for_; intros ?
    | kept_by @kept_ret | kept_by @kept_raise | kept_by @kept_self
    | kept_by @kept_attribute | kept_by @kept_on_world
    | match goal with
      | |- kept _ (if ?b then _ else _) => destruct b
      | |- kept _ (match ?x with _ => _ end) => destruct x
      | |- kept _ (fun _ => _) => progress cbv beta
      end ].

(** What the agent is told at its construction and by the experiment, and
    what it has recorded: no method of the agent changes any of it. *)
Definition untouched (a a' : Agent) : Prop :=
  index a' = index a /\
  agent_type a' = agent_type a /\
  is_test_mode a' = is_test_mode a /\
  BerkeleyAdapterAgent.layout a' = BerkeleyAdapterAgent.layout a /\
  policy a' = policy a /\
  results_scores a' = results_scores a /\
  results_behavior_count a' = results_behavior_count a.

#[local] Instance untouched_preorder : PreOrder untouched.
Proof.
  split.
  - intros a. repeat split.
  - intros a b c (H1 & H2 & H3 & H4 & H5 & H6 & H7)
                 (G1 & G2 & G3 & G4 & G5 & G6 & G7).
    repeat split; congruence.
Qed.

(** The configuration of an experiment, the identity of its Pac-Man agent,
    and the test mode once it is on. *)
Definition configured (o o' : Experiment) : Prop :=
  layout o' = layout o /\
  num_ghosts o' = num_ghosts o /\
  ghost_class o' = ghost_class o /\
  ghosts o' = ghosts o /\
  policy_file o' = policy_file o /\
  learn_runs o' = learn_runs o /\
  test_runs o' = test_runs o /\
  output_file o' = output_file o /\
  graphics o' = graphics o /\
  index (pacman o') = index (pacman o) /\
  agent_type (pacman o') = agent_type (pacman o) /\
  (is_test_mode (pacman o) = true -> is_test_mode (pacman o') = true).

#[local] Instance configured_preorder : PreOrder configured.
Proof.
  split.
  - intros a. repeat split. auto.
  - intros a b c (H1 & H2 & H3 & H4 & H5 & H6 & H7 & H8 & H9 & H10 & H11 & H12)
                 (G1 & G2 & G3 & G4 & G5 & G6 & G7 & G8 & G9 & G10 & G11 & G12).
    repeat split; try congruence. auto.
Qed.

(** The identity of an agent, and its test mode once it is on. *)
Definition same_role (a a' : Agent) : Prop :=
  index a' = index a /\
  agent_type a' = agent_type a /\
  (is_test_mode a = true -> is_test_mode a' = true).

#[local] Instance same_role_preorder : PreOrder same_role.
Proof.
  split.
  - intros a. repeat split. auto.
  - intros a b c (H1 & H2 & H3) (G1 & G2 & G3).
    repeat split; try congruence. auto.
Qed.

Section Agents.
Context {R : Type} (ext : Externals R).

Lemma untouched_send_state : kept (R := R) untouched (send_state ext).
Proof.
  unfold send_state, communicate, _calculate_reward.
  kept_step. { kept_step. } rename x into a.
  kept_step. { kept_step. } rename x into w.
  kept_step. { kept_step. } rename x into gs.
  kept_by @kept_bind.
  { generalize 0.
    generalize (<[pacman_index w := reversed (getPacmanPosition gs)]>
                  (∅ : gmap Z (Z * Z))).
    induction (getGhostPositions gs) as [|pos g IH]; intros positions id_.
    - kept_step.
    - cbn [ghost_positions_loop]. unfold _noise_error.
      repeat first [apply IH | kept_step]. }
  intros positions.
  repeat first [apply kept_assign; intros ?; repeat split | kept_step].
Qed.

Lemma untouched_getAction gs : kept (R := R) untouched (getAction ext gs).
Proof.
  unfold getAction, receive_action.
  repeat first [ apply untouched_send_state
               | apply kept_assign; intros ?; repeat split | kept_step ].
Qed.

Lemma untouched_play game : kept (R := R) untouched (play ext game).
Proof.
  induction game as [state next IH|state]; simpl.
  - kept_by @kept_bind; [apply untouched_getAction|exact IH].
  - kept_step.
Qed.

Lemma untouched_start_game : kept (R := R) untouched (start_game ext).
Proof.
  unfold start_game, _reset_game_data, _request_game_start, communicate.
  repeat first [apply kept_assign; intros ?; repeat split | kept_step].
Qed.

Lemma untouched_start_experiment :
  kept (R := R) untouched (start_experiment ext).
Proof.
  unfold start_experiment, _load_policy, _register, _initialize, communicate.
  repeat first [apply kept_assign; intros ?; repeat split | kept_step].
Qed.

Lemma untouched_finish_game : kept (R := R) untouched (finish_game ext).
Proof.
  unfold finish_game, BerkeleyAdapterAgent._log_behavior_count, communicate.
  repeat kept_step.
Qed.

(** No method of the agent that the simulator or the experiment calls
    changes the agent's index, type, test mode, layout, policy or recorded
    results, whatever its outcome; [enable_test_mode] changes the test mode
    only, to on. *)
Theorem agent_methods_keep_what_the_agent_was_given (s : Agent * World R) :
  (forall gs, untouched s.1 (getAction ext gs s).2.1) /\
  (forall game, untouched s.1 (play ext game s).2.1) /\
  untouched s.1 (send_state ext s).2.1 /\
  untouched s.1 (start_game ext s).2.1 /\
  untouched s.1 (start_experiment ext s).2.1 /\
  untouched s.1 (finish_game ext s).2.1 /\
  enable_test_mode s = (inr tt, (set_is_test_mode true s.1, s.2)).
Proof.
  split; [intros gs; apply untouched_getAction|].
  split; [intros game; apply untouched_play|].
  split; [apply untouched_send_state|].
  split; [apply untouched_start_game|].
  split; [apply untouched_start_experiment|].
  split; [apply untouched_finish_game|].
  reflexivity.
Qed.

Lemma role_of_untouched {A} (m : Py (Agent * World R) A) :
  kept untouched m -> kept same_role m.
Proof.
  intros Hm s. destruct (Hm s) as (H1 & H2 & H3 & _).
  repeat split; congruence.
Qed.

Lemma configured_on_pacman {A} (m : Py (Agent * World R) A) :
  kept same_role m -> kept configured (on_pacman m).
Proof.
  intros Hm [o w]. rewrite on_pacman_unfold. cbn [fst snd].
  destruct (Hm (pacman o, w)) as (H1 & H2 & H3).
  repeat split; cbn; assumption.
Qed.

Lemma role_assign (f : Agent -> Agent) :
  (forall a, index (f a) = index a /\ agent_type (f a) = agent_type a /\
             (is_test_mode a = true -> is_test_mode (f a) = true)) ->
  kept (R := R) same_role (assign f).
Proof. intros Hf. apply kept_assign. exact Hf. Qed.

Lemma configured_set_results (r : option Results) :
  kept (R := R) configured (assign (set_results r)).
Proof. apply kept_assign. intros o. repeat split. auto. Qed.

Lemma configured_set_policies (p : option (gmap Z PyVal)) :
  kept (R := R) configured (assign (set_policies p)).
Proof. apply kept_assign. intros o. repeat split. auto. Qed.

Lemma configured_the_results : kept (R := R) configured the_results.
Proof. unfold the_results. repeat kept_step. Qed.

Lemma configured_ghost_call method ghost :
  kept (R := R) configured (ghost_call method ghost).
Proof. kept_step. Qed.

Ltac configured_step :=
  first
    [ apply configured_set_results
    | apply configured_set_policies
    | apply configured_the_results
    | apply configured_ghost_call
    | apply configured_on_pacman;
      first [ apply role_of_untouched;
              first [ apply untouched_play | apply untouched_getAction
                    | apply untouched_start_game
                    | apply untouched_start_experiment
                    | apply untouched_finish_game ]
            | repeat first [ apply role_assign; intros ?; repeat split;
                             solve [auto]
                           | kept_step ] ]
    | kept_step ].

Lemma configured_run_game : kept configured (_run_game ext).
Proof.
  unfold _run_game, BerkeleyAdapter._log_behavior_count.
  repeat configured_step.
Qed.

Lemma configured_start : kept configured (start ext).
Proof.
  unfold start, _load_policies_from_file.
  repeat configured_step.
Qed.

Lemma configured_learn_game : kept configured (learn_game ext).
Proof.
  unfold learn_game.
  repeat first [apply configured_run_game | configured_step].
Qed.

Lemma configured_test_game : kept configured (test_game ext).
Proof.
  unfold test_game.
  repeat first [apply configured_run_game | configured_step].
Qed.

Lemma configured_execute : kept configured (execute ext).
Proof.
  unfold execute, enable_test_mode, xrange.
  repeat first [ apply configured_learn_game | apply configured_test_game
               | configured_step ].
Qed.

(** [start] and [execute], whatever their outcome, never change what the
    experiment was constructed with: layout, ghosts, policy and output
    files, numbers of games, and the index and type of its Pac-Man agent;
    and once the test mode of the agent is on, they leave it on. *)
Theorem experiment_keeps_its_configuration (o : Experiment) (w : World R) :
  configured o (start ext (o, w)).2.1 /\
  configured o (execute ext (o, w)).2.1 /\
  configured o ((start ext ≫= fun _ => execute ext) (o, w)).2.1.
Proof.
  split; [apply (configured_start (o, w))|].
  split; [apply (configured_execute (o, w))|].
  apply (kept_bind configured (start ext) (fun _ => execute ext)
           configured_start (fun _ => configured_execute) (o, w)).
Qed.

End Agents.

Lemma experiment_keeps_its_configuration_witness :
  let o := FrameFacts.constructed (Samples.config "random" "ai")
             {| width := 20; height := 11 |} BehaviorLearningGhostAgent in
  let o' := ((start Samples.ext ≫= fun _ => execute Samples.ext)
               (o, Samples.world)).2.1 in
  ghosts o' = ghosts o /\ learn_runs o' = learn_runs o /\
  agent_type (pacman o') = "random".
Proof.
  intros o o'.
  destruct (experiment_keeps_its_configuration Samples.ext o Samples.world)
    as (_ & _ & (_ & _ & _ & Hghosts & _ & Hlearn & _ & _ & _ & _ & Htype & _)).
  split; [exact Hghosts|]. split; [exact Hlearn | exact Htype].
Defined.

End Invariants.

(** ** The life cycle of an experiment *)

Module Lifecycle.
Import Adapter Adapter.messages Adapter.BerkeleyAdapterAgent.
Import Adapter.BerkeleyAdapter.
Import AgentFacts FrameFacts AdapterClaims ExperimentFacts GhostCounts.
Import GameProtocol.

(** An experiment whose policy file holds a policy for Pac-Man. *)
Definition with_stored_policy : Externals unit :=
  {| respond := respond Samples.ext;
     get_berkeley_layout := get_berkeley_layout Samples.ext;
     run_berkeley_games := run_berkeley_games Samples.ext;
     ghost_behavior_count := ghost_behavior_count Samples.ext;
     read_policies := fun name =>
       if String.eqb name "saved.policies"
       then Some {[0 := PyStr "weights"]} else None;
     sys_maxint := sys_maxint Samples.ext;
     sys_maxint_32 := sys_maxint_32 Samples.ext |}.

(** The code points of a text of ASCII characters. *)
Definition code_points (s : string) : list N :=
  Ascii.N_of_ascii <$> list_ascii_of_string s.

Definition resumed : Config :=
  {| cfg_pacman_agent := "ai"; cfg_ghost_agent := "ai";
     cfg_num_ghosts := 3; cfg_noise := 0;
     cfg_policy_file := Some (Unicode (code_points "saved.policies"));
     cfg_layout_map := "classic"; cfg_learn_runs := 3; cfg_test_runs := 2;
     cfg_output_file := None; cfg_graphics := false |}.

Lemma cleared_lookup (l : list Z) (counts : gmap Z (gmap string (list Z)))
    (g : Z) :
  cleared l counts !! g = if bool_decide (g ∈ l) then Some ∅ else counts !! g.
Proof.
  revert counts. induction l as [|x l IH]; intros counts.
  - rewrite bool_decide_eq_false_2 by apply not_elem_of_nil. reflexivity.
  - cbn [cleared fold_left]. fold (cleared l (<[x := ∅]> counts)).
    rewrite IH.
    destruct (bool_decide_reflect (g ∈ l)) as [Hin|Hout].
    + rewrite bool_decide_eq_true_2 by (right; exact Hin). reflexivity.
    + destruct (decide (g = x)) as [->|Hne].
      * rewrite bool_decide_eq_true_2 by left. apply lookup_insert_eq.
      * rewrite bool_decide_eq_false_2
          by (intros H; apply elem_of_cons in H as [H|H]; contradiction).
        apply lookup_insert_ne. congruence.
Qed.

Section Runs.
Context {R : Type} (ext : Externals R).

(** [start] begins from empty results, whatever the experiment held
    before and whatever the outcome of the registration: no score in
    either sequence, an empty record of counts for each ghost when the
    ghosts learn and no record at all otherwise; the policies are those of
    the policy file when it can be read, and none otherwise. *)
Theorem start_discards_earlier_results (o : Experiment) (w : World R) :
  exists r,
    results (start ext (o, w)).2.1 = Some r /\
    learn_scores r = [] /\
    test_scores r = [] /\
    (forall g : Z,
       behavior_count r !! g
       = if bool_decide (ghost_class o = BehaviorLearningGhostAgent /\
                         g ∈ ghosts o)
         then Some ∅ else None) /\
    policies (start ext (o, w)).2.1
    = Some match policy_file o with
           | Some f => default ∅ (read_policies ext f)
           | None => ∅
           end.
Proof.
  rewrite start_unfold, on_pacman_unfold. cbn [fst snd].
  eexists. split; [reflexivity|]. split; [reflexivity|].
  split; [reflexivity|]. split; [|reflexivity].
  intros g. cbn [behavior_count].
  destruct (bool_decide_reflect (ghost_class o = BehaviorLearningGhostAgent))
    as [Hc|Hc].
  - rewrite cleared_lookup, lookup_empty.
    destruct (bool_decide_reflect (g ∈ ghosts o)).
    + rewrite bool_decide_eq_true_2 by (split; assumption). reflexivity.
    + rewrite bool_decide_eq_false_2 by (intros [_ H]; contradiction).
      reflexivity.
  - rewrite bool_decide_eq_false_2 by (intros [H _]; contradiction).
    apply lookup_empty.
Qed.

(** The stored policy of Pac-Man never goes out on the channel of the
    Pac-Man agent. Whatever its outcome, [start] adds no [PolicyMessage] to
    that channel; when the policy file holds a policy for Pac-Man that is
    not empty, [start] stores it in the agent and then raises [NameError]
    in [_load_policy], before the agent registers: the channel of the
    Pac-Man agent is as it was. (The channels of the ghost adapters, which
    [start] initialises first, are not part of this model.) *)
Theorem stored_pacman_policy_is_never_sent :
  (forall (o : Experiment) (w : World R),
     exists l,
       sent (start ext (o, w)).2.2 = sent w ++ l /\
       forall p, PolicyMessage p ∉ l) /\
  (forall (o : Experiment) (w : World R) (f : string)
          (stored : gmap Z PyVal) (v : PyVal),
     policy_file o = Some f ->
     read_policies ext f = Some stored ->
     stored !! index (pacman o) = Some v ->
     truthy v = true ->
     exists o',
       start ext (o, w) = (inl (NameError "policy"), (o', w)) /\
       policy (pacman o') = v).
Proof.
  split.
  - intros o w. rewrite start_unfold, on_pacman_unfold. cbn [fst snd].
    rewrite start_experiment_unfold.
    destruct (truthy _); [|destruct (class_of_type _) as [c|]]; cbn [fst snd].
    + exists []. split; [symmetry; apply app_nil_r|].
      intros stored. apply not_elem_of_nil.
    + eexists. split.
      * cbn [delivered sent]. rewrite <- app_assoc. reflexivity.
      * intros stored H. apply elem_of_cons in H as [H|H]; [discriminate H|].
        apply elem_of_cons in H as [H|H]; [discriminate H|].
        apply elem_of_nil in H. contradiction.
    + exists []. split; [symmetry; apply app_nil_r|].
      intros stored. apply not_elem_of_nil.
  - intros o w f stored v Hfile Hread Hstored Htruthy.
    rewrite start_unfold, on_pacman_unfold, start_experiment_unfold.
    assert (Hpolicy : policy (pacman (prepared ext o)) = v).
    { unfold prepared. cbn. unfold loaded_policies, agent_id.
      rewrite Hfile, Hread. cbn. rewrite Hstored. reflexivity. }
    rewrite Hpolicy, Htruthy. cbn [fst snd].
    eexists. split; [reflexivity|]. cbn. exact Hpolicy.
Qed.

Lemma xrange_positive (n : Z) :
  0 < n -> exists l, xrange_items n = 0 :: l.
Proof.
  intros H. unfold xrange_items.
  destruct (Z.to_nat n) as [|k] eqn:Hk; [lia|].
  cbn. eauto.
Qed.

(** [execute] on an experiment that was constructed but not started
    raises before the agent sends anything and before any game is run, and
    there are no results: when the number of learning games fits a C long,
    in the first [start_game], where the agent reads the size of a layout
    it was not yet given; when it does not, already in [xrange]. *)
Theorem execute_before_start_raises (cfg : Config) (w w1 : World R)
    (o : Experiment) :
  BerkeleyAdapter.__init__ ext cfg w = (inr o, w1) ->
  exists o',
    execute ext (o, w1)
    = (inl (if bool_decide (cfg_learn_runs cfg <= sys_maxint ext)
            then AttributeError "width" else OverflowError),
       (o', w)) /\
    results o' = None.
Proof.
  intros Hinit.
  apply init_returns in Hinit as (-> & _ & Hruns & _ & l & c & ->).
  unfold execute. rewrite bind_unfold. cbn [self fst snd]. cbv beta iota.
  rewrite bind_unfold. cbn [learn_runs constructed].
  destruct (bool_decide_reflect (cfg_learn_runs cfg <= sys_maxint ext))
    as [Hlong|Hlong].
  - rewrite xrange_fits
      by (pose proof (sys_maxint_32 ext); unfold fits_long; lia).
    rewrite bind_unfold.
    destruct (xrange_positive (cfg_learn_runs cfg)) as [rest Hrest]; [lia|].
    rewrite Hrest. cbn [for_].
    rewrite bind_unfold. unfold learn_game at 1.
    rewrite bind_unfold, on_pacman_unfold.
    rewrite start_game_without_layout by reflexivity.
    cbn [fst snd]. eexists. split; reflexivity.
  - rewrite xrange_overflows by (unfold fits_long; lia).
    eexists. split; reflexivity.
Qed.

(** The ghosts of a constructed experiment are identified by 1, ..., n
    for the n of the configuration, which lies between 1 and 4; the
    identifiers are distinct and none is the identifier of Pac-Man,
    0. *)
Theorem ghost_identifiers_are_one_to_n (cfg : Config) (w w1 : World R)
    (o : Experiment) :
  BerkeleyAdapter.__init__ ext cfg w = (inr o, w1) ->
  1 <= cfg_num_ghosts cfg <= 4 /\
  num_ghosts o = cfg_num_ghosts cfg /\
  length (ghosts o) = Z.to_nat (cfg_num_ghosts cfg) /\
  NoDup (ghosts o) /\
  (forall g : Z, g ∈ ghosts o <-> 1 <= g <= cfg_num_ghosts cfg) /\
  index (pacman o) = 0 /\
  index (pacman o) ∉ ghosts o.
Proof.
  intros Hinit.
  apply init_returns in Hinit as (-> & Hn & _ & _ & l & c & ->).
  cbn [constructed ghosts num_ghosts pacman].
  assert (Hmem : forall g : Z,
            g ∈ (fun i => i + 1) <$> xrange_items (cfg_num_ghosts cfg) <->
            1 <= g <= cfg_num_ghosts cfg).
  { intros g. unfold xrange_items. rewrite <- list_fmap_compose.
    rewrite list_elem_of_fmap. split.
    - intros (k & -> & Hk). apply elem_of_seq in Hk. cbn. lia.
    - intros Hg. exists (Z.to_nat (g - 1)). split; [cbn; lia|].
      apply elem_of_seq. lia. }
  split; [exact Hn|]. split; [reflexivity|].
  split; [unfold xrange_items; rewrite !length_fmap, length_seq;
          reflexivity|].
  split.
  { unfold xrange_items. rewrite <- list_fmap_compose.
    apply NoDup_fmap_2; [|apply NoDup_seq].
    intros x y H. cbn in H. lia. }
  split; [exact Hmem|]. split; [reflexivity|].
  cbn. rewrite Hmem. lia.
Qed.

(** The loop of [_run_game] that logs the behavior counts, over distinct
    ghosts that each have a record: it returns, leaves the scores alone,
    and for every ghost of the loop and every label of its reply appends
    the reported count to the sequence of the label (empty when the label
    is new); the records of other agents, and the labels a reply does not
    name, are as they were. *)
Theorem every_ghost_count_is_logged (l : list Z) (o : Experiment)
    (w : World R) (r : Results) :
  results o = Some r ->
  NoDup l ->
  Forall (fun g => g ∈ dom (behavior_count r)) l ->
  exists r',
    for_ l (BerkeleyAdapter._log_behavior_count ext) (o, w)
    = (inr tt, (set_results (Some r') o, w)) /\
    learn_scores r' = learn_scores r /\
    test_scores r' = test_scores r /\
    dom (behavior_count r') = dom (behavior_count r) /\
    forall (g : Z) (of_agent : gmap string (list Z)),
      behavior_count r !! g = Some of_agent ->
      exists of_agent',
        behavior_count r' !! g = Some of_agent' /\
        forall behavior : string,
          of_agent' !! behavior
          = if bool_decide (g ∈ l) then
              match ghost_behavior_count ext g (games_run w) !! behavior with
              | Some count =>
                  Some (default [] (of_agent !! behavior) ++ [count])
              | None => of_agent !! behavior
              end
            else of_agent !! behavior.
Proof.
  revert o r. induction l as [|g0 l IH]; intros o r Hr Hnd Hl.
  - exists r. cbn [for_ mret Py_ret]. rewrite (Phases.set_results_id _ _ Hr).
    repeat split. intros g of_agent Hg. exists of_agent.
    split; [exact Hg|]. intros behavior.
    rewrite bool_decide_eq_false_2 by apply not_elem_of_nil. reflexivity.
  - apply NoDup_cons in Hnd as [Hg0 Hnd].
    apply Forall_cons in Hl as [Hin Hl].
    pose proof Hin as Hin'. apply elem_of_dom in Hin' as [of0 Hof0].
    destruct (ghost_counts_are_appended ext g0 o w r of0 Hr Hof0)
      as (r1 & of0' & Hlog & Hlearn & Htest & Hcount & Hof0').
    assert (Hdom : dom (behavior_count r1) = dom (behavior_count r)).
    { rewrite Hcount, dom_insert_L.
      apply subseteq_union_1_L, singleton_subseteq_l. exact Hin. }
    destruct (IH (set_results (Some r1) o) r1 eq_refl Hnd)
      as (r' & Hfor & H1 & H2 & H3 & H4).
    { rewrite Hdom. exact Hl. }
    exists r'. cbn [for_]. rewrite bind_unfold, Hlog, Hfor.
    split; [reflexivity|]. split; [congruence|]. split; [congruence|].
    split; [congruence|].
    intros g of_agent Hg.
    destruct (decide (g = g0)) as [->|Hne].
    + rewrite Hof0 in Hg. injection Hg as <-.
      destruct (H4 g0 of0') as (of'' & Hlook & Hsame).
      { rewrite Hcount. apply lookup_insert_eq. }
      exists of''. split; [exact Hlook|]. intros behavior.
      rewrite Hsame, bool_decide_eq_false_2 by exact Hg0.
      rewrite bool_decide_eq_true_2 by left. apply Hof0'.
    + destruct (H4 g of_agent) as (of'' & Hlook & Hsame).
      { rewrite Hcount, lookup_insert_ne by congruence. exact Hg. }
      exists of''. split; [exact Hlook|]. intros behavior.
      rewrite Hsame.
      destruct (bool_decide_reflect (g ∈ l)) as [Hgl|Hgl].
      * rewrite bool_decide_eq_true_2 by (right; exact Hgl). reflexivity.
      * rewrite bool_decide_eq_false_2
          by (intros H; apply elem_of_cons in H as [H|H]; contradiction).
        reflexivity.
Qed.

End Runs.

Lemma stored_pacman_policy_is_never_sent_witness :
  exists o',
    start with_stored_policy
      (constructed resumed {| width := 20; height := 11 |}
         BehaviorLearningGhostAgent, Samples.world)
    = (inl (NameError "policy"), (o', Samples.world)) /\
    policy (pacman o') = PyStr "weights".
Proof.
  destruct (stored_pacman_policy_is_never_sent with_stored_policy) as [_ H].
  apply (H (constructed resumed {| width := 20; height := 11 |}
              BehaviorLearningGhostAgent)
           Samples.world "saved.policies" {[0 := PyStr "weights"]}
           (PyStr "weights")); reflexivity.
Defined.

Lemma execute_before_start_raises_witness :
  exists o',
    execute Samples.ext
      (constructed (Samples.config "random" "ai")
         {| width := 20; height := 11 |} BehaviorLearningGhostAgent,
       Samples.world)
    = (inl (AttributeError "width"), (o', Samples.world)) /\
    results o' = None.
Proof.
  apply (execute_before_start_raises Samples.ext (Samples.config "random" "ai")
           Samples.world Samples.world).
  vm_compute. reflexivity.
Defined.

Lemma ghost_identifiers_are_one_to_n_witness :
  let o := constructed (Samples.config "random" "ai")
             {| width := 20; height := 11 |} BehaviorLearningGhostAgent in
  NoDup (ghosts o) /\
  (forall g : Z, g ∈ ghosts o <-> 1 <= g <= 3) /\
  index (pacman o) ∉ ghosts o.
Proof.
  intros o.
  destruct (ghost_identifiers_are_one_to_n Samples.ext
              (Samples.config "random" "ai") Samples.world Samples.world o)
    as (_ & _ & _ & Hnd & Hmem & _ & Hpacman).
  - vm_compute. reflexivity.
  - split; [exact Hnd|]. split; [exact Hmem | exact Hpacman].
Defined.

(** An experiment in its second game, with a count on record for the
    first ghost. *)
Definition logging : Experiment :=
  set_results
    (Some {| learn_scores := [5]; test_scores := [];
             behavior_count := {[1 := {["pursue" := [1]]}; 2 := ∅]} |})
    (constructed (Samples.config "random" "ai")
       {| width := 20; height := 11 |} BehaviorLearningGhostAgent).

Lemma every_ghost_count_is_logged_witness :
  exists r',
    for_ [1; 2] (BerkeleyAdapter._log_behavior_count Samples.ext)
      (logging, Samples.world)
    = (inr tt, (set_results (Some r') logging, Samples.world)) /\
    learn_scores r' = [5] /\
    exists of_agent',
      behavior_count r' !! 1 = Some of_agent' /\
      of_agent' !! "pursue" = Some [1; 1].
Proof.
  destruct (every_ghost_count_is_logged Samples.ext [1; 2] logging
              Samples.world
              {| learn_scores := [5]; test_scores := [];
                 behavior_count := {[1 := {["pursue" := [1]]}; 2 := ∅]} |})
    as (r' & Hfor & Hlearn & _ & _ & Hcounts).
  - reflexivity.
  - apply (bool_decide_unpack _). vm_compute. exact I.
  - apply (bool_decide_unpack _). vm_compute. exact I.
  - exists r'. split; [exact Hfor|]. split; [exact Hlearn|].
    destruct (Hcounts 1 {["pursue" := [1]]} eq_refl)
      as (of_agent' & Hlook & Hlabels).
    exists of_agent'. split; [exact Hlook|].
    exact (Hlabels "pursue").
Defined.
End Lifecycle.

(** ** The end of an experiment *)

Module StopFacts.
Import Adapter Adapter.messages Adapter.BerkeleyAdapterAgent.
Import Adapter.BerkeleyAdapter.
Import FrameFacts ExperimentFacts Lifecycle.

Section Stop.
Context {R : Type} (get_policy : Z -> PyVal).

Lemma finish_experiment_returns (o : Experiment) (w : World R) (disk : Disk) :
  on_experiment (on_pacman finish_experiment) ((o, w), disk)
  = (inr tt, ((o, w), disk)).
Proof.
  unfold on_experiment, zoom. cbn [fst snd]. rewrite on_pacman_unfold.
  cbn [finish_experiment mret Py_ret fst snd].
  destruct o; reflexivity.
Qed.

(** With a policy file, [stop] saves nothing: [_save_policies] raises on
    its first statement, which reads [self.pacman_class]; neither the
    policies nor the results are written, and the experiment is as it
    was. *)
Theorem stop_with_policy_file_saves_nothing (o : Experiment) (w : World R)
    (disk : Disk) (f : string) :
  policy_file o = Some f ->
  f <> "" ->
  stop get_policy ((o, w), disk)
  = (inl (AttributeError "pacman_class"), ((o, w), disk)).
Proof.
  intros Hf Hne. unfold stop.
  rewrite bind_unfold, finish_experiment_returns.
  rewrite bind_unfold. unfold on_experiment at 1, zoom at 1. cbn [self fst snd].
  rewrite bind_unfold, Hf.
  assert (Htruthy : truthy (PyStr f) = true).
  { cbn [truthy]. destruct (String.eqb_spec f ""); [contradiction|reflexivity]. }
  rewrite Htruthy. reflexivity.
Qed.

(** Without a policy file, [stop] writes the results of a started
    experiment under the name of the output file, replacing what was
    there and touching no other file, the experiment or the channel; on an
    experiment that was not started it raises and writes nothing. *)
Theorem stop_writes_the_results (o : Experiment) (w : World R) (disk : Disk) :
  policy_file o = None \/ policy_file o = Some "" ->
  stop get_policy ((o, w), disk)
  = match results o with
    | Some r =>
        (inr tt, ((o, w), <[output_file o := PickledResults r]> disk))
    | None => (inl (AttributeError "results"), ((o, w), disk))
    end.
Proof.
  intros Hf. unfold stop.
  rewrite bind_unfold, finish_experiment_returns.
  rewrite bind_unfold. unfold on_experiment at 1, zoom at 1. cbn [self fst snd].
  rewrite bind_unfold.
  assert (Hcond : match policy_file o with
                  | Some f => truthy (PyStr f)
                  | None => false
                  end = false).
  { destruct Hf as [-> | ->]; reflexivity. }
  rewrite Hcond. cbn [mret Py_ret].
  rewrite bind_unfold. unfold on_experiment at 1, zoom at 1, the_results.
  cbn [fst snd]. rewrite bind_unfold. cbn [self fst snd].
  destruct (results o) as [r|]; [|reflexivity].
  cbn [attribute mret Py_ret fst snd].
  rewrite bind_unfold. reflexivity.
Qed.

End Stop.

Lemma stop_with_policy_file_saves_nothing_witness :
  stop (fun _ => PyNone)
    ((constructed resumed {| width := 20; height := 11 |}
        BehaviorLearningGhostAgent, Samples.world), ∅)
  = (inl (AttributeError "pacman_class"),
     ((constructed resumed {| width := 20; height := 11 |}
         BehaviorLearningGhostAgent, Samples.world), ∅)).
Proof.
  apply (stop_with_policy_file_saves_nothing (fun _ => PyNone)
           (constructed resumed {| width := 20; height := 11 |}
              BehaviorLearningGhostAgent) Samples.world ∅ "saved.policies").
  - reflexivity.
  - discriminate.
Defined.

Lemma stop_writes_the_results_witness :
  stop (fun _ => PyNone) ((logging, Samples.world), ∅)
  = (inr tt,
     ((logging, Samples.world),
      <["random_classic_3_ai.res" :=
          PickledResults
            {| learn_scores := [5]; test_scores := [];
               behavior_count := {[1 := {["pursue" := [1]]}; 2 := ∅]} |}]> ∅)).
Proof.
  pose proof (stop_writes_the_results (fun _ => PyNone) logging Samples.world
                ∅ (or_introl eq_refl)) as H.
  vm_compute in H |- *. exact H.
Defined.

End StopFacts.

(** ** The two phases on the sample experiment *)

Module PhaseSamples.
Import Adapter Adapter.messages Adapter.BerkeleyAdapterAgent.
Import Adapter.BerkeleyAdapter.
Import AgentFacts FrameFacts AdapterClaims ExperimentFacts Phases.

Lemma experiment_runs_both_phases_witness :
  exists s' learn_logs test_logs r',
    execute Samples.ext sample_started = (inr tt, s') /\
    results s'.1 = Some r' /\
    length (learn_scores r') = 3%nat /\
    length (test_scores r') = 2%nat /\
    length learn_logs = 3%nat /\
    length test_logs = 2%nat /\
    sent s'.2 = sent sample_started.2 ++ concat learn_logs ++ concat test_logs /\
    Forall (episode_messages false) learn_logs /\
    Forall (episode_messages true) test_logs /\
    is_test_mode (pacman s'.1) = true /\
    games_run s'.2 = 5%nat.
Proof.
  apply (experiment_runs_both_phases Samples.ext sample_answers_states
           (Samples.config "random" "ai") Samples.world Samples.world
           (constructed (Samples.config "random" "ai")
              {| width := 20; height := 11 |} BehaviorLearningGhostAgent)
           sample_started).
  - vm_compute. discriminate.
  - discriminate.
  - vm_compute. discriminate.
  - vm_compute. discriminate.
  - vm_compute. reflexivity.
  - vm_compute. reflexivity.
Defined.

(** The sample experiment, constructed and started with a Pac-Man agent
    of type [ai]. *)
Definition sample_started_ai : Experiment * World unit :=
  (start Samples.ext
     (constructed (Samples.config "ai" "ai")
        {| width := 20; height := 11 |} BehaviorLearningGhostAgent,
      Samples.world)).2.

Lemma execute_of_ai_raises_witness :
  exists s' score r r',
    execute Samples.ext sample_started_ai
    = (inl (AttributeError "pacman"), s') /\
    results sample_started_ai.1 = Some r /\
    results s'.1 = Some r' /\
    learn_scores r' = learn_scores r ++ [score] /\
    test_scores r' = test_scores r /\
    is_test_mode (pacman s'.1) = is_test_mode (pacman sample_started_ai.1) /\
    games_run s'.2 = S (games_run sample_started_ai.2).
Proof.
  destruct (start_leaves_started Samples.ext (Samples.config "ai" "ai")
              Samples.world Samples.world
              (constructed (Samples.config "ai" "ai")
                 {| width := 20; height := 11 |} BehaviorLearningGhostAgent)
              sample_started_ai) as (Hstarted & Htype & _ & Hruns & _).
  - vm_compute. discriminate.
  - vm_compute. reflexivity.
  - vm_compute. reflexivity.
  - apply (execute_of_ai_raises Samples.ext sample_answers_states
             sample_started_ai Hstarted Htype).
    + rewrite Hruns. reflexivity.
    + rewrite Hruns. vm_compute. discriminate.
Defined.

End PhaseSamples.
